(** * Foundry agent function app: settings, tool registry and queue handlers

    A shallow embedding of the Python sources

    - [src/src/foundry_agents/utils/akv.py]
        ([get_secret], [clear_cache])
    - [src/src/foundry_agents/configs/settings.py]
        ([Settings], [get_settings])
    - [src/src/foundry_agents/configs/tools_registry.py]
        ([resolve_tools])
    - [src/src/foundry_agents/prompts/agent_prompts.py]
        ([get_prompt])
    - [src/src/foundry_agents/utils/foundry_client.py]
        ([get_project_client])
    - [src/src/function_app.py]   (the handler [create_agent])
    - [src/function_app.py]       (the handler [agent_creation_processor])

    Module-level state of the Python process (the secret cache, the
    [lru_cache]s, the logging output) and the calls made to the outside world
    (Key Vault, the agents service) are threaded through a state-and-exception
    monad over the record [World].  Python strings are taken with one
    character per byte. *)

From Stdlib Require Import String List ZArith Bool Arith Lia Floats.
Import ListNotations.
Open Scope string_scope.

Set Implicit Arguments.
Set Warnings "-register-all".

(* ================================================================= *)
(** ** Python dictionaries *)

(** A [dict] with string keys, kept in insertion order as CPython does.
    [set] on a key that is present replaces the value in place; on a new
    key it appends the binding. *)
Module PyDict.
Section Ops.
Variable V : Type.

Definition dict := list (string * V).

Fixpoint get (d : dict) (k : string) : option V :=
  match d with
  | [] => None
  | (k', v) :: d' => if String.eqb k' k then Some v else get d' k
  end.

Definition mem (k : string) (d : dict) : bool :=
  match get d k with Some _ => true | None => false end.

Definition get_default (d : dict) (k : string) (dflt : V) : V :=
  match get d k with Some v => v | None => dflt end.

Fixpoint set (d : dict) (k : string) (v : V) : dict :=
  match d with
  | [] => [(k, v)]
  | (k', v') :: d' =>
      if String.eqb k' k then (k', v) :: d' else (k', v') :: set d' k v
  end.

Fixpoint remove (d : dict) (k : string) : dict :=
  match d with
  | [] => []
  | (k', v') :: d' =>
      if String.eqb k' k then remove d' k else (k', v') :: remove d' k
  end.

Definition keys (d : dict) : list string := map fst d.

(** The invariant of a real dictionary: no key is bound twice. *)
Definition wf (d : dict) : Prop := NoDup (keys d).
End Ops.

Arguments get {V} d k.
Arguments mem {V} k d.
Arguments get_default {V} d k dflt.
Arguments set {V} d k v.
Arguments remove {V} d k.
Arguments keys {V} d.
Arguments wf {V} d.
End PyDict.

Abbreviation dict := PyDict.dict.

(* ================================================================= *)
(** ** Values decoded from JSON *)

(** What [json.loads] produces: [None], [bool], [int], [float], [str],
    [list] and [dict]. *)
Inductive json : Type :=
| JNull
| JBool (b : bool)
| JInt (z : Z)
| JFloat (f : float)
| JStr (s : string)
| JArr (items : list json)
| JObj (fields : list (string * json)).

(** Python truth value testing, as used by [or] and [not]. *)
Definition truthy (v : json) : bool :=
  match v with
  | JNull => false
  | JBool b => b
  | JInt z => negb (Z.eqb z 0)
  | JFloat f => negb (PrimFloat.eqb f 0%float)
  | JStr s => negb (String.eqb s "")
  | JArr items => match items with [] => false | _ :: _ => true end
  | JObj fields => match fields with [] => false | _ :: _ => true end
  end.

(** [a or b] where [b] is already a value. *)
Definition py_or (a b : json) : json := if truthy a then a else b.

(** Lists and dicts cannot be dictionary keys. *)
Definition hashable (v : json) : bool :=
  match v with
  | JArr _ | JObj _ => false
  | _ => true
  end.

(** The Python type name, for error messages. *)
Definition type_name (v : json) : string :=
  match v with
  | JNull => "NoneType"
  | JBool _ => "bool"
  | JInt _ => "int"
  | JFloat _ => "float"
  | JStr _ => "str"
  | JArr _ => "list"
  | JObj _ => "dict"
  end.

(* ================================================================= *)
(** ** Exceptions and results *)

Inductive exn : Type :=
| KeyError (key : string)
| TypeError (msg : string)
| AttributeError (msg : string)
| ValueError (msg : string)
| UnicodeDecodeError (msg : string)          (* subclass of ValueError *)
| JSONDecodeError (msg : string)             (* subclass of ValueError *)
| ResourceNotFoundError (msg : string)       (* azure.core.exceptions *)
| ServiceRequestError (msg : string)         (* azure.core.exceptions *)
| HttpResponseError (msg : string).          (* azure.core.exceptions *)

(** [isinstance(e, json.JSONDecodeError)] *)
Definition is_JSONDecodeError (e : exn) : bool :=
  match e with JSONDecodeError _ => true | _ => false end.

(** [isinstance(e, ValueError)] *)
Definition is_ValueError (e : exn) : bool :=
  match e with
  | ValueError _ | UnicodeDecodeError _ | JSONDecodeError _ => true
  | _ => false
  end.

Inductive result (A : Type) : Type :=
| Ok (a : A)
| Raise (e : exn).
Arguments Ok {A} a.
Arguments Raise {A} e.

(** [d[k]] *)
Definition subscript {V} (d : dict V) (k : string) : result V :=
  match PyDict.get d k with
  | Some v => Ok v
  | None => Raise (KeyError k)
  end.

(* ================================================================= *)
(** ** Logging *)

Inductive level := DEBUG | INFO | WARNING | ERROR.

(** A value interpolated into a log message. *)
Inductive log_arg : Type :=
| AStr (s : string)
| AJson (v : json)
| ANames (l : list string)
| AExn (e : exn).

(** One call to [logging.<level>(msg, *args)]; an f-string is kept as
    its literal text with the interpolated values in [log_args]. *)
Record log_record : Type := LogRecord {
  log_level : level;
  log_msg : string;
  log_args : list log_arg
}.

(* ================================================================= *)
(** ** Objects of the program *)

(** [azure.identity] credentials; building one contacts nobody. *)
Inductive credential : Type :=
| ManagedIdentityCredential (client_id : string)
| DefaultAzureCredential.

Record SecretClient : Type := {
  vault_url : string;
  secret_credential : credential
}.

Record AIProjectClient : Type := {
  endpoint : string;
  project_credential : credential
}.

(** [settings.py]: the frozen dataclass [Settings]. *)
Record Settings : Type := {
  foundry_project_endpoint : string;
  ai_search_connection_id : string;
  ai_search_index_name : string;
  mcp_connection_id : string;
  azure_client_id : string;
  key_vault_uri : string;
  storage_queue_name : string
}.

(** An object together with its identity ([id(obj)]): [a is b] holds
    exactly when the two identities agree. *)
Record instance (A : Type) : Type := {
  obj_id : nat;
  obj_val : A
}.

(** The [tool_resources] of the entries and their merge: a top-level key
    per resource type, below it sub-keys bound to lists, which is what
    every registered builder returns and what the merge loop expects. *)
Definition resources : Type := dict (dict (list json)).

(** The keyword arguments of [project_client.agents.create_agent]. *)
Record create_agent_args : Type := {
  arg_model : json;
  arg_name : json;
  arg_instructions : json;
  arg_tools : list json;
  arg_tool_resources : resources
}.

Record Agent : Type := { agent_id : string }.

(** What the process does not control: its environment variables, the
    Key Vault and the agents service.  A service may answer the same
    request differently over time, so an answer depends on the number of
    requests the process has sent before. *)
Record Platform : Type := {
  environ : dict string;
  (* what the constructor SecretClient(vault_url=..., credential=...) of
     the library checks of a URL that is not empty *)
  secret_client_init : string -> credential -> result unit;
  kv_get_secret : SecretClient -> nat -> string -> result (option string);
  agents_create_agent :
    AIProjectClient -> nat -> create_agent_args -> result Agent;
  (* library codecs, taken as given: bytes.decode("utf-8") and json.loads *)
  bytes_decode : string -> result string;
  json_loads : string -> result json
}.

(** [azure.functions.QueueMessage]: the raw body of the message. *)
Record QueueMessage : Type := { get_body : string }.

(** Module-level state of the process and the trace of its effects. *)
Record World : Type := {
  client_cache : option SecretClient;            (* lru_cache of _get_client *)
  secret_cache : dict string;                    (* akv._secret_cache *)
  settings_cache : option (instance Settings);   (* lru_cache of get_settings *)
  project_client_cache : option AIProjectClient; (* lru_cache of get_project_client *)
  next_obj_id : nat;
  kv_requests : list string;                     (* names asked of the vault *)
  agent_requests : list create_agent_args;       (* create_agent calls sent *)
  log : list log_record
}.

(** A freshly started process. *)
Definition fresh_world : World := {|
  client_cache := None;
  secret_cache := [];
  settings_cache := None;
  project_client_cache := None;
  next_obj_id := 0;
  kv_requests := [];
  agent_requests := [];
  log := []
|}.

Definition set_client_cache (c : option SecretClient) (w : World) : World :=
  {| client_cache := c; secret_cache := secret_cache w;
     settings_cache := settings_cache w;
     project_client_cache := project_client_cache w;
     next_obj_id := next_obj_id w; kv_requests := kv_requests w;
     agent_requests := agent_requests w; log := log w |}.

Definition set_secret_cache (c : dict string) (w : World) : World :=
  {| client_cache := client_cache w; secret_cache := c;
     settings_cache := settings_cache w;
     project_client_cache := project_client_cache w;
     next_obj_id := next_obj_id w; kv_requests := kv_requests w;
     agent_requests := agent_requests w; log := log w |}.

Definition set_settings_cache (c : option (instance Settings)) (w : World)
  : World :=
  {| client_cache := client_cache w; secret_cache := secret_cache w;
     settings_cache := c;
     project_client_cache := project_client_cache w;
     next_obj_id := next_obj_id w; kv_requests := kv_requests w;
     agent_requests := agent_requests w; log := log w |}.

Definition set_project_client_cache (c : option AIProjectClient) (w : World)
  : World :=
  {| client_cache := client_cache w; secret_cache := secret_cache w;
     settings_cache := settings_cache w;
     project_client_cache := c;
     next_obj_id := next_obj_id w; kv_requests := kv_requests w;
     agent_requests := agent_requests w; log := log w |}.

Definition set_next_obj_id (n : nat) (w : World) : World :=
  {| client_cache := client_cache w; secret_cache := secret_cache w;
     settings_cache := settings_cache w;
     project_client_cache := project_client_cache w;
     next_obj_id := n; kv_requests := kv_requests w;
     agent_requests := agent_requests w; log := log w |}.

Definition set_kv_requests (l : list string) (w : World) : World :=
  {| client_cache := client_cache w; secret_cache := secret_cache w;
     settings_cache := settings_cache w;
     project_client_cache := project_client_cache w;
     next_obj_id := next_obj_id w; kv_requests := l;
     agent_requests := agent_requests w; log := log w |}.

Definition set_agent_requests (l : list create_agent_args) (w : World)
  : World :=
  {| client_cache := client_cache w; secret_cache := secret_cache w;
     settings_cache := settings_cache w;
     project_client_cache := project_client_cache w;
     next_obj_id := next_obj_id w; kv_requests := kv_requests w;
     agent_requests := l; log := log w |}.

Definition set_log (l : list log_record) (w : World) : World :=
  {| client_cache := client_cache w; secret_cache := secret_cache w;
     settings_cache := settings_cache w;
     project_client_cache := project_client_cache w;
     next_obj_id := next_obj_id w; kv_requests := kv_requests w;
     agent_requests := agent_requests w; log := l |}.

(* ================================================================= *)
(** ** The monad of the program: state and exceptions *)

(** A computation runs in a world and ends with a value or a raised
    exception; either way the world keeps the changes made so far. *)
Definition M (A : Type) : Type := World -> result A * World.

Definition ret {A} (a : A) : M A := fun w => (Ok a, w).

Definition raise {A} (e : exn) : M A := fun w => (Raise e, w).

Definition bind {A B} (c : M A) (k : A -> M B) : M B :=
  fun w =>
    match c w with
    | (Ok a, w') => k a w'
    | (Raise e, w') => (Raise e, w')
    end.

Declare Scope monad_scope.
Delimit Scope monad_scope with monad.
Notation "x <- c ;; k" := (bind c (fun x => k))
  (at level 61, c at next level, right associativity) : monad_scope.
Notation "c ;; k" := (bind c (fun _ => k))
  (at level 61, right associativity) : monad_scope.
Open Scope monad_scope.

(** Lift a pure result. *)
Definition lift {A} (r : result A) : M A := fun w => (r, w).

Definition gets {A} (f : World -> A) : M A := fun w => (Ok (f w), w).

Definition modify (f : World -> World) : M unit := fun w => (Ok tt, f w).

(** [try: c  except Exception as e: h e] *)
Definition try_except {A} (c : M A) (h : exn -> M A) : M A :=
  fun w =>
    match c w with
    | (Ok a, w') => (Ok a, w')
    | (Raise e, w') => h e w'
    end.

(** [logging.<lvl>(msg, *args)] *)
Definition logging (lvl : level) (msg : string) (args : list log_arg)
  : M unit :=
  modify (fun w => set_log (log w ++ [LogRecord lvl msg args]) w).

(** [@lru_cache(maxsize=1)] on a function without arguments: the first
    call that returns fills the slot, later calls read it.  A call that
    raises stores nothing. *)
Definition lru_cache {A} (slot : World -> option A)
    (fill : option A -> World -> World) (body : M A) : M A :=
  cached <- gets slot;;
  match cached with
  | Some a => ret a
  | None => a <- body;; modify (fill (Some a));; ret a
  end.

(** Allocate a new object. *)
Definition new_object {A} (a : A) : M (instance A) :=
  n <- gets next_obj_id;;
  modify (set_next_obj_id (S n));;
  ret {| obj_id := n; obj_val := a |}.

(* ================================================================= *)
(** ** src/src/foundry_agents/configs/constants.py *)

Module constants.
Definition KV_FOUNDRY_PROJECT_ENDPOINT := "foundry-project-endpoint".
Definition KV_AI_SEARCH_CONNECTION_ID := "ai-search-connection-id".
Definition KV_AI_SEARCH_INDEX_NAME := "ai-search-index-name".
Definition KV_MCP_CONNECTION_ID := "mcp-connection-id".
Definition AGENT_QUEUE_NAME := "agent-jobs".
End constants.

(* ================================================================= *)
(** ** src/src/foundry_agents/utils/akv.py *)

Module akv.
Section WithPlatform.
Variable P : Platform.

Definition _build_credential : credential :=
  let client_id := PyDict.get_default (environ P) "AZURE_CLIENT_ID" "" in
  if String.eqb client_id "" then DefaultAzureCredential
  else ManagedIdentityCredential client_id.

(** [SecretClient(vault_url=vault_uri, credential=cred)]: the constructor
    contacts nobody.  It raises [ValueError] for an empty URL; whatever
    else it checks is the platform's answer. *)
Definition SecretClient_new (vault_uri : string) (cred : credential)
  : result SecretClient :=
  if String.eqb vault_uri "" then
    Raise (ValueError "vault_url must be the URL of an Azure Key Vault")
  else
    match secret_client_init P vault_uri cred with
    | Ok _ => Ok {| vault_url := vault_uri; secret_credential := cred |}
    | Raise e => Raise e
    end.

(** [os.environ["KEY_VAULT_URI"]] raises [KeyError] when the variable is
    not set. *)
Definition _get_client : M SecretClient :=
  lru_cache client_cache set_client_cache
    (match PyDict.get (environ P) "KEY_VAULT_URI" with
     | None => raise (KeyError "KEY_VAULT_URI")
     | Some vault_uri => lift (SecretClient_new vault_uri _build_credential)
     end).

(** [client.get_secret(name).value]: one request to the vault. *)
Definition client_get_secret (client : SecretClient) (name : string)
  : M (option string) :=
  fun w =>
    (kv_get_secret P client (length (kv_requests w)) name,
     set_kv_requests (kv_requests w ++ [name]) w).

(** [value or ""] on an optional string. *)
Definition or_empty (value : option string) : string :=
  match value with
  | Some s => if String.eqb s "" then "" else s
  | None => ""
  end.

Definition get_secret (name : string) (use_cache : bool) : M string :=
  cache <- gets secret_cache;;
  if use_cache && PyDict.mem name cache then
    lift (subscript cache name)
  else
    client <- _get_client;;
    fetched <- client_get_secret client name;;
    let value := or_empty fetched in
    modify (fun w =>
              set_secret_cache (PyDict.set (secret_cache w) name value) w);;
    logging DEBUG "Fetched secret '%s' from Key Vault." [AStr name];;
    ret value.

Definition clear_cache : M unit :=
  modify (set_secret_cache []).

(** Descriptions of the runs of the functions above, used to state their
    properties. *)

(** What [_get_client] returns in a world. *)
Definition the_client (w : World) : result SecretClient :=
  match client_cache w with
  | Some c => Ok c
  | None =>
      match PyDict.get (environ P) "KEY_VAULT_URI" with
      | Some uri => SecretClient_new uri _build_credential
      | None => Raise (KeyError "KEY_VAULT_URI")
      end
  end.

(** The world after a successful fetch of [name] with value [value]. *)
Definition fetched_world (c : SecretClient) (name value : string) (w : World)
  : World :=
  set_log (log w ++ [LogRecord DEBUG "Fetched secret '%s' from Key Vault."
                       [AStr name]])
    (set_secret_cache (PyDict.set (secret_cache w) name value)
       (set_kv_requests (kv_requests w ++ [name])
          (set_client_cache (Some c) w))).

(** The world after a failed fetch of [name]. *)
Definition failed_world (c : SecretClient) (name : string) (w : World)
  : World :=
  set_kv_requests (kv_requests w ++ [name]) (set_client_cache (Some c) w).

(** A caller looking up several secrets one after the other. *)
Fixpoint lookups (names : list string) : M (list string) :=
  match names with
  | [] => ret []
  | name :: rest =>
      value <- get_secret name true;;
      values <- lookups rest;;
      ret (value :: values)
  end.

End WithPlatform.
End akv.

(* ================================================================= *)
(** ** src/src/foundry_agents/configs/settings.py *)

Module settings.
Import constants.
Section WithPlatform.
Variable P : Platform.

(** [Settings()]: the default factories run in field order. *)
Definition Settings_new : M (instance Settings) :=
  v_endpoint <- akv.get_secret P KV_FOUNDRY_PROJECT_ENDPOINT true;;
  v_search_id <- akv.get_secret P KV_AI_SEARCH_CONNECTION_ID true;;
  v_index <- akv.get_secret P KV_AI_SEARCH_INDEX_NAME true;;
  v_mcp <- akv.get_secret P KV_MCP_CONNECTION_ID true;;
  new_object
    {| foundry_project_endpoint := v_endpoint;
       ai_search_connection_id := v_search_id;
       ai_search_index_name := v_index;
       mcp_connection_id := v_mcp;
       azure_client_id := PyDict.get_default (environ P) "AZURE_CLIENT_ID" "";
       key_vault_uri := PyDict.get_default (environ P) "KEY_VAULT_URI" "";
       storage_queue_name := AGENT_QUEUE_NAME |}.

Definition get_settings : M (instance Settings) :=
  lru_cache settings_cache set_settings_cache Settings_new.

(** The secrets behind the fields of [Settings], in field order. *)
Definition secret_names : list string :=
  [KV_FOUNDRY_PROJECT_ENDPOINT; KV_AI_SEARCH_CONNECTION_ID;
   KV_AI_SEARCH_INDEX_NAME; KV_MCP_CONNECTION_ID].

End WithPlatform.
End settings.

(* ================================================================= *)
(** ** src/src/foundry_agents/configs/tools_registry.py *)

Module tools_registry.

(** The frozen dataclass [ToolEntry]. *)
Record ToolEntry : Type := {
  tool_def : json;
  tool_resources : resources
}.

(** A builder reads the settings, may emit diagnostics, and returns its
    entry; every call builds its dictionaries anew. *)
Definition ToolBuilder : Type := Settings -> list log_record * ToolEntry.

Definition _build_ai_search : ToolBuilder := fun settings =>
  ((if String.eqb (ai_search_connection_id settings) ""
       || String.eqb (ai_search_index_name settings) ""
    then [LogRecord WARNING
            ("ai_search requested but AI_SEARCH_CONNECTION_ID / AI_SEARCH_INDEX_NAME "
             ++ "are not configured — tool will be registered without index bindings.")
            []]
    else []),
   {| tool_def := JObj [("type", JStr "azure_ai_search")];
      tool_resources :=
        [("azure_ai_search",
          [("indexes",
            [JObj [("index_connection_id",
                    JStr (ai_search_connection_id settings));
                   ("index_name", JStr (ai_search_index_name settings))]])])]
   |}).

Definition _build_microsoft_learn_mcp : ToolBuilder := fun settings =>
  ((if String.eqb (mcp_connection_id settings) ""
    then [LogRecord WARNING
            "microsoft_learn_mcp requested but MCP_CONNECTION_ID is not set."
            []]
    else []),
   {| tool_def :=
        JObj [("type", JStr "remote_mcp");
              ("remote_mcp",
               JObj [("connection_id", JStr (mcp_connection_id settings))])];
      tool_resources := [] |}).

Definition _build_code_interpreter : ToolBuilder := fun _settings =>
  ([], {| tool_def := JObj [("type", JStr "code_interpreter")];
          tool_resources := [] |}).

Definition TOOL_REGISTRY : dict ToolBuilder :=
  [("ai_search", _build_ai_search);
   ("microsoft_learn_mcp", _build_microsoft_learn_mcp);
   ("code_interpreter", _build_code_interpreter)].

(** [for x in v]: the items a [for] loop visits, or [TypeError].  A string
    yields its characters, a dict its keys. *)
Definition py_iter (v : json) : result (list json) :=
  match v with
  | JArr items => Ok items
  | JStr s =>
      Ok (map (fun c => JStr (String c EmptyString)) (list_ascii_of_string s))
  | JObj fields => Ok (map (fun kv => JStr (fst kv)) fields)
  | _ => Raise (TypeError ("'" ++ type_name v ++ "' object is not iterable"))
  end.

(** [registry.get(name)] for a key of any JSON type: an unhashable key
    raises, a key that is not a string is never found. *)
Definition registry_get {V} (registry : dict V) (name : json)
  : result (option V) :=
  match name with
  | JStr s => Ok (PyDict.get registry s)
  | JArr _ | JObj _ =>
      Raise (TypeError ("unhashable type: '" ++ type_name name ++ "'"))
  | _ => Ok None
  end.

(** Lines 132-134: the inner loop, for a [key] already in [tool_resources]:
    [tool_resources[key][sub_key] = tool_resources[key].get(sub_key, []) + sub_val]. *)
Definition merge_lists (tool_resources : resources) (key : string)
    (value : dict (list json)) : resources :=
  fold_left
    (fun (acc : resources) (item : string * list json) =>
       let (sub_key, sub_val) := item in
       let at_key := PyDict.get_default acc key [] in
       let existing := PyDict.get_default at_key sub_key [] in
       PyDict.set acc key (PyDict.set at_key sub_key (existing ++ sub_val)%list))
    value tool_resources.

(** Lines 129-136: merge the fragment of one entry into [tool_resources]. *)
Definition merge_resources (tool_resources entry_resources : resources)
  : resources :=
  fold_left
    (fun (acc : resources) (item : string * dict (list json)) =>
       let (key, value) := item in
       if PyDict.mem key acc then merge_lists acc key value
       else PyDict.set acc key value)
    entry_resources tool_resources.

Section WithRegistry.
Variable P : Platform.
(** The module-level registry the function reads. *)
Variable registry : dict ToolBuilder.

(** Lines 119-136: the loop over the names, with its two accumulators. *)
Fixpoint resolve_loop (settings : Settings) (names : list json)
    (tools : list json) (tool_resources : resources)
  : M (list json * resources) :=
  match names with
  | [] => ret (tools, tool_resources)
  | name :: rest =>
      builder <- lift (registry_get registry name);;
      match builder with
      | None =>
          logging ERROR "Unknown tool '%s' — skipping. Known tools: %s"
            [AJson name; ANames (PyDict.keys registry)];;
          resolve_loop settings rest tools tool_resources
      | Some build =>
          let (diagnostics, entry) := build settings in
          modify (fun w => set_log (log w ++ diagnostics) w);;
          resolve_loop settings rest
            (tools ++ [tool_def entry])%list
            (merge_resources tool_resources
               (tools_registry.tool_resources entry))
      end
  end.

Definition resolve_tools_in (tool_names : json) : M (list json * resources) :=
  settings <- settings.get_settings P;;
  names <- lift (py_iter tool_names);;
  resolve_loop (obj_val settings) names [] [].

End WithRegistry.

Definition resolve_tools (P : Platform) (tool_names : json)
  : M (list json * resources) :=
  resolve_tools_in P TOOL_REGISTRY tool_names.

(** Descriptions of a run of [resolve_tools_in] on a list of strings, used
    to state its properties. *)
Section Outcome.
Variable registry : dict ToolBuilder.
Variable settings : Settings.

(** The entries built for the names found in the registry, in input
    order, each with the diagnostics of its builder. *)
Definition built (names : list string) : list (list log_record * ToolEntry) :=
  flat_map
    (fun name =>
       match PyDict.get registry name with
       | Some build => [build settings]
       | None => []
       end)
    names.

(** Their [tool_resources] fragments. *)
Definition fragments (names : list string) : list resources :=
  map (fun e => tool_resources (snd e)) (built names).

(** The diagnostic for a name the registry does not have. *)
Definition unknown_tool (name : string) : log_record :=
  LogRecord ERROR "Unknown tool '%s' — skipping. Known tools: %s"
    [AJson (JStr name); ANames (PyDict.keys registry)].

End Outcome.

(** The list found under [key] and [sub_key], empty when there is none. *)
Definition lists_at (r : resources) (key sub_key : string) : list json :=
  PyDict.get_default (PyDict.get_default r key []) sub_key [].

(** Both levels of a fragment are real dictionaries. *)
Definition wf_resources (r : resources) : Prop :=
  PyDict.wf r /\ Forall (fun item => PyDict.wf (snd item)) r.

Definition list_available_tools : list string := PyDict.keys TOOL_REGISTRY.

End tools_registry.

(* ================================================================= *)
(** ** src/src/foundry_agents/prompts/agent_prompts.py *)

Module agent_prompts.

Definition AGENT_PROMPTS : dict string :=
  [("doc-bot",
    "You are a documentation assistant. "
    ++ "Use the connected AI Search index to find relevant documentation, "
    ++ "then provide clear, concise answers with source references. "
    ++ "If the answer is not in the index, say so honestly.");
   ("code-helper",
    "You are a coding assistant specialised in Azure services. "
    ++ "Answer questions about Azure SDKs, Bicep, ARM templates, "
    ++ "and cloud architecture. Provide code samples when helpful.");
   ("default",
    "You are a helpful AI assistant powered by Azure AI Foundry.")].

(** [AGENT_PROMPTS.get(agent_name, AGENT_PROMPTS["default"])]; the name
    comes from the message and may be any JSON value. *)
Definition get_prompt (agent_name : json) : result string :=
  match subscript AGENT_PROMPTS "default" with
  | Raise e => Raise e
  | Ok fallback =>
      match tools_registry.registry_get AGENT_PROMPTS agent_name with
      | Raise e => Raise e
      | Ok found => Ok (match found with Some p => p | None => fallback end)
      end
  end.

End agent_prompts.

(* ================================================================= *)
(** ** src/src/foundry_agents/utils/foundry_client.py *)

Module foundry_client.
Section WithPlatform.
Variable P : Platform.

Definition _build_credential : M credential :=
  settings <- settings.get_settings P;;
  if String.eqb (azure_client_id (obj_val settings)) "" then
    ret DefaultAzureCredential
  else
    ret (ManagedIdentityCredential (azure_client_id (obj_val settings))).

Definition get_project_client : M AIProjectClient :=
  lru_cache project_client_cache set_project_client_cache
    (settings <- settings.get_settings P;;
     cred <- _build_credential;;
     ret {| endpoint := foundry_project_endpoint (obj_val settings);
            project_credential := cred |}).

(** [project_client.agents.create_agent(...)]: one request to the agents
    service. *)
Definition agents_create (client : AIProjectClient) (args : create_agent_args)
  : M Agent :=
  fun w =>
    (agents_create_agent P client (length (agent_requests w)) args,
     set_agent_requests (agent_requests w ++ [args]) w).

End WithPlatform.
End foundry_client.

(* ================================================================= *)
(** ** The queue handlers *)

(** [config.get(key, default)] on whatever [json.loads] returned: only a
    dict has the method. *)
Definition config_get (config : json) (key : string) (default : json)
  : result json :=
  match config with
  | JObj fields => Ok (PyDict.get_default fields key default)
  | _ =>
      Raise (AttributeError
               ("'" ++ type_name config ++ "' object has no attribute 'get'"))
  end.

(** [explicit or get_prompt(agent_name)]: the prompt table is consulted
    only when the explicit value is falsy. *)
Definition instructions_or_prompt (explicit agent_name : json) : result json :=
  if truthy explicit then Ok explicit
  else
    match agent_prompts.get_prompt agent_name with
    | Ok prompt => Ok (JStr prompt)
    | Raise e => Raise e
    end.

(** *** src/src/function_app.py: the handler [create_agent] *)
Module src_function_app.
Section WithPlatform.
Variable P : Platform.

(** Lines 31-51: the body after the message has been parsed. *)
Definition create_agent_with (config : json) : M unit :=
  agent_name <- lift (config_get config "agent_name" (JStr "default-agent"));;
  model <- lift (config_get config "model" (JStr "gpt-4.1"));;
  explicit <- lift (config_get config "instructions" JNull);;
  instructions <- lift (instructions_or_prompt explicit agent_name);;
  tool_names <- lift (config_get config "tools" (JArr []));;
  resolved <- tools_registry.resolve_tools P tool_names;;
  project_client <- foundry_client.get_project_client P;;
  agent <- foundry_client.agents_create P project_client
             {| arg_model := model;
                arg_name := agent_name;
                arg_instructions := instructions;
                arg_tools := fst resolved;
                arg_tool_resources := snd resolved |};;
  logging INFO "Agent created: {agent.id} ({agent_name})"
    [AStr (agent_id agent); AJson agent_name].

Definition create_agent (msg : QueueMessage) : M unit :=
  logging INFO "Agent creation job received from queue." [];;
  parsed <- try_except
              (body <- lift (bytes_decode P (get_body msg));;
               config <- lift (json_loads P body);;
               ret (Some config))
              (fun e =>
                 if is_JSONDecodeError e || is_ValueError e then
                   logging ERROR "Invalid message format: {e}" [AExn e];;
                   ret None
                 else raise e);;
  match parsed with
  | None => ret tt                      (* the [return] of line 29 *)
  | Some config => create_agent_with config
  end.

End WithPlatform.
End src_function_app.

(** *** src/function_app.py: the handler [agent_creation_processor] *)
Module function_app.
Section WithPlatform.
Variable P : Platform.

(** Lines 52-77: the part of the [try] block after [json.loads]. *)
Definition agent_creation_with (config : json) : M unit :=
  new_name <- lift (config_get config "agent_name" JNull);;
  agent_name <- (if truthy new_name then ret new_name
                 else lift (config_get config "agentName"
                              (JStr "default-agent")));;
  model <- lift (config_get config "model" (JStr "gpt-4.1"));;
  explicit <- lift (config_get config "instructions" JNull);;
  instructions <- lift (instructions_or_prompt explicit agent_name);;
  tool_names <- lift (config_get config "tools" (JArr []));;
  logging INFO "Creating agent: {agent_name} with model: {model}"
    [AJson agent_name; AJson model];;
  logging INFO "Tools requested: {tool_names}" [AJson tool_names];;
  resolved <- tools_registry.resolve_tools P tool_names;;
  project_client <- foundry_client.get_project_client P;;
  agent <- foundry_client.agents_create P project_client
             {| arg_model := model;
                arg_name := agent_name;
                arg_instructions := instructions;
                arg_tools := fst resolved;
                arg_tool_resources := snd resolved |};;
  logging INFO "Agent created successfully: {agent.id} ({agent_name})"
    [AStr (agent_id agent); AJson agent_name].

(** Lines 79-87: the three [except] clauses, each of which logs and
    re-raises. *)
Definition on_exception (e : exn) : M unit :=
  if is_JSONDecodeError e then
    logging ERROR "Invalid JSON in queue message: {e}" [AExn e];;
    raise e
  else if is_ValueError e then
    logging ERROR "Validation error: {e}" [AExn e];;
    raise e
  else
    logging ERROR "Error processing agent creation request: {e}" [AExn e];;
    raise e.

Definition agent_creation_processor (msg : QueueMessage) : M unit :=
  logging INFO "Agent creation job received from queue" [];;
  try_except
    (message_body <- lift (bytes_decode P (get_body msg));;
     logging INFO "Queue message: {message_body}" [AStr message_body];;
     config <- lift (json_loads P message_body);;
     agent_creation_with config)
    on_exception.

End WithPlatform.
End function_app.

(* ================================================================= *)
(** ** The life of a process *)

(** The entry points of the program that a process may call, in any
    order and any number of times. *)
Inductive call : Type :=
| CallGetSecret (name : string) (use_cache : bool)
| CallClearCache
| CallGetSettings
| CallResolveTools (tool_names : json)
| CallGetProjectClient
| CallCreateAgent (msg : QueueMessage)
| CallAgentCreationProcessor (msg : QueueMessage).

(** The world after a call, whether it returned or raised. *)
Definition run_call (P : Platform) (c : call) (w : World) : World :=
  match c with
  | CallGetSecret name use_cache => snd (akv.get_secret P name use_cache w)
  | CallClearCache => snd (akv.clear_cache w)
  | CallGetSettings => snd (settings.get_settings P w)
  | CallResolveTools tool_names =>
      snd (tools_registry.resolve_tools P tool_names w)
  | CallGetProjectClient => snd (foundry_client.get_project_client P w)
  | CallCreateAgent msg => snd (src_function_app.create_agent P msg w)
  | CallAgentCreationProcessor msg =>
      snd (function_app.agent_creation_processor P msg w)
  end.

Definition run_calls (P : Platform) (calls : list call) (w : World) : World :=
  fold_left (fun w c => run_call P c w) calls w.

(** The agents service accepts the requests it is sent. *)
Definition agents_service_accepts (P : Platform) : Prop :=
  forall c n args, exists agent, agents_create_agent P c n args = Ok agent.

(** A platform on which the program finds what it needs: the vault
    location is configured and the constructor of the vault client
    accepts it, the vault serves the secrets of [Settings], and the
    agents service accepts the requests it is sent. *)
Definition services_available (P : Platform) : Prop :=
  (exists uri client,
      PyDict.get (environ P) "KEY_VAULT_URI" = Some uri
      /\ akv.SecretClient_new P uri (akv._build_credential P) = Ok client)
  /\ (forall c n name,
         In name settings.secret_names ->
         exists value, kv_get_secret P c n name = Ok value)
  /\ agents_service_accepts P.

(** The request sent for the message [{}]. *)
Definition default_request : create_agent_args :=
  {| arg_model := JStr "gpt-4.1";
     arg_name := JStr "default-agent";
     arg_instructions :=
       JStr "You are a helpful AI assistant powered by Azure AI Foundry.";
     arg_tools := [];
     arg_tool_resources := [] |}.

(* ================================================================= *)
(** ** A concrete platform, for running the program *)

Module Demo.

(** A decoder for the few message bodies used below; every other body
    is rejected the way [json.loads] rejects malformed text. *)
Definition loads (body : string) : result json :=
  if String.eqb body "{}" then Ok (JObj [])
  else Raise (JSONDecodeError "Expecting value: line 1 column 1 (char 0)").

(** Everything works: the vault holds every secret, the agents service
    accepts every request. *)
Definition platform : Platform := {|
  environ := [("KEY_VAULT_URI", "https://vault.example/")];
  secret_client_init := fun _ _ => Ok tt;
  kv_get_secret := fun _ _ name => Ok (Some ("<" ++ name ++ ">"));
  agents_create_agent := fun _ n _ => Ok {| agent_id := "asst_1" |};
  bytes_decode := fun body => Ok body;
  json_loads := loads
|}.

(** The vault holds no secret at all. *)
Definition empty_vault : Platform := {|
  environ := [("KEY_VAULT_URI", "https://vault.example/")];
  secret_client_init := fun _ _ => Ok tt;
  kv_get_secret := fun _ _ name => Raise (ResourceNotFoundError name);
  agents_create_agent := fun _ n _ => Ok {| agent_id := "asst_1" |};
  bytes_decode := fun body => Ok body;
  json_loads := loads
|}.

(** A vault whose secrets were rotated after the first request. *)
Definition rotated_vault : Platform := {|
  environ := [("KEY_VAULT_URI", "https://vault.example/")];
  secret_client_init := fun _ _ => Ok tt;
  kv_get_secret := fun _ n name =>
    Ok (Some (if Nat.eqb n 0 then "old" else "new"));
  agents_create_agent := fun _ n _ => Ok {| agent_id := "asst_1" |};
  bytes_decode := fun body => Ok body;
  json_loads := loads
|}.

(** A registry with two builders that fill the same resource key. *)
Definition two_searches : dict tools_registry.ToolBuilder :=
  [("first", fun _ =>
      ([], {| tools_registry.tool_def := JObj [("type", JStr "search")];
              tools_registry.tool_resources :=
                [("x", [("items", [JInt 1])])] |}));
   ("second", fun _ =>
      ([], {| tools_registry.tool_def := JObj [("type", JStr "search")];
              tools_registry.tool_resources :=
                [("x", [("items", [JInt 2])])] |}))].

(** A process that has looked one secret up before the rotation. *)
Definition stale_world : World :=
  snd (akv.get_secret rotated_vault "mcp-connection-id" true fresh_world).

(** The client a fresh process builds for the demo vault. *)
Definition client : SecretClient :=
  {| vault_url := "https://vault.example/";
     secret_credential := DefaultAzureCredential |}.

(** The snapshot a fresh process builds on [platform]. *)
Definition snapshot : instance Settings :=
  {| obj_id := 0;
     obj_val :=
       {| foundry_project_endpoint := "<foundry-project-endpoint>";
          ai_search_connection_id := "<ai-search-connection-id>";
          ai_search_index_name := "<ai-search-index-name>";
          mcp_connection_id := "<mcp-connection-id>";
          azure_client_id := "";
          key_vault_uri := "https://vault.example/";
          storage_queue_name := "agent-jobs" |} |}.

(** A message in the legacy format, decoded. *)
Definition legacy_message : json := JObj [("agentName", JStr "doc-bot")].

(** A day in the life of a process. *)
Definition busy_day : list call :=
  [CallClearCache;
   CallGetSecret "mcp-connection-id" false;
   CallResolveTools (JArr [JStr "ai_search"; JStr "nope"]);
   CallCreateAgent {| get_body := "{}" |};
   CallAgentCreationProcessor {| get_body := "not json" |};
   CallGetSettings].

End Demo.

(* ================================================================= *)
(** ** More platforms and messages, for running the program *)

Module Cases.

(** A decoder for a few more bodies. *)
Definition loads (body : string) : result json :=
  if String.eqb body "{}" then Ok (JObj [])
  else if String.eqb body "[]" then Ok (JArr [])
  else if String.eqb body "null" then Ok JNull
  else if String.eqb body "42" then Ok (JInt 42)
  else Raise (JSONDecodeError "Expecting value: line 1 column 1 (char 0)").

(** Everything works, as on [Demo.platform], with the larger decoder. *)
Definition platform : Platform := {|
  environ := [("KEY_VAULT_URI", "https://vault.example/")];
  secret_client_init := fun _ _ => Ok tt;
  kv_get_secret := fun _ _ name => Ok (Some ("<" ++ name ++ ">"));
  agents_create_agent := fun _ n _ => Ok {| agent_id := "asst_1" |};
  bytes_decode := fun body => Ok body;
  json_loads := loads
|}.

(** The vault location is not configured. *)
Definition no_vault_uri : Platform := {|
  environ := [];
  secret_client_init := fun _ _ => Ok tt;
  kv_get_secret := fun _ _ name => Ok (Some ("<" ++ name ++ ">"));
  agents_create_agent := fun _ n _ => Ok {| agent_id := "asst_1" |};
  bytes_decode := fun body => Ok body;
  json_loads := loads
|}.

(** The secrets exist in the vault but hold no value. *)
Definition blank_secrets : Platform := {|
  environ := [("KEY_VAULT_URI", "https://vault.example/")];
  secret_client_init := fun _ _ => Ok tt;
  kv_get_secret := fun _ _ name => Ok None;
  agents_create_agent := fun _ n _ => Ok {| agent_id := "asst_1" |};
  bytes_decode := fun body => Ok body;
  json_loads := loads
|}.

(** The vault serves the first request, fails the second, and works
    from then on. *)
Definition flaky_vault : Platform := {|
  environ := [("KEY_VAULT_URI", "https://vault.example/");
              ("AZURE_CLIENT_ID", "11111111-2222")];
  secret_client_init := fun _ _ => Ok tt;
  kv_get_secret := fun _ n name =>
    if Nat.eqb n 1 then Raise (ServiceRequestError "connection refused")
    else Ok (Some ("<" ++ name ++ ">"));
  agents_create_agent := fun _ n _ => Ok {| agent_id := "asst_1" |};
  bytes_decode := fun body => Ok body;
  json_loads := loads
|}.

(** The agents service rejects every request. *)
Definition agents_down : Platform := {|
  environ := [("KEY_VAULT_URI", "https://vault.example/")];
  secret_client_init := fun _ _ => Ok tt;
  kv_get_secret := fun _ _ name => Ok (Some ("<" ++ name ++ ">"));
  agents_create_agent := fun _ n _ =>
    Raise (HttpResponseError "(429) Too Many Requests");
  bytes_decode := fun body => Ok body;
  json_loads := loads
|}.

End Cases.

(** Worlds of a process on [Cases.flaky_vault]: after the first call of
    [get_settings], which fails, and after the second. *)
Definition flaky_first : World :=
  snd (settings.get_settings Cases.flaky_vault fresh_world).

Definition flaky_second : World :=
  snd (settings.get_settings Cases.flaky_vault flaky_first).

Definition flaky_snapshot : instance Settings :=
  {| obj_id := 0;
     obj_val :=
       {| foundry_project_endpoint := "<foundry-project-endpoint>";
          ai_search_connection_id := "<ai-search-connection-id>";
          ai_search_index_name := "<ai-search-index-name>";
          mcp_connection_id := "<mcp-connection-id>";
          azure_client_id := "11111111-2222";
          key_vault_uri := "https://vault.example/";
          storage_queue_name := "agent-jobs" |} |}.

(** The client a fresh process on [Demo.rotated_vault] builds, the world
    it leaves, and what the process may do afterwards. *)
Definition first_client : AIProjectClient :=
  {| endpoint := "old"; project_credential := DefaultAzureCredential |}.

Definition client_built : World :=
  snd (foundry_client.get_project_client Demo.rotated_vault fresh_world).

Definition refresh_endpoint : list call :=
  [CallClearCache;
   CallGetSecret "foundry-project-endpoint" false;
   CallCreateAgent {| get_body := "{}" |}].

(* ================================================================= *)
(** ** Descriptions of further runs *)

(** The [Settings] built from the values of [settings.secret_names], in
    that order. *)
Definition snapshot_of (P : Platform) (values : list string) : Settings :=
  {| foundry_project_endpoint := nth 0 values "";
     ai_search_connection_id := nth 1 values "";
     ai_search_index_name := nth 2 values "";
     mcp_connection_id := nth 3 values "";
     azure_client_id := PyDict.get_default (environ P) "AZURE_CLIENT_ID" "";
     key_vault_uri := PyDict.get_default (environ P) "KEY_VAULT_URI" "";
     storage_queue_name := constants.AGENT_QUEUE_NAME |}.

(** The secrets of [Settings] that a world has not cached. *)
Definition uncached_secrets (w : World) : list string :=
  filter (fun name => negb (PyDict.mem name (secret_cache w)))
    settings.secret_names.

(* ================================================================= *)
(** ** Descriptions of the results of [resolve_tools] *)

(** The items of a JSON list that are strings. *)
Definition strings_of (items : list json) : list string :=
  flat_map (fun v => match v with JStr s => [s] | _ => [] end) items.

(** Whether [list_available_tools] has the name. *)
Definition listed (name : string) : bool :=
  existsb (String.eqb name) tools_registry.list_available_tools.

Definition is_error (r : log_record) : bool :=
  match log_level r with ERROR => true | _ => false end.

(** The index binding that [_build_ai_search] returns. *)
Definition index_binding (s : Settings) : json :=
  JObj [("index_connection_id", JStr (ai_search_connection_id s));
        ("index_name", JStr (ai_search_index_name s))].

(** The [tool_resources] holding [n] index bindings; the dictionary is
    empty when there is none. *)
Definition search_resources (s : Settings) (n : nat) : resources :=
  match n with
  | O => []
  | S _ => [("azure_ai_search", [("indexes", repeat (index_binding s) n)])]
  end.

(** The value of the ["type"] field of a tool definition. *)
Definition tool_type (def : json) : option json :=
  match def with
  | JObj fields => PyDict.get fields "type"
  | _ => None
  end.

(* ================================================================= *)
(** ** examples/submit_agent_request.py *)

Module submit_agent_request.

(** [value or []] on an optional list. *)
Definition or_nil {A} (value : option (list A)) : list A :=
  match value with Some l => l | None => [] end.

(** Lines 53-69 of [submit_agent_creation_request]: the message that is
    serialised and put on the queue.  An argument left out is [None]. *)
Definition message (agent_name model : string) (instructions : option string)
    (tools : option (list json)) (mcp_endpoint : option string)
    (models : option (list json)) (use_legacy : bool) : json :=
  if use_legacy then
    JObj [("agentName", JStr agent_name);
          ("mcpEndpoint",
           match mcp_endpoint with Some e => JStr e | None => JNull end);
          ("models", JArr (or_nil models))]
  else
    let message := [("agent_name", JStr agent_name); ("model", JStr model)] in
    let message :=
      match instructions with
      | Some text =>
          if String.eqb text "" then message
          else PyDict.set message "instructions" (JStr text)
      | None => message
      end in
    let message :=
      match tools with
      | Some ((_ :: _) as items) => PyDict.set message "tools" (JArr items)
      | _ => message
      end in
    JObj message.

End submit_agent_request.

(** The prompt that [get_prompt] has for a name. *)
Definition prompt_for (agent_name : string) : string :=
  match PyDict.get agent_prompts.AGENT_PROMPTS agent_name with
  | Some prompt => prompt
  | None => "You are a helpful AI assistant powered by Azure AI Foundry."
  end.

(** The request that serves a submission: the tools and their resources
    are resolved with the settings [s]. *)
Definition request_for (s : Settings) (agent_name model instructions : string)
    (tools : list string) : create_agent_args :=
  {| arg_model := JStr model;
     arg_name := JStr agent_name;
     arg_instructions := JStr instructions;
     arg_tools :=
       map (fun e => tools_registry.tool_def (snd e))
         (tools_registry.built tools_registry.TOOL_REGISTRY s tools);
     arg_tool_resources :=
       fold_left tools_registry.merge_resources
         (tools_registry.fragments tools_registry.TOOL_REGISTRY s tools) [] |}.

(* ================================================================= *)
(** ** src/function_app.py: the request/response handler *)

(** *** What the handler uses of Python *)

(** [s.split(sep)] for a separator that is not empty: the pieces between
    the occurrences of [sep], found from the left and not overlapping.
    [skip] counts the characters of an occurrence still to pass over,
    [current] is the piece read so far. *)
Fixpoint split_from (sep : string) (skip : nat) (current s : string)
  : list string :=
  match s with
  | EmptyString => [current]
  | String c rest =>
      match skip with
      | S k => split_from sep k current rest
      | O =>
          if String.prefix sep s
          then current
                 :: split_from sep (String.length sep - 1) EmptyString rest
          else split_from sep 0 (current ++ String c EmptyString) rest
      end
  end.

Definition py_split (s sep : string) : list string :=
  split_from sep 0 EmptyString s.

(** The double quote character, as a string. *)
Definition dquote : string :=
  String (Ascii.Ascii false true false false false true false false)
    EmptyString.

(** [needle in s] on strings. *)
Fixpoint str_contains (needle s : string) : bool :=
  String.prefix needle s
  || match s with
     | EmptyString => false
     | String _ rest => str_contains needle rest
     end.

(** [key in container] for a string [key] and whatever [json.loads]
    returned: a key of a dict, an item of a list, a part of a string;
    the other values raise (the message is that of CPython 3.11). *)
Definition py_contains (key : string) (container : json) : result bool :=
  match container with
  | JObj fields => Ok (PyDict.mem key fields)
  | JArr items =>
      Ok (existsb (fun item => match item with
                               | JStr s => String.eqb s key
                               | _ => false
                               end) items)
  | JStr s => Ok (str_contains key s)
  | _ =>
      Raise (TypeError ("argument of type '" ++ type_name container
                        ++ "' is not iterable"))
  end.

(** [container[key]] for a string [key] (messages of CPython 3.11). *)
Definition py_getitem (container : json) (key : string) : result json :=
  match container with
  | JObj fields => subscript fields key
  | JArr _ =>
      Raise (TypeError "list indices must be integers or slices, not str")
  | JStr _ => Raise (TypeError "string indices must be integers, not 'str'")
  | _ =>
      Raise (TypeError ("'" ++ type_name container
                        ++ "' object is not subscriptable"))
  end.

(** The exceptions of this handler: those above and [IndexError]. *)
Inductive pyexn : Type :=
| Std (e : exn)
| IndexError (msg : string).

(** [isinstance(e, json.JSONDecodeError)] and [isinstance(e, ValueError)];
    an [IndexError] is a [LookupError]. *)
Definition pyexn_is_JSONDecodeError (e : pyexn) : bool :=
  match e with Std e => is_JSONDecodeError e | IndexError _ => false end.

Definition pyexn_is_ValueError (e : pyexn) : bool :=
  match e with Std e => is_ValueError e | IndexError _ => false end.

(** The exception interpolated into a log message; [str(e)] of an
    [IndexError] is its message. *)
Definition exn_arg (e : pyexn) : log_arg :=
  match e with Std e => AExn e | IndexError msg => AStr msg end.

(** *** The storage queue and the clock *)

(** One call of [send_message(content)] on the client built for
    [account_url] and [queue_name]. *)
Record queue_request : Type := {
  account_url : string;
  queue_name : string;
  content : string
}.

(** What this handler needs beyond [Platform]: the clock, the queue
    service, whose answer may depend on the number of requests sent
    before, and library functions taken as given: [str] on a decoded
    value that is not a string, [json.dumps], and the constructor
    [QueueClient(account_url, queue_name, credential)], which contacts
    nobody but validates its arguments (it raises [ValueError] for a URL
    without a host or an empty queue name). *)
Record QueuePlatform : Type := {
  host : Platform;
  time_time : nat -> float;
  py_str : json -> string;
  json_dumps : json -> string;
  queue_client_init : string -> string -> credential -> result unit;
  queue_send_message : nat -> queue_request -> result unit
}.

(** The state of the process for this handler: the world of the other
    modules, the number of clock readings and the requests sent to the
    queue service. *)
Record Process : Type := {
  world : World;
  clock_reads : nat;
  queue_requests : list queue_request
}.

Definition fresh_process : Process :=
  {| world := fresh_world; clock_reads := 0; queue_requests := [] |}.

Definition set_world (w : World) (p : Process) : Process :=
  {| world := w;
     clock_reads := clock_reads p;
     queue_requests := queue_requests p |}.

Definition set_clock_reads (n : nat) (p : Process) : Process :=
  {| world := world p;
     clock_reads := n;
     queue_requests := queue_requests p |}.

Definition set_queue_requests (l : list queue_request) (p : Process)
  : Process :=
  {| world := world p;
     clock_reads := clock_reads p;
     queue_requests := l |}.

(** The process after it has logged [records]. *)
Definition logged (records : list log_record) (p : Process) : Process :=
  set_world (set_log (log (world p) ++ records) (world p)) p.

Inductive outcome (A : Type) : Type :=
| Returns (a : A)
| Raises (e : pyexn).
Arguments Returns {A} a.
Arguments Raises {A} e.

(** The monad of this handler: state and exceptions, as [M]. *)
Definition Q (A : Type) : Type := Process -> outcome A * Process.

Definition qret {A} (a : A) : Q A := fun p => (Returns a, p).

Definition qraise {A} (e : pyexn) : Q A := fun p => (Raises e, p).

Definition qbind {A B} (c : Q A) (k : A -> Q B) : Q B :=
  fun p =>
    match c p with
    | (Returns a, p') => k a p'
    | (Raises e, p') => (Raises e, p')
    end.

(** [try: c  except Exception as e: h e] *)
Definition qtry {A} (c : Q A) (h : pyexn -> Q A) : Q A :=
  fun p =>
    match c p with
    | (Returns a, p') => (Returns a, p')
    | (Raises e, p') => h e p'
    end.

(** A computation of the other modules, run in the world of the
    process. *)
Definition run_M {A} (c : M A) : Q A :=
  fun p =>
    match c (world p) with
    | (Ok a, w) => (Returns a, set_world w p)
    | (Raise e, w) => (Raises (Std e), set_world w p)
    end.

Declare Scope queue_scope.
Delimit Scope queue_scope with queue.
Notation "x <- c ;; k" := (qbind c (fun x => k))
  (at level 61, c at next level, right associativity) : queue_scope.
Notation "c ;; k" := (qbind c (fun _ => k))
  (at level 61, right associativity) : queue_scope.

Module sk_agent.
Local Open Scope queue_scope.
Section WithPlatform.
Variable QP : QueuePlatform.

Definition qlogging (lvl : level) (msg : string) (args : list log_arg)
  : Q unit :=
  run_M (logging lvl msg args).

Definition qlift {A} (r : result A) : Q A := run_M (lift r).

(** [time.time()] *)
Definition time : Q float :=
  fun p =>
    (Returns (time_time QP (clock_reads p)),
     set_clock_reads (S (clock_reads p)) p).

(** [queue_client.send_message(message_json)]: one request to the queue
    service. *)
Definition send_message (request : queue_request) : Q unit :=
  fun p =>
    (match queue_send_message QP (length (queue_requests p)) request with
     | Ok _ => Returns tt
     | Raise e => Raises (Std e)
     end,
     set_queue_requests (queue_requests p ++ [request]) p).

(** A value in an f-string: [format(value, "")], which is the string
    itself or [str(value)]. *)
Definition py_format (value : json) : string :=
  match value with
  | JStr s => s
  | _ => py_str QP value
  end.

(** Lines 214-220: the name of the storage account, [None] when neither
    variable helps.  [x.split(...)[0]] always exists. *)
Definition storage_account_name : outcome (option string) :=
  let storage_account_name :=
    PyDict.get (environ (host QP)) "AGENT_STORAGE_ACCOUNT__accountname" in
  if match storage_account_name with
     | Some name => String.eqb name ""
     | None => true
     end
  then
    let queue_uri :=
      PyDict.get_default (environ (host QP))
        "AGENT_STORAGE_ACCOUNT__queueServiceUri" "" in
    if negb (String.eqb queue_uri "") then
      match nth_error (py_split queue_uri "//") 1 with
      | Some rest => Returns (Some (hd "" (py_split rest ".")))
      | None => Raises (IndexError "list index out of range")
      end
    else Returns storage_account_name
  else Returns storage_account_name.

(** The account URL of line 224, an f-string around the name; [None] is
    formatted as its name. *)
Definition account_url_of (storage_account_name : option string) : string :=
  "https://"
  ++ match storage_account_name with Some name => name | None => "None" end
  ++ ".queue.core.windows.net".

(** Lines 211-236. *)
Definition send_response_to_queue (response_data : dict json)
    (queue_name : string) : Q unit :=
  qtry
    (storage_account_name <- (fun p => (storage_account_name, p));;
     let credential := DefaultAzureCredential in
     let account_url := account_url_of storage_account_name in
     qlift (queue_client_init QP account_url queue_name credential);;
     let message_json := json_dumps QP (JObj response_data) in
     send_message {| account_url := account_url;
                     queue_name := queue_name;
                     content := message_json |};;
     qlogging INFO
       ("Response sent to queue {queue_name}: requestId={response_data.get("
        ++ dquote ++ "requestId" ++ dquote ++ ")}")
       [AStr queue_name;
        AJson (PyDict.get_default response_data "requestId" JNull)])
    (fun e =>
       qlogging ERROR "Error sending response to queue: {e}" [exn_arg e];;
       qraise e).

(** Line 133: ['requestId' not in request_data or 'query' not in
    request_data]. *)
Definition missing_fields (request_data : json) : result bool :=
  match py_contains "requestId" request_data with
  | Raise e => Raise e
  | Ok false => Ok true
  | Ok true =>
      match py_contains "query" request_data with
      | Raise e => Raise e
      | Ok found => Ok (negb found)
      end
  end.

(** The answer and the response of lines 177-192. *)
Definition response (request_id query requester : json)
    (processing_time : float) : dict json :=
  [("requestId", request_id);
   ("query", query);
   ("answer",
    JStr ("[Mock Response] Processed query: '" ++ py_format query ++ "'"));
   ("metadata",
    JObj [("processingTime", JFloat processing_time);
          ("pluginsUsed", JArr [JStr "time"; JStr "weather"]);
          ("requester", requester)])].

(** Lines 132-198: the part of the [try] block after [json.loads]. *)
Definition sk_agent_with (request_data : json) : Q unit :=
  missing <- qlift (missing_fields request_data);;
  if (missing : bool) then
    qraise (Std (ValueError
                   "Missing required fields: requestId and/or query"))
  else
    request_id <- qlift (py_getitem request_data "requestId");;
    query <- qlift (py_getitem request_data "query");;
    requester <- qlift (config_get request_data "requester" (JStr "unknown"));;
    qlogging INFO "Processing request {request_id} from {requester}: {query}"
      [AJson request_id; AJson requester; AJson query];;
    start_time <- time;;
    end_time <- time;;
    let processing_time := PrimFloat.sub end_time start_time in
    let response_data := response request_id query requester processing_time in
    let response_queue_name :=
      PyDict.get_default (environ (host QP)) "SK_AGENT_RESPONSE_QUEUE_NAME"
        "sk-agent-response-queue" in
    send_response_to_queue response_data response_queue_name;;
    qlogging INFO
      "Successfully processed request {request_id} and sent response"
      [AJson request_id].

(** Lines 200-208: the three [except] clauses, each of which logs and
    re-raises. *)
Definition sk_on_exception (e : pyexn) : Q unit :=
  if pyexn_is_JSONDecodeError e then
    qlogging ERROR "Invalid JSON in queue message: {e}" [exn_arg e];;
    qraise e
  else if pyexn_is_ValueError e then
    qlogging ERROR "Validation error: {e}" [exn_arg e];;
    qraise e
  else
    qlogging ERROR "Error processing SK agent request: {e}" [exn_arg e];;
    qraise e.

Definition sk_agent_processor (msg : QueueMessage) : Q unit :=
  qlogging INFO "SK Agent: Processing request from queue" [];;
  qtry
    (message_body <- qlift (bytes_decode (host QP) (get_body msg));;
     qlogging INFO "Request message: {message_body}" [AStr message_body];;
     request_data <- qlift (json_loads (host QP) message_body);;
     sk_agent_with request_data)
    sk_on_exception.

End WithPlatform.
End sk_agent.

(** Platforms and messages for running the request/response handler. *)
Module QueueCases.

(** The text of the request [{"requestId": 7, "query": 42}]. *)
Definition request_text : string :=
  "{" ++ dquote ++ "requestId" ++ dquote ++ ": 7, "
  ++ dquote ++ "query" ++ dquote ++ ": 42}".

(** The text of [{"query": 42}]. *)
Definition incomplete_text : string :=
  "{" ++ dquote ++ "query" ++ dquote ++ ": 42}".

Definition loads (body : string) : result json :=
  if String.eqb body request_text
  then Ok (JObj [("requestId", JInt 7); ("query", JInt 42)])
  else if String.eqb body incomplete_text
  then Ok (JObj [("query", JInt 42)])
  else if String.eqb body "[]" then Ok (JArr [])
  else Raise (JSONDecodeError "Expecting value: line 1 column 1 (char 0)").

(** A rendering that tells the responses apart by their request. *)
Definition dumps (v : json) : string :=
  match v with
  | JObj fields =>
      match PyDict.get fields "requestId" with
      | Some (JInt 7) => "response to 7"
      | _ => "response"
      end
  | _ => "value"
  end.

Definition str (v : json) : string :=
  match v with
  | JInt 42 => "42"
  | _ => "value"
  end.

Definition host_of (environ : dict string) : Platform := {|
  environ := environ;
  secret_client_init := fun _ _ => Ok tt;
  kv_get_secret := fun _ _ name => Ok (Some ("<" ++ name ++ ">"));
  agents_create_agent := fun _ n _ => Ok {| agent_id := "asst_1" |};
  bytes_decode := fun body => Ok body;
  json_loads := loads
|}.

(** The queue service accepts every message; the account is given by
    the URI of its queue service. *)
Definition platform : QueuePlatform := {|
  host := host_of [("AGENT_STORAGE_ACCOUNT__queueServiceUri",
                    "https://blsstore.queue.core.windows.net")];
  time_time := fun n => if Nat.eqb n 0 then 100.5%float else 102%float;
  py_str := str;
  json_dumps := dumps;
  queue_client_init := fun _ name _ =>
    if String.eqb name "" then Raise (ValueError "Please specify a queue name.")
    else Ok tt;
  queue_send_message := fun _ _ => Ok tt
|}.

(** The queue service is unavailable. *)
Definition queue_down : QueuePlatform := {|
  host := host_of [("AGENT_STORAGE_ACCOUNT__accountname", "blsstore")];
  time_time := fun n => if Nat.eqb n 0 then 100.5%float else 102%float;
  py_str := str;
  json_dumps := dumps;
  queue_client_init := fun _ name _ =>
    if String.eqb name "" then Raise (ValueError "Please specify a queue name.")
    else Ok tt;
  queue_send_message := fun _ _ =>
    Raise (ServiceRequestError "connection refused")
|}.

(** The storage account is not configured. *)
Definition no_account : QueuePlatform := {|
  host := host_of [];
  time_time := fun n => if Nat.eqb n 0 then 100.5%float else 102%float;
  py_str := str;
  json_dumps := dumps;
  queue_client_init := fun _ name _ =>
    if String.eqb name "" then Raise (ValueError "Please specify a queue name.")
    else Ok tt;
  queue_send_message := fun _ _ => Ok tt
|}.

(** The URI of the queue service lacks its scheme. *)
Definition no_scheme : QueuePlatform := {|
  host := host_of [("AGENT_STORAGE_ACCOUNT__queueServiceUri",
                    "blsstore.queue.core.windows.net")];
  time_time := fun n => if Nat.eqb n 0 then 100.5%float else 102%float;
  py_str := str;
  json_dumps := dumps;
  queue_client_init := fun _ name _ =>
    if String.eqb name "" then Raise (ValueError "Please specify a queue name.")
    else Ok tt;
  queue_send_message := fun _ _ => Ok tt
|}.

End QueueCases.

(** The message that [sk_agent_processor] logs for an exception: that of
    the first [except] clause it matches. *)
Definition sk_error_message (e : pyexn) : string :=
  if pyexn_is_JSONDecodeError e then "Invalid JSON in queue message: {e}"
  else if pyexn_is_ValueError e then "Validation error: {e}"
  else "Error processing SK agent request: {e}".

(** The request that carries the response to a request, read at the
    clock readings [n] and [n + 1]. *)
Definition response_request (QP : QueuePlatform) (account : option string)
    (request_id query requester : json) (n : nat) : queue_request :=
  {| account_url := sk_agent.account_url_of account;
     queue_name :=
       PyDict.get_default (environ (host QP)) "SK_AGENT_RESPONSE_QUEUE_NAME"
         "sk-agent-response-queue";
     content :=
       json_dumps QP
         (JObj (sk_agent.response QP request_id query requester
                  (PrimFloat.sub (time_time QP (S n)) (time_time QP n)))) |}.

(* ================================================================= *)
(** * Properties *)

Open Scope list_scope.

(** ** Dictionaries *)

Module PyDictFacts.
Import PyDict.
Section Facts.
Context {V : Type}.
Implicit Types (d : dict V) (k : string) (v : V).

Lemma get_set_same d k v : get (set d k v) k = Some v.
Proof.
  induction d as [|[k' v'] d IH]; simpl.
  - now rewrite String.eqb_refl.
  - destruct (String.eqb k' k) eqn:E; simpl; rewrite E; auto.
Qed.

Lemma get_set_other d k k' v : k <> k' -> get (set d k v) k' = get d k'.
Proof.
  intros Hne. induction d as [|[k0 v0] d IH]; simpl.
  - destruct (String.eqb k k') eqn:E; auto.
    apply String.eqb_eq in E. contradiction.
  - destruct (String.eqb k0 k) eqn:E; simpl.
    + apply String.eqb_eq in E. subst k0.
      destruct (String.eqb k k') eqn:E'; auto.
      apply String.eqb_eq in E'. contradiction.
    + now rewrite IH.
Qed.

Lemma get_set d k k' v :
  get (set d k v) k' = if String.eqb k k' then Some v else get d k'.
Proof.
  destruct (String.eqb k k') eqn:E.
  - apply String.eqb_eq in E. subst. apply get_set_same.
  - apply String.eqb_neq in E. now apply get_set_other.
Qed.

Lemma mem_set d k k' v :
  mem k' (set d k v) = String.eqb k k' || mem k' d.
Proof.
  unfold mem. rewrite get_set. now destruct (String.eqb k k').
Qed.

Lemma get_remove_same d k : get (remove d k) k = None.
Proof.
  induction d as [|[k' v'] d IH]; simpl; auto.
  destruct (String.eqb k' k) eqn:E; simpl; auto. now rewrite E.
Qed.

Lemma get_remove_other d k k' : k <> k' -> get (remove d k) k' = get d k'.
Proof.
  intros Hne. induction d as [|[k0 v0] d IH]; simpl; auto.
  destruct (String.eqb k0 k) eqn:E; simpl.
  - apply String.eqb_eq in E. subst k0.
    destruct (String.eqb k k') eqn:E'; auto.
    apply String.eqb_eq in E'. contradiction.
  - now rewrite IH.
Qed.

Lemma get_Some_In d k v : get d k = Some v -> In (k, v) d.
Proof.
  induction d as [|[k' v'] d IH]; simpl; [discriminate|].
  destruct (String.eqb k' k) eqn:E; auto.
  apply String.eqb_eq in E. intros [= ->]. subst. now left.
Qed.

Lemma get_None_not_in d k : get d k = None <-> ~ In k (keys d).
Proof.
  induction d as [|[k' v'] d IH]; simpl.
  - tauto.
  - destruct (String.eqb k' k) eqn:E.
    + apply String.eqb_eq in E. subst. split; [discriminate | tauto].
    + apply String.eqb_neq in E. rewrite IH. tauto.
Qed.


End Facts.
End PyDictFacts.

(** ** The monad *)

Lemma bind_run {A B} (c : M A) (k : A -> M B) (w : World) :
  bind c k w =
  match c w with
  | (Ok a, w') => k a w'
  | (Raise e, w') => (Raise e, w')
  end.
Proof. reflexivity. Qed.



(** A computation that leaves an invariant of the world alone. *)
Definition stable {A} (I : World -> Prop) (c : M A) : Prop :=
  forall w, I w -> I (snd (c w)).

(** An invariant that does not look at the field written by [upd]. *)
Definition respects {X} (I : World -> Prop) (upd : X -> World -> World)
  : Prop :=
  forall x w, I w -> I (upd x w).

Section Stable.
Variable I : World -> Prop.

Lemma stable_ret {A} (a : A) : stable I (ret a).
Proof. now intros w H. Qed.

Lemma stable_raise {A} e : stable I (@raise A e).
Proof. now intros w H. Qed.

Lemma stable_lift {A} (r : result A) : stable I (lift r).
Proof. now intros w H. Qed.

Lemma stable_gets {A} (f : World -> A) : stable I (gets f).
Proof. now intros w H. Qed.

Lemma stable_bind {A B} (c : M A) (k : A -> M B) :
  stable I c -> (forall a, stable I (k a)) -> stable I (bind c k).
Proof.
  intros Hc Hk w Hw. rewrite bind_run.
  specialize (Hc w Hw). destruct (c w) as [[a|e] w']; simpl in *; auto.
  now apply Hk.
Qed.

Lemma stable_try_except {A} (c : M A) (h : exn -> M A) :
  stable I c -> (forall e, stable I (h e)) -> stable I (try_except c h).
Proof.
  intros Hc Hh w Hw. unfold try_except.
  specialize (Hc w Hw). destruct (c w) as [[a|e] w']; simpl in *; auto.
  now apply Hh.
Qed.

Lemma stable_modify (f : World -> World) :
  (forall w, I w -> I (f w)) -> stable I (modify f).
Proof. intros Hf w Hw. now apply Hf. Qed.

Lemma stable_logging lvl msg args :
  respects I set_log -> stable I (logging lvl msg args).
Proof. intros Hl w Hw. now apply Hl. Qed.

Lemma stable_lru_cache {A} (slot : World -> option A) fill (body : M A) :
  stable I body -> respects I fill -> stable I (lru_cache slot fill body).
Proof.
  intros Hb Hf. unfold lru_cache.
  apply stable_bind; [apply stable_gets|]. intros [a|].
  - apply stable_ret.
  - apply stable_bind; auto. intros a.
    apply stable_bind; [|intros; apply stable_ret].
    apply stable_modify. intros w. apply Hf.
Qed.

End Stable.


(** Discharge [respects I upd] for an invariant that reads other fields. *)
Ltac respects_tac :=
  let x := fresh in let w := fresh in let H := fresh in
  intros x w H; destruct w; simpl in *; try exact H; try assumption; auto.

(* ================================================================= *)
(** ** akv.py: the secret cache *)

Module akvFacts.
Import akv.
Section Facts.
Variable P : Platform.

Lemma get_client_run w :
  _get_client P w =
  (the_client P w,
   match the_client P w with
   | Ok c => set_client_cache (Some c) w
   | Raise _ => w
   end).
Proof.
  unfold _get_client, the_client, lru_cache, bind, gets, ret, modify, raise.
  destruct w as [cc sc stc pc n kv ar lg]; simpl.
  destruct cc as [c|]; simpl; auto.
  destruct (PyDict.get (environ P) "KEY_VAULT_URI") as [uri|];
    [|reflexivity].
  unfold lift. now destruct (SecretClient_new P uri (_build_credential P)).
Qed.

(** A cache hit: no request, no change. *)
Lemma get_secret_hit w name v :
  PyDict.get (secret_cache w) name = Some v ->
  get_secret P name true w = (Ok v, w).
Proof.
  intros H. unfold get_secret, bind, gets, lift, subscript, PyDict.mem.
  simpl. now rewrite H.
Qed.

(** A cache miss, or a lookup that bypasses the cache. *)
Lemma get_secret_miss w name use_cache :
  use_cache && PyDict.mem name (secret_cache w) = false ->
  get_secret P name use_cache w =
  match the_client P w with
  | Raise e => (Raise e, w)
  | Ok c =>
      match kv_get_secret P c (length (kv_requests w)) name with
      | Ok fetched =>
          (Ok (or_empty fetched), fetched_world c name (or_empty fetched) w)
      | Raise e => (Raise e, failed_world c name w)
      end
  end.
Proof.
  intros H. unfold get_secret. rewrite bind_run. unfold gets at 1.
  rewrite H. rewrite bind_run, get_client_run.
  destruct (the_client P w) as [c|e]; [|reflexivity].
  rewrite bind_run. unfold client_get_secret.
  destruct w as [cc sc stc pc n kv ar lg]; simpl.
  destruct (kv_get_secret P c (length kv) name); reflexivity.
Qed.


Lemma stable_get_secret I name use_cache :
  respects I set_client_cache -> respects I set_kv_requests ->
  respects I set_secret_cache -> respects I set_log ->
  stable I (get_secret P name use_cache).
Proof.
  intros Hc Hk Hs Hl w Hw.
  destruct (use_cache && PyDict.mem name (secret_cache w)) eqn:E.
  - apply andb_prop in E as [-> Hm]. unfold PyDict.mem in Hm.
    destruct (PyDict.get (secret_cache w) name) eqn:G; [|discriminate].
    now rewrite (get_secret_hit _ _ G).
  - rewrite (get_secret_miss _ _ _ E).
    destruct (the_client P w) as [c|e]; auto.
    destruct (kv_get_secret P c (length (kv_requests w)) name); simpl.
    + unfold fetched_world. auto.
    + unfold failed_world. auto.
Qed.

Lemma stable_clear_cache I :
  respects I set_secret_cache -> stable I clear_cache.
Proof. intros Hs w Hw. now apply Hs. Qed.

End Facts.
End akvFacts.

(* ================================================================= *)
(** ** Which parts of the world each function may write *)

Module Frames.
Section Facts.
Variable P : Platform.
Variable I : World -> Prop.
Hypothesis I_client_cache : respects I set_client_cache.
Hypothesis I_kv_requests : respects I set_kv_requests.
Hypothesis I_secret_cache : respects I set_secret_cache.
Hypothesis I_log : respects I set_log.
Hypothesis I_next_obj_id : respects I set_next_obj_id.

Lemma stable_new_object {A} (a : A) : stable I (new_object a).
Proof. intros w Hw. unfold new_object; simpl. now apply I_next_obj_id. Qed.

Lemma stable_Settings_new : stable I (settings.Settings_new P).
Proof.
  unfold settings.Settings_new.
  repeat (apply stable_bind;
          [now apply akvFacts.stable_get_secret | intros ?]).
  apply stable_new_object.
Qed.

(** Once the snapshot is cached, [get_settings] is a pure read. *)
Lemma get_settings_cached w s :
  settings_cache w = Some s -> settings.get_settings P w = (Ok s, w).
Proof.
  intros H. unfold settings.get_settings, lru_cache, bind, gets. simpl.
  now rewrite H.
Qed.

Section SettingsWritable.
Hypothesis I_settings_cache : respects I set_settings_cache.

Lemma stable_get_settings : stable I (settings.get_settings P).
Proof.
  unfold settings.get_settings.
  apply stable_lru_cache; auto using stable_Settings_new.
Qed.
End SettingsWritable.

(** For the rest of the program it is enough that [get_settings] keeps
    the invariant. *)
Hypothesis I_get_settings : stable I (settings.get_settings P).

Lemma stable_resolve_loop registry s names tools res :
  stable I (tools_registry.resolve_loop registry s names tools res).
Proof.
  revert tools res.
  induction names as [|name rest IH]; intros tools res; simpl.
  - apply stable_ret.
  - apply stable_bind; [apply stable_lift|]. intros [build|].
    + destruct (build s) as [diagnostics entry].
      apply stable_bind; [|intros; apply IH].
      apply stable_modify. intros w Hw. now apply I_log.
    + apply stable_bind; [now apply stable_logging | intros; apply IH].
Qed.

Lemma stable_resolve_tools_in registry tool_names :
  stable I (tools_registry.resolve_tools_in P registry tool_names).
Proof.
  unfold tools_registry.resolve_tools_in.
  apply stable_bind; auto. intros s.
  apply stable_bind; [apply stable_lift|]. intros names.
  apply stable_resolve_loop.
Qed.

Lemma stable_build_credential : stable I (foundry_client._build_credential P).
Proof.
  unfold foundry_client._build_credential.
  apply stable_bind; auto. intros s.
  destruct (String.eqb _ _); apply stable_ret.
Qed.

Section ClientWritable.
Hypothesis I_project_client_cache : respects I set_project_client_cache.

Lemma stable_get_project_client :
  stable I (foundry_client.get_project_client P).
Proof.
  unfold foundry_client.get_project_client.
  apply stable_lru_cache; auto.
  apply stable_bind; auto. intros s.
  apply stable_bind; [apply stable_build_credential|].
  intros; apply stable_ret.
Qed.

Section RequestsWritable.
Hypothesis I_agent_requests : respects I set_agent_requests.

Lemma stable_agents_create client args :
  stable I (foundry_client.agents_create P client args).
Proof. intros w Hw. unfold foundry_client.agents_create; simpl. auto. Qed.

Lemma stable_create_agent_with config :
  stable I (src_function_app.create_agent_with P config).
Proof.
  unfold src_function_app.create_agent_with.
  repeat (apply stable_bind; [apply stable_lift | intros ?]).
  apply stable_bind; [apply stable_resolve_tools_in | intros ?].
  apply stable_bind; [apply stable_get_project_client | intros ?].
  apply stable_bind; [apply stable_agents_create | intros ?].
  now apply stable_logging.
Qed.

Lemma stable_create_agent msg :
  stable I (src_function_app.create_agent P msg).
Proof.
  unfold src_function_app.create_agent.
  apply stable_bind; [now apply stable_logging | intros _].
  apply stable_bind.
  - apply stable_try_except.
    + repeat (apply stable_bind; [apply stable_lift | intros ?]).
      apply stable_ret.
    + intros e. destruct (_ || _); [|apply stable_raise].
      apply stable_bind; [now apply stable_logging | intros; apply stable_ret].
  - intros [config|]; [apply stable_create_agent_with | apply stable_ret].
Qed.

Lemma stable_agent_creation_with config :
  stable I (function_app.agent_creation_with P config).
Proof.
  unfold function_app.agent_creation_with.
  apply stable_bind; [apply stable_lift | intros new_name].
  apply stable_bind.
  { destruct (truthy new_name); [apply stable_ret | apply stable_lift]. }
  intros agent_name.
  repeat (apply stable_bind; [apply stable_lift | intros ?]).
  repeat (apply stable_bind; [now apply stable_logging | intros ?]).
  apply stable_bind; [apply stable_resolve_tools_in | intros ?].
  apply stable_bind; [apply stable_get_project_client | intros ?].
  apply stable_bind; [apply stable_agents_create | intros ?].
  now apply stable_logging.
Qed.

Lemma stable_on_exception e : stable I (function_app.on_exception e).
Proof.
  unfold function_app.on_exception.
  destruct (is_JSONDecodeError e); [|destruct (is_ValueError e)];
    (apply stable_bind; [now apply stable_logging | intros; apply stable_raise]).
Qed.

Lemma stable_agent_creation_processor msg :
  stable I (function_app.agent_creation_processor P msg).
Proof.
  unfold function_app.agent_creation_processor.
  apply stable_bind; [now apply stable_logging | intros _].
  apply stable_try_except; [|apply stable_on_exception].
  apply stable_bind; [apply stable_lift | intros ?].
  apply stable_bind; [now apply stable_logging | intros ?].
  apply stable_bind; [apply stable_lift | intros ?].
  apply stable_agent_creation_with.
Qed.

(** Every entry point keeps the invariant. *)
Lemma run_call_stable c w : I w -> I (run_call P c w).
Proof.
  intros Hw. destruct c; unfold run_call.
  - now apply akvFacts.stable_get_secret.
  - now apply akvFacts.stable_clear_cache.
  - now apply I_get_settings.
  - now apply stable_resolve_tools_in.
  - now apply stable_get_project_client.
  - now apply stable_create_agent.
  - now apply stable_agent_creation_processor.
Qed.

Lemma run_calls_stable calls w : I w -> I (run_calls P calls w).
Proof.
  revert w. induction calls as [|c calls IH]; intros w Hw; simpl; auto.
  apply IH. now apply run_call_stable.
Qed.

End RequestsWritable.
End ClientWritable.
End Facts.
End Frames.

(* ================================================================= *)
(** ** akv.py and settings.py: caching and failures *)

Module SecretFacts.
Import akv.
Section Facts.
Variable P : Platform.

Lemma fst_get_client w : fst (_get_client P w) = the_client P w.
Proof. now rewrite akvFacts.get_client_run. Qed.

(** The requests made by a run of [lookups]: no name is asked twice, only
    names missing from the cache are asked, and after a run that returned
    every name is in the cache or was asked. *)
Lemma lookups_trace names :
  forall w,
  exists fetched,
    kv_requests (snd (lookups P names w)) = kv_requests w ++ fetched
    /\ NoDup fetched
    /\ incl fetched names
    /\ (forall n, In n fetched -> PyDict.mem n (secret_cache w) = false)
    /\ (forall values, fst (lookups P names w) = Ok values ->
        forall n, In n names ->
                  PyDict.mem n (secret_cache w) = true \/ In n fetched).
Proof.
  induction names as [|name rest IH]; intros w.
  - exists []. simpl. rewrite app_nil_r.
    split; [|split; [|split; [|split]]]; auto using NoDup_nil, incl_nil_l; contradiction.
  - cbn [lookups]. rewrite bind_run.
    destruct (PyDict.mem name (secret_cache w)) eqn:Hm.
    + (* served from the cache *)
      assert (exists v, PyDict.get (secret_cache w) name = Some v) as [v Hv].
      { unfold PyDict.mem in Hm.
        destruct (PyDict.get (secret_cache w) name); [eauto | discriminate]. }
      rewrite (akvFacts.get_secret_hit P _ _ Hv). rewrite bind_run.
      destruct (IH w) as (fetched & Hreq & Hnd & Hincl & Hmiss & Hall).
      exists fetched.
      destruct (lookups P rest w) as [[values|e] w'] eqn:E; simpl in *.
      * split; [|split; [|split; [|split]]]; auto using incl_tl.
        intros vs _ n [<-|Hin]; auto. eapply Hall; eauto.
      * split; [|split; [|split; [|split]]]; auto using incl_tl. discriminate.
    + rewrite (akvFacts.get_secret_miss P w name true) by (now rewrite Hm).
      destruct (the_client P w) as [c|e].
      2:{ exists []. simpl. rewrite app_nil_r.
          split; [|split; [|split; [|split]]]; auto using NoDup_nil, incl_nil_l;
            [contradiction | discriminate]. }
      destruct (kv_get_secret P c (length (kv_requests w)) name)
        as [fetched1|e].
      2:{ exists [name]. simpl.
          split; [|split; [|split; [|split]]].
          - destruct w; reflexivity.
          - constructor; [intros [] | constructor].
          - intros n [<-|[]]. now left.
          - intros n [<-|[]]. exact Hm.
          - discriminate. }
      remember (fetched_world c name (or_empty fetched1) w) as w1 eqn:Hw1.
      assert (Hkv : kv_requests w1 = kv_requests w ++ [name])
        by (subst w1; destruct w; reflexivity).
      assert (Hsc : secret_cache w1
                    = PyDict.set (secret_cache w) name (or_empty fetched1))
        by (subst w1; destruct w; reflexivity).
      clear Hw1.
      rewrite bind_run.
      destruct (IH w1) as (fetched & Hreq & Hnd & Hincl & Hmiss & Hall).
      assert (Hfresh : forall n, In n fetched ->
                n <> name /\ PyDict.mem n (secret_cache w) = false).
      { intros n Hin. specialize (Hmiss n Hin).
        rewrite Hsc, PyDictFacts.mem_set in Hmiss.
        apply orb_false_elim in Hmiss as [Hne Hm'].
        apply String.eqb_neq in Hne. split; auto. }
      exists (name :: fetched).
      assert (Hreq' : kv_requests (snd (lookups P rest w1))
                      = kv_requests w ++ name :: fetched).
      { rewrite Hreq, Hkv, <- app_assoc. reflexivity. }
      destruct (lookups P rest w1) as [[values|e] w'] eqn:E; simpl in *.
      * split; [|split; [|split; [|split]]]; auto.
        -- constructor; auto. intros Hin. now apply Hfresh in Hin.
        -- intros n [<-|Hin]; [now left | right; now apply Hincl].
        -- intros n [<-|Hin]; auto. now apply Hfresh.
        -- intros vs _ n [<-|Hin]; [right; now left|].
           destruct (Hall values eq_refl n Hin) as [Hc|Hf]; [|right; now right].
           rewrite Hsc, PyDictFacts.mem_set in Hc.
           apply orb_prop in Hc as [Hc|Hc]; [|now left].
           apply String.eqb_eq in Hc. subst. right; now left.
      * split; [|split; [|split; [|split]]]; auto.
        -- constructor; auto. intros Hin. now apply Hfresh in Hin.
        -- intros n [<-|Hin]; [now left | right; now apply Hincl].
        -- intros n [<-|Hin]; auto. now apply Hfresh.
        -- discriminate.
Qed.

(** [Settings()] takes the next free identity. *)
Lemma Settings_new_identity w s w' :
  settings.Settings_new P w = (Ok s, w') ->
  obj_id s = next_obj_id w /\ next_obj_id w' = S (next_obj_id w).
Proof.
  unfold settings.Settings_new. intros H.
  assert (Hst : forall name (w0 : World),
             next_obj_id (snd (get_secret P name true w0)) = next_obj_id w0).
  { intros name w0.
    apply (akvFacts.stable_get_secret P
             (I := fun w1 => next_obj_id w1 = next_obj_id w0));
      try respects_tac; reflexivity. }
  repeat match type of H with
  | bind (get_secret P ?n true) _ ?w0 = _ =>
      rewrite bind_run in H;
      let E := fresh "E" in
      pose proof (Hst n w0) as E;
      destruct (get_secret P n true w0) as [[?|?] ?]; [|discriminate];
      simpl in E
  end.
  unfold new_object, bind, gets, modify, ret in H. simpl in H.
  inversion H; subst; clear H. simpl.
  destruct w3; simpl in *. split; congruence.
Qed.

End Facts.
End SecretFacts.

Module SettingsFacts.
Import akv.
Section Facts.
Variable P : Platform.

(** With an empty slot [get_settings] runs the constructor and caches what
    it returns; a constructor that raises leaves the slot empty. *)
Lemma get_settings_miss w :
  settings_cache w = None ->
  settings.get_settings P w =
  match settings.Settings_new P w with
  | (Ok s, w') => (Ok s, set_settings_cache (Some s) w')
  | (Raise e, w') => (Raise e, w')
  end.
Proof.
  intros H. unfold settings.get_settings, lru_cache.
  rewrite bind_run. unfold gets at 1. rewrite H. rewrite bind_run.
  destruct (settings.Settings_new P w) as [[s|e] w']; reflexivity.
Qed.

Lemma get_secret_keeps_settings_cache name use_cache w :
  settings_cache (snd (get_secret P name use_cache w)) = settings_cache w.
Proof.
  apply (akvFacts.stable_get_secret P
           (I := fun w1 => settings_cache w1 = settings_cache w));
    try respects_tac; reflexivity.
Qed.

(** The constructor stops at the first lookup that raises. *)
Lemma Settings_new_stops w i name values wi e :
  nth_error settings.secret_names i = Some name ->
  lookups P (firstn i settings.secret_names) w = (Ok values, wi) ->
  fst (get_secret P name true wi) = Raise e ->
  settings.Settings_new P w = (Raise e, snd (get_secret P name true wi)).
Proof.
  intros Hn Hl He. unfold settings.Settings_new.
  unfold settings.secret_names, constants.KV_FOUNDRY_PROJECT_ENDPOINT,
    constants.KV_AI_SEARCH_CONNECTION_ID, constants.KV_AI_SEARCH_INDEX_NAME,
    constants.KV_MCP_CONNECTION_ID in *.
  do 4 (destruct i as [|i];
        [cbn in Hn; injection Hn as <-; cbn [firstn lookups] in Hl;
         repeat (repeat rewrite bind_run in Hl;
                 match type of Hl with
                 | context [get_secret P ?n true ?w0] =>
                     destruct (get_secret P n true w0) as [[?|?] ?] eqn:?;
                     cbv beta iota in Hl;
                     [rewrite bind_run; match goal with
                        | E : get_secret P n true w0 = _ |- _ => rewrite E end
                     | discriminate]
                 end);
         cbn in Hl; injection Hl as <- <-;
         rewrite bind_run;
         match goal with
         | |- context [get_secret P ?n true ?w0] =>
             destruct (get_secret P n true w0) as [[?|?] ?] eqn:Efail
         end;
         simpl in He; [discriminate | now injection He as ->]
        |]).
  cbn in Hn. now destruct i.
Qed.

(** After the secret cache has been cleared, a constructor that returns
    has asked the vault for each of its four secrets, once, in field
    order. *)
Lemma Settings_new_requests w s w' :
  settings.Settings_new P (snd (clear_cache w)) = (Ok s, w') ->
  kv_requests w' = kv_requests w ++ settings.secret_names.
Proof.
  unfold settings.Settings_new. intros H.
  repeat match type of H with
  | bind (get_secret P ?n true) _ ?w0 = _ =>
      rewrite bind_run in H;
      rewrite (akvFacts.get_secret_miss P w0 n true) in H
        by (destruct w; reflexivity);
      destruct (the_client P w0) as [?c|]; [|discriminate];
      destruct (kv_get_secret P _ _ n) as [?v|]; [|discriminate]
  end.
  unfold new_object, bind, gets, modify, ret in H. simpl in H.
  injection H as _ <-. destruct w; simpl.
  repeat rewrite <- app_assoc. reflexivity.
Qed.

End Facts.
End SettingsFacts.

(* ================================================================= *)
(** ** Claims about the secret cache and the settings snapshot *)

Lemma get_settings_fills_cache P w s w1 :
  settings.get_settings P w = (Ok s, w1) -> settings_cache w1 = Some s.
Proof.
  intros H. destruct (settings_cache w) as [s0|] eqn:E.
  - rewrite (Frames.get_settings_cached P _ E) in H.
    injection H as <- <-. exact E.
  - rewrite (SettingsFacts.get_settings_miss P _ E) in H.
    destruct (settings.Settings_new P w) as [[s'|e] w'].
    + injection H as <- <-. now destruct w'.
    + discriminate.
Qed.

(** C4: the first call to [get_settings] runs the constructor; once a call
    has returned, every later call in the process, whatever entry points
    ran in between, returns the instance with the same identity and does
    nothing else; two runs of the constructor give instances with
    different identities; and after [clear_cache] a series of lookups
    asks the vault at most once per name, exactly once for each name when
    all of them are served, as does the constructor for its four
    secrets. *)
Theorem get_settings_returns_cached_instance (P : Platform) :
  (forall w, settings_cache w = None ->
             fst (settings.get_settings P w) = fst (settings.Settings_new P w))
  /\ (forall w s w1 calls,
         settings.get_settings P w = (Ok s, w1) ->
         settings.get_settings P (run_calls P calls w1)
         = (Ok s, run_calls P calls w1))
  /\ (forall w s1 w1 s2 w2,
         settings.Settings_new P w = (Ok s1, w1) ->
         settings.Settings_new P w1 = (Ok s2, w2) ->
         obj_id s1 <> obj_id s2)
  /\ (forall w names,
         let run := akv.lookups P names (snd (akv.clear_cache w)) in
         exists fetched,
           kv_requests (snd run) = kv_requests w ++ fetched
           /\ (forall name, count_occ string_dec fetched name <= 1)
           /\ (forall name, In name fetched -> In name names)
           /\ (forall values, fst run = Ok values ->
               forall name, In name names ->
                            count_occ string_dec fetched name = 1))
  /\ (forall w s w1,
         settings.Settings_new P (snd (akv.clear_cache w)) = (Ok s, w1) ->
         kv_requests w1 = kv_requests w ++ settings.secret_names).
Proof.
  split; [|split; [|split; [|split]]].
  - intros w H. rewrite (SettingsFacts.get_settings_miss P _ H).
    now destruct (settings.Settings_new P w) as [[s|e] w'].
  - intros w s w1 calls H. apply get_settings_fills_cache in H.
    apply Frames.get_settings_cached.
    apply (Frames.run_calls_stable (P := P)
             (I := fun w => settings_cache w = Some s));
      try respects_tac; try assumption.
    intros w0 H0. now rewrite (Frames.get_settings_cached P _ H0).
  - intros w s1 w1 s2 w2 H1 H2.
    apply SecretFacts.Settings_new_identity in H1 as [E1 N1].
    apply SecretFacts.Settings_new_identity in H2 as [E2 _]. lia.
  - intros w names run.
    destruct (SecretFacts.lookups_trace P names (snd (akv.clear_cache w)))
      as (fetched & Hreq & Hnd & Hincl & _ & Hall).
    exists fetched. fold run in Hreq, Hall.
    split; [|split; [|split]].
    + rewrite Hreq. now destruct w.
    + intros name. now apply (NoDup_count_occ string_dec).
    + exact Hincl.
    + intros values Hok name Hin.
      apply (proj1 (NoDup_count_occ' string_dec fetched) Hnd).
      destruct (Hall values Hok name Hin) as [Hc|Hf]; auto.
      destruct w; discriminate.
  - intros w s w1. apply SettingsFacts.Settings_new_requests.
Qed.

Lemma get_settings_returns_cached_instance_witness :
  settings.get_settings Demo.platform fresh_world
  = (Ok Demo.snapshot,
     snd (settings.get_settings Demo.platform fresh_world))
  /\ settings.get_settings Demo.platform
       (run_calls Demo.platform Demo.busy_day
          (snd (settings.get_settings Demo.platform fresh_world)))
     = (Ok Demo.snapshot,
        run_calls Demo.platform Demo.busy_day
          (snd (settings.get_settings Demo.platform fresh_world))).
Proof.
  split.
  - vm_compute. reflexivity.
  - apply (proj1 (proj2 (get_settings_returns_cached_instance Demo.platform))
             fresh_world).
    vm_compute. reflexivity.
Defined.

(** C5: when the vault raises on a secret that has to be fetched,
    [get_secret] raises that very exception after this one request and
    caches nothing for the name; and when a lookup made by the
    [Settings] constructor raises, [get_settings] raises the same
    exception, stops in the world that lookup left, and caches no
    snapshot. *)
Theorem secret_failure_propagates (P : Platform) :
  (forall w name use_cache c e,
      use_cache && PyDict.mem name (secret_cache w) = false ->
      fst (akv._get_client P w) = Ok c ->
      kv_get_secret P c (length (kv_requests w)) name = Raise e ->
      let run := akv.get_secret P name use_cache w in
      fst run = Raise e
      /\ kv_requests (snd run) = kv_requests w ++ [name]
      /\ secret_cache (snd run) = secret_cache w)
  /\ (forall w i name values wi e,
         settings_cache w = None ->
         nth_error settings.secret_names i = Some name ->
         akv.lookups P (firstn i settings.secret_names) w = (Ok values, wi) ->
         fst (akv.get_secret P name true wi) = Raise e ->
         settings.get_settings P w
         = (Raise e, snd (akv.get_secret P name true wi))
         /\ settings_cache (snd (settings.get_settings P w)) = None).
Proof.
  split.
  - intros w name use_cache c e Hmiss Hc He run. subst run.
    rewrite SecretFacts.fst_get_client in Hc.
    rewrite (akvFacts.get_secret_miss P _ _ _ Hmiss), Hc, He. simpl.
    destruct w; auto.
  - intros w i name values wi e Hnone Hn Hl He.
    assert (Hnone' : settings_cache wi = None).
    { clear - Hl Hnone.
      assert (H : forall names w0,
                 settings_cache (snd (akv.lookups P names w0))
                 = settings_cache w0).
      { induction names as [|n rest IH]; intros w0; auto.
        cbn [akv.lookups]. rewrite bind_run.
        pose proof (SettingsFacts.get_secret_keeps_settings_cache P n true w0)
          as Hk.
        destruct (akv.get_secret P n true w0) as [[v|e] w1]; simpl in *; auto.
        rewrite bind_run. specialize (IH w1).
        destruct (akv.lookups P rest w1) as [[vs|e] w2]; simpl in *; congruence. }
      specialize (H (firstn i settings.secret_names) w).
      rewrite Hl in H. simpl in H. congruence. }
    rewrite (SettingsFacts.get_settings_miss P _ Hnone).
    rewrite (SettingsFacts.Settings_new_stops P _ _ Hn Hl He).
    split; auto. simpl.
    now rewrite SettingsFacts.get_secret_keeps_settings_cache.
Qed.

Lemma secret_failure_propagates_witness :
  fst (akv.get_secret Demo.empty_vault "ai-search-index-name" true fresh_world)
  = Raise (ResourceNotFoundError "ai-search-index-name")
  /\ fst (settings.get_settings Demo.empty_vault fresh_world)
     = Raise (ResourceNotFoundError "foundry-project-endpoint").
Proof.
  destruct (secret_failure_propagates Demo.empty_vault) as [A B]. split.
  - apply (A fresh_world "ai-search-index-name" true Demo.client); reflexivity.
  - pose proof (B fresh_world 0 "foundry-project-endpoint" [] fresh_world
                  (ResourceNotFoundError "foundry-project-endpoint")
                  eq_refl eq_refl eq_refl eq_refl) as [E _].
    rewrite E. reflexivity.
Defined.

(** C9: [get_secret(name, use_cache=False)] asks the vault whatever the
    cache holds; the value it obtains replaces the cache entry, and a
    following [get_secret(name)] returns that value without asking the
    vault and without any other change. *)
Theorem get_secret_uncached_refreshes_cache
    (P : Platform) (w : World) (name : string) (c : SecretClient) :
  fst (akv._get_client P w) = Ok c ->
  let run := akv.get_secret P name false w in
  kv_requests (snd run) = kv_requests w ++ [name]
  /\ (forall fetched,
         kv_get_secret P c (length (kv_requests w)) name = Ok fetched ->
         fst run = Ok (akv.or_empty fetched)
         /\ PyDict.get (secret_cache (snd run)) name
            = Some (akv.or_empty fetched)
         /\ akv.get_secret P name true (snd run)
            = (Ok (akv.or_empty fetched), snd run)).
Proof.
  intros Hc run. subst run.
  rewrite SecretFacts.fst_get_client in Hc.
  rewrite (akvFacts.get_secret_miss P w name false) by reflexivity.
  rewrite Hc.
  destruct (kv_get_secret P c (length (kv_requests w)) name) as [v|e]; split.
  - destruct w; reflexivity.
  - intros fetched [= <-]. simpl.
    assert (G : PyDict.get
                  (secret_cache (akv.fetched_world c name (akv.or_empty v) w))
                  name = Some (akv.or_empty v)).
    { destruct w; simpl. apply PyDictFacts.get_set_same. }
    split; [reflexivity | split; [exact G|]].
    now apply akvFacts.get_secret_hit.
  - destruct w; reflexivity.
  - discriminate.
Qed.

Lemma get_secret_uncached_refreshes_cache_witness :
  PyDict.get (secret_cache Demo.stale_world) "mcp-connection-id" = Some "old"
  /\ akv.get_secret Demo.rotated_vault "mcp-connection-id" true
       (snd (akv.get_secret Demo.rotated_vault "mcp-connection-id" false
               Demo.stale_world))
     = (Ok "new",
        snd (akv.get_secret Demo.rotated_vault "mcp-connection-id" false
               Demo.stale_world)).
Proof.
  split; [reflexivity|].
  destruct (get_secret_uncached_refreshes_cache Demo.rotated_vault
              Demo.stale_world "mcp-connection-id" (c := Demo.client)
              eq_refl) as [_ H].
  destruct (H (Some "new") eq_refl) as (_ & _ & E). exact E.
Defined.

(* ================================================================= *)
(** ** tools_registry.py: merging the resources *)

Unset Implicit Arguments.

Module MergeFacts.
Import tools_registry.

Lemma lists_at_set (r : resources) key value k s :
  lists_at (PyDict.set r key value) k s
  = if String.eqb key k then PyDict.get_default value s [] else lists_at r k s.
Proof.
  unfold lists_at, PyDict.get_default at 2 4.
  rewrite PyDictFacts.get_set. now destruct (String.eqb key k).
Qed.

Lemma get_default_set {V} (d : dict V) k v k' dflt :
  PyDict.get_default (PyDict.set d k v) k' dflt
  = if String.eqb k k' then v else PyDict.get_default d k' dflt.
Proof.
  unfold PyDict.get_default. rewrite PyDictFacts.get_set.
  now destruct (String.eqb k k').
Qed.

Lemma get_default_absent {V} (d : dict V) k dflt :
  ~ In k (PyDict.keys d) -> PyDict.get_default d k dflt = dflt.
Proof.
  intros H. apply PyDictFacts.get_None_not_in in H.
  unfold PyDict.get_default. now rewrite H.
Qed.

(** The inner loop touches no other top-level key. *)
Lemma merge_lists_get_other value : forall acc key k,
  key <> k -> PyDict.get (merge_lists acc key value) k = PyDict.get acc k.
Proof.
  unfold merge_lists.
  induction value as [|[sub_key sub_val] rest IH]; intros acc key k Hne; auto.
  simpl. rewrite IH by assumption. now apply PyDictFacts.get_set_other.
Qed.

(** The inner loop appends the list of every sub-key. *)
Lemma merge_lists_lists_at value : forall acc key s,
  PyDict.wf value ->
  lists_at (merge_lists acc key value) key s
  = lists_at acc key s ++ PyDict.get_default value s [].
Proof.
  unfold merge_lists, PyDict.wf.
  induction value as [|[sub_key sub_val] rest IH]; intros acc key s Hwf.
  - simpl. now rewrite app_nil_r.
  - simpl in Hwf. inversion Hwf as [|? ? Hnotin Hrest]; subst.
    cbn [fold_left]. rewrite IH by assumption.
    rewrite lists_at_set, String.eqb_refl, get_default_set.
    assert (Hhead : PyDict.get_default ((sub_key, sub_val) :: rest) s []
                    = if String.eqb sub_key s then sub_val
                      else PyDict.get_default rest s []).
    { unfold PyDict.get_default. cbn [PyDict.get].
      now destruct (String.eqb sub_key s). }
    rewrite Hhead. unfold lists_at.
    destruct (String.eqb sub_key s) eqn:E.
    + apply String.eqb_eq in E. subst s.
      rewrite (get_default_absent rest _ _ Hnotin), app_nil_r. reflexivity.
    + reflexivity.
Qed.

Lemma lists_at_other (r : resources) k s :
  PyDict.get r k = None -> lists_at r k s = [].
Proof. intros H. unfold lists_at, PyDict.get_default. now rewrite H. Qed.

Lemma merge_resources_cons acc key value rest :
  merge_resources acc ((key, value) :: rest)
  = merge_resources
      (if PyDict.mem key acc then merge_lists acc key value
       else PyDict.set acc key value)
      rest.
Proof. reflexivity. Qed.

(** A fragment without [k] leaves [k] alone. *)
Lemma merge_resources_get_absent frag : forall acc k,
  PyDict.get frag k = None ->
  PyDict.get (merge_resources acc frag) k = PyDict.get acc k.
Proof.
  induction frag as [|[key value] rest IH]; intros acc k H; auto.
  simpl in H. destruct (String.eqb key k) eqn:E; [discriminate|].
  apply String.eqb_neq in E. rewrite merge_resources_cons, IH by assumption.
  destruct (PyDict.mem key acc).
  - now apply merge_lists_get_other.
  - now apply PyDictFacts.get_set_other.
Qed.

(** A key that is new to the accumulator is inserted as it is. *)
Lemma merge_resources_get_new frag : forall acc k value,
  PyDict.wf frag ->
  PyDict.get acc k = None -> PyDict.get frag k = Some value ->
  PyDict.get (merge_resources acc frag) k = Some value.
Proof.
  unfold PyDict.wf.
  induction frag as [|[key v] rest IH]; intros acc k value Hwf Hacc H;
    [discriminate|].
  simpl in Hwf. inversion Hwf as [|? ? Hnotin Hrest]; subst.
  simpl in H. rewrite merge_resources_cons.
  destruct (String.eqb key k) eqn:E.
  - apply String.eqb_eq in E. subst key. injection H as ->.
    unfold PyDict.mem. rewrite Hacc.
    rewrite merge_resources_get_absent
      by (now apply PyDictFacts.get_None_not_in).
    apply PyDictFacts.get_set_same.
  - apply String.eqb_neq in E. apply IH; auto.
    destruct (PyDict.mem key acc).
    + now rewrite merge_lists_get_other.
    + now rewrite PyDictFacts.get_set_other.
Qed.

Lemma lists_at_congr (r r' : resources) k s :
  PyDict.get r k = PyDict.get r' k -> lists_at r k s = lists_at r' k s.
Proof. intros H. unfold lists_at, PyDict.get_default. now rewrite H. Qed.

Lemma lists_at_cons key value (rest : resources) k s :
  lists_at ((key, value) :: rest) k s
  = if String.eqb key k then PyDict.get_default value s []
    else lists_at rest k s.
Proof.
  unfold lists_at, PyDict.get_default at 2 4. cbn [PyDict.get].
  now destruct (String.eqb key k).
Qed.

(** Merging one fragment appends its lists to those merged so far. *)
Lemma merge_resources_lists_at frag : forall acc k s,
  wf_resources frag ->
  lists_at (merge_resources acc frag) k s
  = lists_at acc k s ++ lists_at frag k s.
Proof.
  unfold wf_resources, PyDict.wf.
  induction frag as [|[key value] rest IH]; intros acc k s [Hwf Hin].
  - simpl. now rewrite app_nil_r.
  - simpl in Hwf. inversion Hwf as [|? ? Hnotin Hrest]; subst.
    inversion Hin as [|? ? Hvalue Hin']; subst. simpl in Hvalue.
    rewrite merge_resources_cons, IH by (split; assumption).
    rewrite lists_at_cons.
    destruct (String.eqb key k) eqn:E.
    + apply String.eqb_eq in E. subst key.
      apply PyDictFacts.get_None_not_in in Hnotin.
      rewrite (lists_at_other rest k s Hnotin), app_nil_r.
      destruct (PyDict.mem k acc) eqn:Hm.
      * now apply merge_lists_lists_at.
      * rewrite lists_at_set, String.eqb_refl.
        unfold PyDict.mem in Hm.
        destruct (PyDict.get acc k) eqn:G; [discriminate|].
        now rewrite (lists_at_other acc k s G).
    + f_equal.
      destruct (PyDict.mem key acc).
      * apply String.eqb_neq in E.
        now apply lists_at_congr, merge_lists_get_other.
      * rewrite lists_at_set. now rewrite E.
Qed.

(** Merging a series of fragments concatenates their lists in order. *)
Lemma merge_all_lists_at frags : forall acc k s,
  Forall wf_resources frags ->
  lists_at (fold_left merge_resources frags acc) k s
  = lists_at acc k s ++ concat (map (fun frag => lists_at frag k s) frags).
Proof.
  induction frags as [|frag rest IH]; intros acc k s Hwf.
  - simpl. now rewrite app_nil_r.
  - inversion Hwf; subst. cbn [fold_left map concat].
    rewrite IH, merge_resources_lists_at, app_assoc by assumption.
    reflexivity.
Qed.

Lemma merge_all_get_absent frags : forall acc k,
  (forall frag, In frag frags -> PyDict.get frag k = None) ->
  PyDict.get (fold_left merge_resources frags acc) k = PyDict.get acc k.
Proof.
  induction frags as [|frag rest IH]; intros acc k H; auto.
  cbn [fold_left]. rewrite IH by (intros f Hf; apply H; now right).
  apply merge_resources_get_absent, H. now left.
Qed.

(** A key that a single fragment declares ends up bound to the value of
    that fragment. *)
Lemma merge_all_get_single before frag after k value :
  PyDict.wf frag ->
  PyDict.get frag k = Some value ->
  (forall f, In f (before ++ after) -> PyDict.get f k = None) ->
  PyDict.get (fold_left merge_resources (before ++ frag :: after) []) k
  = Some value.
Proof.
  intros Hwf Hget Hnone. rewrite fold_left_app. cbn [fold_left].
  rewrite merge_all_get_absent
    by (intros f Hf; apply Hnone, in_or_app; now right).
  apply merge_resources_get_new; auto.
  rewrite merge_all_get_absent
    by (intros f Hf; apply Hnone, in_or_app; now left).
  reflexivity.
Qed.

End MergeFacts.

(* ================================================================= *)
(** ** tools_registry.py: the loop over the names *)

Module ResolveFacts.
Import tools_registry.
Section Facts.
Variable P : Platform.
Variable registry : dict ToolBuilder.

Lemma log_appended_twice w l l' :
  set_log (log (set_log (log w ++ l) w) ++ l') (set_log (log w ++ l) w)
  = set_log (log w ++ l ++ l') w.
Proof. destruct w; simpl. now rewrite app_assoc. Qed.

(** On a list of strings the loop never raises; it returns the
    definitions of the entries built, the fold of [merge_resources] over
    their fragments, and logs one diagnostic per unknown name among the
    diagnostics of the builders. *)
Lemma resolve_loop_strings s names : forall tools res w,
  resolve_loop registry s (map JStr names) tools res w
  = (Ok (tools ++ map (fun e => tool_def (snd e)) (built registry s names),
         fold_left merge_resources (fragments registry s names) res),
     set_log
       (log w ++
        flat_map (fun name =>
                    match PyDict.get registry name with
                    | Some build => fst (build s)
                    | None => [unknown_tool registry name]
                    end) names)
       w).
Proof.
  unfold fragments.
  induction names as [|name rest IH]; intros tools res w.
  - simpl. rewrite !app_nil_r. now destruct w.
  - cbn [map resolve_loop flat_map built]. rewrite bind_run.
    unfold lift, registry_get.
    destruct (PyDict.get registry name) as [build|] eqn:G.
    + destruct (build s) as [diagnostics entry] eqn:B.
      rewrite bind_run. unfold modify. rewrite IH.
      cbn [map app fold_left fst snd]. rewrite log_appended_twice.
      now rewrite <- app_assoc.
    + rewrite bind_run. unfold logging, modify. rewrite IH.
      cbn [app]. rewrite log_appended_twice. reflexivity.
Qed.

Lemma resolve_tools_in_strings names w :
  resolve_tools_in P registry (JArr (map JStr names)) w
  = match settings.get_settings P w with
    | (Ok s, w1) =>
        (Ok (map (fun e => tool_def (snd e))
               (built registry (obj_val s) names),
             fold_left merge_resources
               (fragments registry (obj_val s) names) []),
         set_log
           (log w1 ++
            flat_map (fun name =>
                        match PyDict.get registry name with
                        | Some build => fst (build (obj_val s))
                        | None => [unknown_tool registry name]
                        end) names)
           w1)
    | (Raise e, w1) => (Raise e, w1)
    end.
Proof.
  unfold resolve_tools_in. rewrite bind_run.
  destruct (settings.get_settings P w) as [[s|e] w1]; [|reflexivity].
  rewrite bind_run. unfold lift, py_iter.
  now rewrite resolve_loop_strings.
Qed.

(** Names missing from the registry build nothing. *)
Lemma built_filter s names :
  built registry s
    (filter (fun name => PyDict.mem name registry) names)
  = built registry s names.
Proof.
  unfold built, PyDict.mem.
  induction names as [|name rest IH]; auto.
  cbn [filter flat_map].
  destruct (PyDict.get registry name) eqn:G; cbn [flat_map]; rewrite ?G;
    now rewrite IH.
Qed.

Lemma diagnostics_filter s names :
  flat_map (fun name =>
              match PyDict.get registry name with
              | Some build => fst (build s)
              | None => [unknown_tool registry name]
              end)
    (filter (fun name => PyDict.mem name registry) names)
  = flat_map (fun name =>
                match PyDict.get registry name with
                | Some build => fst (build s)
                | None => []
                end) names.
Proof.
  unfold PyDict.mem.
  induction names as [|name rest IH]; auto.
  cbn [filter flat_map].
  destruct (PyDict.get registry name) eqn:G; cbn [flat_map]; rewrite ?G;
    now rewrite IH.
Qed.

(** Known names each build one entry, in order. *)
Lemma built_known s names :
  (forall name, In name names -> PyDict.mem name registry = true) ->
  Forall2
    (fun name def =>
       exists build,
         PyDict.get registry name = Some build
         /\ def = tool_def (snd (build s)))
    names
    (map (fun e => tool_def (snd e)) (built registry s names)).
Proof.
  unfold built, PyDict.mem.
  induction names as [|name rest IH]; intros H; [constructor|].
  cbn [flat_map]. pose proof (H name (or_introl eq_refl)) as Hn.
  destruct (PyDict.get registry name) as [build|] eqn:G; [|discriminate].
  cbn [app map]. constructor; eauto.
  apply IH. intros n Hin. apply H. now right.
Qed.

Lemma built_wf s names :
  (forall name build,
      PyDict.get registry name = Some build ->
      wf_resources (tool_resources (snd (build s)))) ->
  Forall wf_resources (fragments registry s names).
Proof.
  intros H. unfold fragments, built.
  induction names as [|name rest IH]; [constructor|].
  cbn [flat_map].
  destruct (PyDict.get registry name) as [build|] eqn:G; cbn [app map].
  - constructor; [now apply (H name) | exact IH].
  - exact IH.
Qed.

End Facts.
End ResolveFacts.

(* ================================================================= *)
(** ** Claims about [resolve_tools] *)

(** C1: for every list of names and every registry whose builders return
    well-formed dictionaries, as those of [TOOL_REGISTRY] do,
    [resolve_tools] returns, under each top-level key and sub-key, the
    concatenation in input order of the lists the resolved entries
    declare there, nothing dropped; a top-level key declared by one entry
    only is bound to that entry's value as it is; and the fragments
    [{"x": {"items": [1]}}] and [{"x": {"items": [2]}}] merge into
    [{"x": {"items": [1, 2]}}]. *)
Theorem resolve_tools_merges_resources_in_order
    (P : Platform) (registry : dict tools_registry.ToolBuilder)
    (names : list string) (w : World) (s : instance Settings) (w1 : World) :
  (forall name build,
      PyDict.get registry name = Some build ->
      tools_registry.wf_resources
        (tools_registry.tool_resources (snd (build (obj_val s))))) ->
  settings.get_settings P w = (Ok s, w1) ->
  let frags := tools_registry.fragments registry (obj_val s) names in
  (exists tools res w2,
      tools_registry.resolve_tools_in P registry (JArr (map JStr names)) w
      = (Ok (tools, res), w2)
      /\ (forall key sub_key,
             tools_registry.lists_at res key sub_key
             = concat (map (fun frag =>
                              tools_registry.lists_at frag key sub_key)
                         frags))
      /\ (forall before frag after key value,
             frags = before ++ frag :: after ->
             PyDict.get frag key = Some value ->
             (forall other, In other (before ++ after) ->
                            PyDict.get other key = None) ->
             PyDict.get res key = Some value))
  /\ tools_registry.merge_resources
       (tools_registry.merge_resources [] [("x", [("items", [JInt 1])])])
       [("x", [("items", [JInt 2])])]
     = [("x", [("items", [JInt 1; JInt 2])])]
  /\ (forall name build settings,
         PyDict.get tools_registry.TOOL_REGISTRY name = Some build ->
         tools_registry.wf_resources
           (tools_registry.tool_resources (snd (build settings)))).
Proof.
  intros Hwf Hs frags. split; [|split; [reflexivity|]].
  2:{ intros name build settings H. apply PyDictFacts.get_Some_In in H.
      destruct H as [[= <- <-]|[[= <- <-]|[[= <- <-]|[]]]]; simpl;
        (split; repeat constructor; simpl; tauto). }
  rewrite ResolveFacts.resolve_tools_in_strings, Hs.
  do 3 eexists. split; [reflexivity|]. fold frags.
  assert (Hall : Forall tools_registry.wf_resources frags)
    by now apply ResolveFacts.built_wf.
  split.
  - intros key sub_key.
    now rewrite MergeFacts.merge_all_lists_at.
  - intros before frag after key value Hfrags Hget Hnone.
    rewrite Hfrags. apply MergeFacts.merge_all_get_single; auto.
    rewrite Hfrags in Hall. apply Forall_app in Hall as [_ Hall].
    inversion Hall as [|? ? [Hfrag _] _]; subst. exact Hfrag.
Qed.

Lemma resolve_tools_merges_resources_in_order_witness :
  exists tools res w2,
    tools_registry.resolve_tools_in Demo.platform Demo.two_searches
      (JArr (map JStr ["first"; "second"])) fresh_world
    = (Ok (tools, res), w2)
    /\ tools_registry.lists_at res "x" "items" = [JInt 1; JInt 2].
Proof.
  destruct (resolve_tools_merges_resources_in_order
              Demo.platform Demo.two_searches ["first"; "second"]
              fresh_world Demo.snapshot
              (snd (settings.get_settings Demo.platform fresh_world)))
    as [(tools & res & w2 & Hrun & Hlists & _) _].
  - intros name build H. apply PyDictFacts.get_Some_In in H.
    destruct H as [[= <- <-]|[[= <- <-]|[]]]; simpl;
      (split; repeat constructor; simpl; tauto).
  - vm_compute. reflexivity.
  - exists tools, res, w2. split; [exact Hrun|].
    rewrite Hlists. reflexivity.
Defined.

(** C2: when every name is in the registry, [resolve_tools] returns as
    many definitions as there are names, and the definition at each
    position is the one built for the name at that position, a repeated
    name giving a repeated definition. *)
Theorem resolve_tools_keeps_input_order
    (P : Platform) (names : list string) (w : World)
    (s : instance Settings) (w1 : World) :
  (forall name, In name names ->
                PyDict.mem name tools_registry.TOOL_REGISTRY = true) ->
  settings.get_settings P w = (Ok s, w1) ->
  exists tools res w2,
    tools_registry.resolve_tools P (JArr (map JStr names)) w
    = (Ok (tools, res), w2)
    /\ length tools = length names
    /\ Forall2
         (fun name def =>
            exists build,
              PyDict.get tools_registry.TOOL_REGISTRY name = Some build
              /\ def = tools_registry.tool_def (snd (build (obj_val s))))
         names tools.
Proof.
  intros Hknown Hs. unfold tools_registry.resolve_tools.
  rewrite ResolveFacts.resolve_tools_in_strings, Hs.
  do 3 eexists. split; [reflexivity|].
  pose proof (ResolveFacts.built_known tools_registry.TOOL_REGISTRY
                (obj_val s) names Hknown) as H.
  split; [|exact H].
  symmetry. exact (Forall2_length H).
Qed.

Lemma resolve_tools_keeps_input_order_witness :
  exists tools res w2,
    tools_registry.resolve_tools Demo.platform
      (JArr (map JStr ["code_interpreter"; "ai_search"; "code_interpreter"]))
      fresh_world
    = (Ok (tools, res), w2)
    /\ length tools = 3.
Proof.
  destruct (resolve_tools_keeps_input_order
              Demo.platform ["code_interpreter"; "ai_search"; "code_interpreter"]
              fresh_world Demo.snapshot
              (snd (settings.get_settings Demo.platform fresh_world)))
    as (tools & res & w2 & Hrun & Hlen & _).
  - intros name [<-|[<-|[<-|[]]]]; reflexivity.
  - vm_compute. reflexivity.
  - exists tools, res, w2. split; [exact Hrun | exact Hlen].
Defined.

(** C3: a run of [resolve_tools] on any list of names returns what the
    run on the known names alone returns and leaves the same world but
    for the log; when the settings are available it returns normally,
    and its log holds one "unknown tool" diagnostic for each name
    missing from the registry, in order, among the diagnostics that the
    run on the known names alone logs. *)
Theorem resolve_tools_skips_unknown_names
    (P : Platform) (names : list string) (w : World) :
  let known :=
    filter (fun name => PyDict.mem name tools_registry.TOOL_REGISTRY) names in
  let run := tools_registry.resolve_tools P (JArr (map JStr names)) w in
  let run_known := tools_registry.resolve_tools P (JArr (map JStr known)) w in
  fst run = fst run_known
  /\ set_log [] (snd run) = set_log [] (snd run_known)
  /\ (forall s w1,
         settings.get_settings P w = (Ok s, w1) ->
         (exists out, fst run = Ok out)
         /\ log (snd run)
            = log w1 ++
              flat_map
                (fun name =>
                   match PyDict.get tools_registry.TOOL_REGISTRY name with
                   | Some build => fst (build (obj_val s))
                   | None =>
                       [tools_registry.unknown_tool
                          tools_registry.TOOL_REGISTRY name]
                   end) names
         /\ log (snd run_known)
            = log w1 ++
              flat_map
                (fun name =>
                   match PyDict.get tools_registry.TOOL_REGISTRY name with
                   | Some build => fst (build (obj_val s))
                   | None => []
                   end) names).
Proof.
  intros known run run_known. subst run run_known known.
  unfold tools_registry.resolve_tools.
  rewrite !ResolveFacts.resolve_tools_in_strings.
  destruct (settings.get_settings P w) as [[s|e] w1].
  - unfold tools_registry.fragments.
    rewrite !ResolveFacts.built_filter, ResolveFacts.diagnostics_filter.
    cbn [fst snd]. split; [reflexivity|]. split; [now destruct w1|].
    intros s' w1' [= <- <-]. split; [eauto|].
    split; now destruct w1.
  - cbn [fst snd]. split; [reflexivity|]. split; [reflexivity|].
    intros s w1' H. discriminate.
Qed.

Lemma resolve_tools_skips_unknown_names_witness :
  (exists out,
      fst (tools_registry.resolve_tools Demo.platform
             (JArr (map JStr ["ai_search"; "unknown_tool"])) fresh_world)
      = Ok out)
  /\ fst (tools_registry.resolve_tools Demo.platform
            (JArr (map JStr ["ai_search"; "unknown_tool"])) fresh_world)
     = fst (tools_registry.resolve_tools Demo.platform
              (JArr (map JStr ["ai_search"])) fresh_world).
Proof.
  destruct (resolve_tools_skips_unknown_names Demo.platform
              ["ai_search"; "unknown_tool"] fresh_world)
    as (Hsame & _ & Hok).
  split.
  - destruct (Hok Demo.snapshot
                (snd (settings.get_settings Demo.platform fresh_world)))
      as [Hout _]; [vm_compute; reflexivity | exact Hout].
  - exact Hsame.
Defined.

(* ================================================================= *)
(** ** The handlers: what they send *)

Module HandlerFacts.
Section Facts.
Variable P : Platform.

Lemma resolve_tools_keeps_requests tool_names w :
  agent_requests (snd (tools_registry.resolve_tools P tool_names w))
  = agent_requests w.
Proof.
  apply (Frames.stable_resolve_tools_in (P := P)
           (I := fun w1 => agent_requests w1 = agent_requests w));
    try respects_tac; try reflexivity.
  apply Frames.stable_get_settings; respects_tac.
Qed.

Lemma get_project_client_keeps_requests w :
  agent_requests (snd (foundry_client.get_project_client P w))
  = agent_requests w.
Proof.
  apply (Frames.stable_get_project_client (P := P)
           (I := fun w1 => agent_requests w1 = agent_requests w));
    try respects_tac; try reflexivity.
  apply Frames.stable_get_settings; respects_tac.
Qed.

(** The last three statements of both handlers: one request goes out
    unless the client cannot be built. *)
Lemma send_request args lvl msg (largs : Agent -> list log_arg) w :
  let run :=
    (project_client <- foundry_client.get_project_client P;;
     agent <- foundry_client.agents_create P project_client args;;
     logging lvl msg (largs agent)) w in
  (agent_requests (snd run) = agent_requests w ++ [args]
   /\ forall e, fst run = Raise e ->
        exists c n, agents_create_agent P c n args = Raise e)
  \/ (agent_requests (snd run) = agent_requests w
      /\ exists e, fst run = Raise e).
Proof.
  intros run. subst run. rewrite bind_run.
  pose proof (get_project_client_keeps_requests w) as Hk.
  destruct (foundry_client.get_project_client P w) as [[c|e] w1];
    simpl in Hk; [|right; simpl; eauto].
  left. rewrite bind_run. unfold foundry_client.agents_create.
  destruct (agents_create_agent P c (length (agent_requests w1)) args)
    as [agent|e] eqn:E; simpl.
  - split; [destruct w1; simpl in *; congruence | discriminate].
  - split; [destruct w1; simpl in *; congruence|].
    intros e' [= <-]. eauto.
Qed.

(** *** When the services are available *)

Hypothesis available : services_available P.

Lemma the_client_available w : exists c, akv.the_client P w = Ok c.
Proof.
  destruct available as [(uri & client & Huri & Hclient) _].
  unfold akv.the_client.
  destruct (client_cache w); eauto. rewrite Huri, Hclient. eauto.
Qed.

Lemma get_secret_available name w :
  In name settings.secret_names ->
  exists value, fst (akv.get_secret P name true w) = Ok value.
Proof.
  intros Hin.
  destruct (PyDict.mem name (secret_cache w)) eqn:Hm.
  - unfold PyDict.mem in Hm.
    destruct (PyDict.get (secret_cache w) name) as [v|] eqn:G;
      [|discriminate].
    rewrite (akvFacts.get_secret_hit P _ _ G). simpl. eauto.
  - rewrite (akvFacts.get_secret_miss P w name true) by (now rewrite Hm).
    destruct (the_client_available w) as [c ->].
    destruct available as (_ & Hvault & _).
    destruct (Hvault c (length (kv_requests w)) name Hin) as [v ->].
    simpl. eauto.
Qed.

Lemma Settings_new_available w :
  exists s, fst (settings.Settings_new P w) = Ok s.
Proof.
  unfold settings.Settings_new.
  repeat match goal with
  | |- exists s, fst (bind (akv.get_secret P ?n true) _ ?w0) = Ok s =>
      rewrite bind_run;
      let H := fresh in
      destruct (get_secret_available n w0) as [? H];
      [unfold settings.secret_names; simpl; tauto|];
      destruct (akv.get_secret P n true w0) as [[?|?] ?];
      simpl in H; [clear H | discriminate]
  end.
  unfold new_object, bind, gets, modify, ret. simpl. eauto.
Qed.

Lemma get_settings_available w :
  exists s, fst (settings.get_settings P w) = Ok s.
Proof.
  destruct (settings_cache w) as [s|] eqn:E.
  - rewrite (Frames.get_settings_cached P _ E). simpl. eauto.
  - rewrite (SettingsFacts.get_settings_miss P _ E).
    destruct (Settings_new_available w) as [s H].
    destruct (settings.Settings_new P w) as [[s'|e] w'];
      simpl in *; [eauto | discriminate].
Qed.

Lemma get_project_client_available w :
  exists c, fst (foundry_client.get_project_client P w) = Ok c.
Proof.
  unfold foundry_client.get_project_client, lru_cache.
  rewrite bind_run. unfold gets at 1.
  destruct (project_client_cache w) as [c|]; [simpl; eauto|].
  rewrite !bind_run.
  destruct (get_settings_available w) as [s Hs].
  destruct (settings.get_settings P w) as [[s'|e] w1];
    simpl in Hs; [clear Hs | discriminate].
  rewrite bind_run. unfold foundry_client._build_credential.
  rewrite bind_run.
  destruct (get_settings_available w1) as [s2 Hs].
  destruct (settings.get_settings P w1) as [[s2'|e] w2];
    simpl in Hs; [clear Hs | discriminate].
  destruct (String.eqb _ _); simpl; eauto.
Qed.

Lemma send_request_available args lvl msg (largs : Agent -> list log_arg) w :
  let run :=
    (project_client <- foundry_client.get_project_client P;;
     agent <- foundry_client.agents_create P project_client args;;
     logging lvl msg (largs agent)) w in
  fst run = Ok tt
  /\ agent_requests (snd run) = agent_requests w ++ [args].
Proof.
  intros run.
  destruct (send_request args lvl msg largs w) as [[Hsent Hfail]|[_ [e He]]];
    fold run in Hsent, Hfail || fold run in He.
  - split; auto.
    destruct (fst run) as [[]|e] eqn:E; auto.
    destruct (Hfail e eq_refl) as (c & n & Hc).
    destruct available as (_ & _ & Hagents).
    destruct (Hagents c n args) as [agent Ha]. congruence.
  - exfalso. subst run. rewrite bind_run in He.
    destruct (get_project_client_available w) as [c Hc].
    destruct (foundry_client.get_project_client P w) as [[c'|e'] w1];
      simpl in Hc; [clear Hc | discriminate].
    rewrite bind_run in He. unfold foundry_client.agents_create in He.
    destruct available as (_ & _ & Hagents).
    destruct (Hagents c' (length (agent_requests w1)) args) as [agent Ha].
    rewrite Ha in He. simpl in He. discriminate.
Qed.

End Facts.
End HandlerFacts.

Module RunFacts.
Section Facts.
Variable P : Platform.

Lemma bind_lift {A B} (r : result A) (k : A -> M B) w :
  bind (lift r) k w
  = match r with Ok a => k a w | Raise e => (Raise e, w) end.
Proof. now destruct r. Qed.

Lemma bind_logging {B} lvl msg args (k : unit -> M B) w :
  bind (logging lvl msg args) k w
  = k tt (set_log (log w ++ [LogRecord lvl msg args]) w).
Proof. reflexivity. Qed.

Lemma agent_requests_set_log l w :
  agent_requests (set_log l w) = agent_requests w.
Proof. now destruct w. Qed.

Lemma get_default_None {V} (d : dict V) k dflt :
  PyDict.get d k = None -> PyDict.get_default d k dflt = dflt.
Proof. intros H. unfold PyDict.get_default. now rewrite H. Qed.

Lemma get_default_Some {V} (d : dict V) k dflt v :
  PyDict.get d k = Some v -> PyDict.get_default d k dflt = v.
Proof. intros H. unfold PyDict.get_default. now rewrite H. Qed.

(** From [resolve_tools] to the end of a handler: either the tools are
    resolved and one request with them goes out, or the run raises and
    nothing is sent. *)
Lemma resolve_and_send model agent_name instructions tool_names
    lvl msg (largs : Agent -> list log_arg) w :
  let run :=
    (resolved <- tools_registry.resolve_tools P tool_names;;
     project_client <- foundry_client.get_project_client P;;
     agent <- foundry_client.agents_create P project_client
                {| arg_model := model;
                   arg_name := agent_name;
                   arg_instructions := instructions;
                   arg_tools := fst resolved;
                   arg_tool_resources := snd resolved |};;
     logging lvl msg (largs agent)) w in
  (exists resolved w1,
      tools_registry.resolve_tools P tool_names w = (Ok resolved, w1)
      /\ agent_requests (snd run)
         = agent_requests w ++
           [{| arg_model := model;
               arg_name := agent_name;
               arg_instructions := instructions;
               arg_tools := fst resolved;
               arg_tool_resources := snd resolved |}]
      /\ (agents_service_accepts P -> fst run = Ok tt))
  \/ (agent_requests (snd run) = agent_requests w
      /\ exists e, fst run = Raise e).
Proof.
  intros run. subst run. rewrite bind_run.
  pose proof (HandlerFacts.resolve_tools_keeps_requests P tool_names w) as Hk.
  destruct (tools_registry.resolve_tools P tool_names w)
    as [[resolved|e] w1] eqn:E; simpl in Hk; [|right; simpl; eauto].
  rewrite <- Hk.
  match goal with
  | |- context [bind ?c ?k w1] =>
      destruct (HandlerFacts.send_request P
                  {| arg_model := model;
                     arg_name := agent_name;
                     arg_instructions := instructions;
                     arg_tools := fst resolved;
                     arg_tool_resources := snd resolved |}
                  lvl msg largs w1) as [[Hsent Hraised]|[Hkept Hfail]]
  end.
  - left. exists resolved, w1. split; [reflexivity|]. split; [exact Hsent|].
    intros Hacc.
    match goal with
    | |- fst ?r = Ok tt => destruct (fst r) as [[]|e]; [reflexivity|]
    end.
    destruct (Hraised e eq_refl) as (c & n & Hc).
    destruct (Hacc c n
                {| arg_model := model;
                   arg_name := agent_name;
                   arg_instructions := instructions;
                   arg_tools := fst resolved;
                   arg_tool_resources := snd resolved |}) as [agent Ha].
    rewrite Ha in Hc. discriminate.
  - right. split; [exact Hkept | exact Hfail].
Qed.

(** On a platform whose services are available, a list of strings is
    always resolved and the request always goes out. *)
Lemma resolve_and_send_available model agent_name instructions names
    lvl msg (largs : Agent -> list log_arg) w :
  services_available P ->
  let run :=
    (resolved <- tools_registry.resolve_tools P (JArr (map JStr names));;
     project_client <- foundry_client.get_project_client P;;
     agent <- foundry_client.agents_create P project_client
                {| arg_model := model;
                   arg_name := agent_name;
                   arg_instructions := instructions;
                   arg_tools := fst resolved;
                   arg_tool_resources := snd resolved |};;
     logging lvl msg (largs agent)) w in
  fst run = Ok tt
  /\ exists resolved w1,
      tools_registry.resolve_tools P (JArr (map JStr names)) w
      = (Ok resolved, w1)
      /\ agent_requests (snd run)
         = agent_requests w ++
           [{| arg_model := model;
               arg_name := agent_name;
               arg_instructions := instructions;
               arg_tools := fst resolved;
               arg_tool_resources := snd resolved |}].
Proof.
  intros Hav run.
  destruct (resolve_and_send model agent_name instructions
              (JArr (map JStr names)) lvl msg largs w)
    as [(resolved & w1 & Hres & Hsent & Hok)|[_ [e He]]];
    fold run in Hsent, Hok || fold run in He.
  - split; [apply Hok; apply Hav|]. exists resolved, w1. now split.
  - exfalso. subst run. rewrite bind_run in He.
    unfold tools_registry.resolve_tools in He.
    rewrite ResolveFacts.resolve_tools_in_strings in He.
    destruct (HandlerFacts.get_settings_available P Hav w) as [s Hs].
    destruct (settings.get_settings P w) as [[s'|e'] w1];
      simpl in Hs; [clear Hs | discriminate].
    match type of He with
    | fst (bind _ (fun pc => bind (foundry_client.agents_create P pc ?args) _)
             ?w2) = _ =>
        destruct (HandlerFacts.send_request_available P Hav args
                    lvl msg largs w2) as [Hok _]
    end.
    rewrite He in Hok. discriminate.
Qed.

(** No name, no tool. *)
Lemma resolve_nothing w resolved w1 :
  tools_registry.resolve_tools P (JArr []) w = (Ok resolved, w1) ->
  resolved = ([], []).
Proof.
  intros H. unfold tools_registry.resolve_tools in H.
  change (JArr []) with (JArr (map JStr [])) in H.
  rewrite ResolveFacts.resolve_tools_in_strings in H.
  destruct (settings.get_settings P w) as [[s|e] w2]; [|discriminate].
  now injection H as <- _.
Qed.

(** The [except] clauses of [agent_creation_processor] re-raise what
    they catch and send nothing. *)
Lemma try_on_exception (c : M unit) w :
  fst (try_except c function_app.on_exception w) = fst (c w)
  /\ agent_requests (snd (try_except c function_app.on_exception w))
     = agent_requests (snd (c w)).
Proof.
  unfold try_except. destruct (c w) as [[[]|e] w1]; [now split|].
  unfold function_app.on_exception.
  destruct (is_JSONDecodeError e); [|destruct (is_ValueError e)];
    rewrite bind_logging; cbn [raise fst snd];
    now rewrite agent_requests_set_log.
Qed.

End Facts.
End RunFacts.

Module BodyFacts.
Section Facts.
Variable P : Platform.

(** The body of [create_agent] once the fields of the message are
    known. *)
Lemma create_agent_with_fields fields w :
  let agent_name := PyDict.get_default fields "agent_name" (JStr "default-agent") in
  let model := PyDict.get_default fields "model" (JStr "gpt-4.1") in
  let explicit := PyDict.get_default fields "instructions" JNull in
  let tool_names := PyDict.get_default fields "tools" (JArr []) in
  src_function_app.create_agent_with P (JObj fields) w
  = match instructions_or_prompt explicit agent_name with
    | Raise e => (Raise e, w)
    | Ok instructions =>
        (resolved <- tools_registry.resolve_tools P tool_names;;
         project_client <- foundry_client.get_project_client P;;
         agent <- foundry_client.agents_create P project_client
                    {| arg_model := model;
                       arg_name := agent_name;
                       arg_instructions := instructions;
                       arg_tools := fst resolved;
                       arg_tool_resources := snd resolved |};;
         logging INFO "Agent created: {agent.id} ({agent_name})"
           [AStr (agent_id agent); AJson agent_name]) w
    end.
Proof.
  intros agent_name model explicit tool_names.
  unfold src_function_app.create_agent_with. cbn [config_get].
  do 3 (rewrite RunFacts.bind_lift; cbv beta iota).
  rewrite RunFacts.bind_lift.
  fold agent_name explicit.
  destruct (instructions_or_prompt explicit agent_name); [|reflexivity].
  rewrite RunFacts.bind_lift. reflexivity.
Qed.

(** The body of [agent_creation_processor] once the fields of the
    message are known. *)
Lemma agent_creation_with_fields fields w :
  let new_name := PyDict.get_default fields "agent_name" JNull in
  let agent_name :=
    if truthy new_name then new_name
    else PyDict.get_default fields "agentName" (JStr "default-agent") in
  let model := PyDict.get_default fields "model" (JStr "gpt-4.1") in
  let explicit := PyDict.get_default fields "instructions" JNull in
  let tool_names := PyDict.get_default fields "tools" (JArr []) in
  function_app.agent_creation_with P (JObj fields) w
  = match instructions_or_prompt explicit agent_name with
    | Raise e => (Raise e, w)
    | Ok instructions =>
        (resolved <- tools_registry.resolve_tools P tool_names;;
         project_client <- foundry_client.get_project_client P;;
         agent <- foundry_client.agents_create P project_client
                    {| arg_model := model;
                       arg_name := agent_name;
                       arg_instructions := instructions;
                       arg_tools := fst resolved;
                       arg_tool_resources := snd resolved |};;
         logging INFO "Agent created successfully: {agent.id} ({agent_name})"
           [AStr (agent_id agent); AJson agent_name])
          (set_log
             (log w ++
              [LogRecord INFO "Creating agent: {agent_name} with model: {model}"
                 [AJson agent_name; AJson model];
               LogRecord INFO "Tools requested: {tool_names}"
                 [AJson tool_names]])
             w)
    end.
Proof.
  intros new_name agent_name model explicit tool_names.
  unfold function_app.agent_creation_with. cbn [config_get].
  rewrite RunFacts.bind_lift; cbv beta iota. fold new_name.
  assert (Hname :
            forall B (k : json -> M B),
              bind (if truthy new_name then ret new_name
                    else lift (Ok (PyDict.get_default fields "agentName"
                                     (JStr "default-agent")))) k w
              = k agent_name w).
  { intros B k. unfold agent_name. now destruct (truthy new_name). }
  rewrite Hname.
  do 2 (rewrite RunFacts.bind_lift; cbv beta iota).
  rewrite RunFacts.bind_lift. fold explicit.
  destruct (instructions_or_prompt explicit agent_name); [|reflexivity].
  rewrite RunFacts.bind_lift; cbv beta iota.
  rewrite !RunFacts.bind_logging.
  fold model tool_names.
  f_equal. destruct w; simpl. now rewrite <- app_assoc.
Qed.

End Facts.
End BodyFacts.

(* ================================================================= *)
(** ** Claims about the queue handlers *)

Module EmptyMessage.
Section Facts.
Variable P : Platform.

Let default_prompt : string :=
  "You are a helpful AI assistant powered by Azure AI Foundry.".

(** The body of [create_agent] on [{}]. *)
Lemma create_agent_with_empty w :
  let run := src_function_app.create_agent_with P (JObj []) w in
  (agent_requests (snd run) = agent_requests w ++ [default_request]
   \/ (agent_requests (snd run) = agent_requests w
       /\ exists e, fst run = Raise e))
  /\ (services_available P ->
      fst run = Ok tt
      /\ agent_requests (snd run) = agent_requests w ++ [default_request]).
Proof.
  intros run. subst run. rewrite BodyFacts.create_agent_with_fields.
  cbn [PyDict.get_default PyDict.get].
  change (instructions_or_prompt JNull (JStr "default-agent"))
    with (Ok (JStr default_prompt)).
  cbv beta iota. split.
  - destruct (RunFacts.resolve_and_send P (JStr "gpt-4.1")
                (JStr "default-agent") (JStr default_prompt) (JArr [])
                INFO "Agent created: {agent.id} ({agent_name})"
                (fun agent => [AStr (agent_id agent);
                               AJson (JStr "default-agent")]) w)
      as [(r & w1 & Hr & Hsent & _)|H]; [left | right; exact H].
    apply RunFacts.resolve_nothing in Hr. subst r. exact Hsent.
  - intros Hav.
    destruct (RunFacts.resolve_and_send_available P (JStr "gpt-4.1")
                (JStr "default-agent") (JStr default_prompt) []
                INFO "Agent created: {agent.id} ({agent_name})"
                (fun agent => [AStr (agent_id agent);
                               AJson (JStr "default-agent")]) w Hav)
      as [Hok (r & w1 & Hr & Hsent)].
    apply RunFacts.resolve_nothing in Hr. subst r. split; assumption.
Qed.

(** The body of [agent_creation_processor] on [{}]. *)
Lemma agent_creation_with_empty w :
  let run := function_app.agent_creation_with P (JObj []) w in
  (agent_requests (snd run) = agent_requests w ++ [default_request]
   \/ (agent_requests (snd run) = agent_requests w
       /\ exists e, fst run = Raise e))
  /\ (services_available P ->
      fst run = Ok tt
      /\ agent_requests (snd run) = agent_requests w ++ [default_request]).
Proof.
  intros run. subst run. rewrite BodyFacts.agent_creation_with_fields.
  cbn [PyDict.get_default PyDict.get truthy].
  change (instructions_or_prompt JNull (JStr "default-agent"))
    with (Ok (JStr default_prompt)).
  cbv beta iota.
  match goal with
  | |- context [set_log ?l w] =>
      rewrite <- (RunFacts.agent_requests_set_log l w);
      generalize (set_log l w)
  end.
  intros w0. split.
  - destruct (RunFacts.resolve_and_send P (JStr "gpt-4.1")
                (JStr "default-agent") (JStr default_prompt) (JArr [])
                INFO "Agent created successfully: {agent.id} ({agent_name})"
                (fun agent => [AStr (agent_id agent);
                               AJson (JStr "default-agent")]) w0)
      as [(r & w1 & Hr & Hsent & _)|H]; [left | right; exact H].
    apply RunFacts.resolve_nothing in Hr. subst r. exact Hsent.
  - intros Hav.
    destruct (RunFacts.resolve_and_send_available P (JStr "gpt-4.1")
                (JStr "default-agent") (JStr default_prompt) []
                INFO "Agent created successfully: {agent.id} ({agent_name})"
                (fun agent => [AStr (agent_id agent);
                               AJson (JStr "default-agent")]) w0 Hav)
      as [Hok (r & w1 & Hr & Hsent)].
    apply RunFacts.resolve_nothing in Hr. subst r. split; assumption.
Qed.

End Facts.
End EmptyMessage.

(** C6: for a message whose body decodes to [{}], each handler either
    sends exactly the request with the default name, the default model,
    the default prompt, no tool and no resource, or raises before sending
    anything; and on a platform whose services are available it returns
    without an exception, having sent that request. *)
Theorem empty_message_uses_defaults
    (P : Platform) (msg : QueueMessage) (text : string) (w : World) :
  bytes_decode P (get_body msg) = Ok text ->
  json_loads P text = Ok (JObj []) ->
  let sent_or_raised (run : result unit * World) :=
    agent_requests (snd run) = agent_requests w ++ [default_request]
    \/ (agent_requests (snd run) = agent_requests w
        /\ exists e, fst run = Raise e) in
  let returned (run : result unit * World) :=
    fst run = Ok tt
    /\ agent_requests (snd run) = agent_requests w ++ [default_request] in
  sent_or_raised (src_function_app.create_agent P msg w)
  /\ sent_or_raised (function_app.agent_creation_processor P msg w)
  /\ (services_available P ->
      returned (src_function_app.create_agent P msg w)
      /\ returned (function_app.agent_creation_processor P msg w)).
Proof.
  intros Hdecode Hloads sent_or_raised returned.
  subst sent_or_raised returned. cbv beta.
  assert (Hsrc : exists w0,
             agent_requests w0 = agent_requests w
             /\ src_function_app.create_agent P msg w
                = src_function_app.create_agent_with P (JObj []) w0).
  { eexists. split; [|unfold src_function_app.create_agent;
                       rewrite RunFacts.bind_logging, bind_run;
                       unfold try_except;
                       rewrite RunFacts.bind_lift, Hdecode,
                               RunFacts.bind_lift, Hloads;
                       reflexivity].
    apply RunFacts.agent_requests_set_log. }
  assert (Htop : exists w0,
             agent_requests w0 = agent_requests w
             /\ function_app.agent_creation_processor P msg w
                = try_except (function_app.agent_creation_with P (JObj []))
                    function_app.on_exception w0).
  { eexists. split; [|unfold function_app.agent_creation_processor;
                       rewrite RunFacts.bind_logging;
                       unfold try_except;
                       rewrite RunFacts.bind_lift, Hdecode,
                               RunFacts.bind_logging,
                               RunFacts.bind_lift, Hloads;
                       reflexivity].
    now rewrite !RunFacts.agent_requests_set_log. }
  destruct Hsrc as (ws & Hws & ->). destruct Htop as (wt & Hwt & ->).
  destruct (EmptyMessage.create_agent_with_empty P ws) as [Hs Hs'].
  destruct (EmptyMessage.agent_creation_with_empty P wt) as [Ht Ht'].
  destruct (RunFacts.try_on_exception
              (function_app.agent_creation_with P (JObj [])) wt)
    as [-> ->].
  rewrite Hws in Hs, Hs'. rewrite Hwt in Ht, Ht'.
  split; [exact Hs|]. split; [exact Ht|].
  intros Hav. split; [now apply Hs' | now apply Ht'].
Qed.

Lemma empty_message_uses_defaults_witness :
  fst (src_function_app.create_agent Demo.platform {| get_body := "{}" |}
         fresh_world) = Ok tt
  /\ agent_requests
       (snd (function_app.agent_creation_processor Demo.platform
               {| get_body := "{}" |} fresh_world))
     = [default_request].
Proof.
  destruct (empty_message_uses_defaults Demo.platform
              {| get_body := "{}" |} "{}" fresh_world eq_refl eq_refl)
    as (_ & _ & Hav).
  destruct Hav as [[Hok _] [_ Hsent]].
  - split; [|split].
    + exists "https://vault.example/", Demo.client. split; reflexivity.
    + intros c n name _. eexists. reflexivity.
    + intros c n args. eexists. reflexivity.
  - split; [exact Hok | exact Hsent].
Defined.

(** C8: when the body of a message cannot be decoded,
    [agent_creation_processor] logs the failure at error level and
    raises it again, whereas [create_agent] logs it and returns; either
    way nothing but the log changes, so no request is sent.  The first
    part is for text that [json.loads] rejects, the second for bytes
    that are not text at all. *)
Theorem malformed_message_is_logged (P : Platform) :
  (forall msg w text e,
      bytes_decode P (get_body msg) = Ok text ->
      json_loads P text = Raise e ->
      is_JSONDecodeError e = true ->
      (function_app.agent_creation_processor P msg w
       = (Raise e,
          set_log
            (log w ++
             [LogRecord INFO "Agent creation job received from queue" [];
              LogRecord INFO "Queue message: {message_body}" [AStr text];
              LogRecord ERROR "Invalid JSON in queue message: {e}" [AExn e]])
            w)
       /\ agent_requests
            (snd (function_app.agent_creation_processor P msg w))
          = agent_requests w)
      /\ (src_function_app.create_agent P msg w
          = (Ok tt,
             set_log
               (log w ++
                [LogRecord INFO "Agent creation job received from queue." [];
                 LogRecord ERROR "Invalid message format: {e}" [AExn e]])
               w)
          /\ agent_requests (snd (src_function_app.create_agent P msg w))
             = agent_requests w))
  /\ (forall msg w e,
         bytes_decode P (get_body msg) = Raise e ->
         is_ValueError e = true ->
         (function_app.agent_creation_processor P msg w
          = (Raise e,
             set_log
               (log w ++
                [LogRecord INFO "Agent creation job received from queue" [];
                 LogRecord ERROR
                   (if is_JSONDecodeError e
                    then "Invalid JSON in queue message: {e}"
                    else "Validation error: {e}")
                   [AExn e]])
               w)
          /\ agent_requests
               (snd (function_app.agent_creation_processor P msg w))
             = agent_requests w)
         /\ (src_function_app.create_agent P msg w
             = (Ok tt,
                set_log
                  (log w ++
                   [LogRecord INFO "Agent creation job received from queue." [];
                    LogRecord ERROR "Invalid message format: {e}" [AExn e]])
                  w)
             /\ agent_requests (snd (src_function_app.create_agent P msg w))
                = agent_requests w)).
Proof.
  split.
  - intros msg w text e Hdecode Hloads Hjson.
    assert (Htop : function_app.agent_creation_processor P msg w
                   = (Raise e,
                      set_log
                        (log w ++
                         [LogRecord INFO "Agent creation job received from queue" [];
                          LogRecord INFO "Queue message: {message_body}" [AStr text];
                          LogRecord ERROR "Invalid JSON in queue message: {e}" [AExn e]])
                        w)).
    { unfold function_app.agent_creation_processor.
      rewrite RunFacts.bind_logging. unfold try_except.
      rewrite RunFacts.bind_lift, Hdecode, RunFacts.bind_logging,
        RunFacts.bind_lift, Hloads.
      unfold function_app.on_exception. rewrite Hjson.
      rewrite RunFacts.bind_logging. unfold raise.
      f_equal. destruct w; simpl. now rewrite <- !app_assoc. }
    assert (Hsrc : src_function_app.create_agent P msg w
                   = (Ok tt,
                      set_log
                        (log w ++
                         [LogRecord INFO "Agent creation job received from queue." [];
                          LogRecord ERROR "Invalid message format: {e}" [AExn e]])
                        w)).
    { unfold src_function_app.create_agent.
      rewrite RunFacts.bind_logging, bind_run. unfold try_except.
      rewrite RunFacts.bind_lift, Hdecode, RunFacts.bind_lift, Hloads.
      rewrite Hjson. cbn [orb]. rewrite RunFacts.bind_logging.
      unfold ret. f_equal. destruct w; simpl. now rewrite <- !app_assoc. }
    rewrite Htop, Hsrc. cbn [snd].
    now rewrite !RunFacts.agent_requests_set_log.
  - intros msg w e Hdecode Hvalue.
    assert (Htop : function_app.agent_creation_processor P msg w
                   = (Raise e,
                      set_log
                        (log w ++
                         [LogRecord INFO "Agent creation job received from queue" [];
                          LogRecord ERROR
                            (if is_JSONDecodeError e
                             then "Invalid JSON in queue message: {e}"
                             else "Validation error: {e}")
                            [AExn e]])
                        w)).
    { unfold function_app.agent_creation_processor.
      rewrite RunFacts.bind_logging. unfold try_except.
      rewrite RunFacts.bind_lift, Hdecode.
      unfold function_app.on_exception. rewrite Hvalue.
      destruct (is_JSONDecodeError e);
        rewrite RunFacts.bind_logging; unfold raise;
        f_equal; destruct w; simpl; now rewrite <- !app_assoc. }
    assert (Hsrc : src_function_app.create_agent P msg w
                   = (Ok tt,
                      set_log
                        (log w ++
                         [LogRecord INFO "Agent creation job received from queue." [];
                          LogRecord ERROR "Invalid message format: {e}" [AExn e]])
                        w)).
    { unfold src_function_app.create_agent.
      rewrite RunFacts.bind_logging, bind_run. unfold try_except.
      rewrite RunFacts.bind_lift, Hdecode.
      rewrite Hvalue, orb_true_r. rewrite RunFacts.bind_logging.
      unfold ret. f_equal. destruct w; simpl. now rewrite <- !app_assoc. }
    rewrite Htop, Hsrc. cbn [snd].
    now rewrite !RunFacts.agent_requests_set_log.
Qed.

Lemma malformed_message_is_logged_witness :
  fst (function_app.agent_creation_processor Demo.platform
         {| get_body := "{ invalid json }" |} fresh_world)
  = Raise (JSONDecodeError "Expecting value: line 1 column 1 (char 0)")
  /\ fst (src_function_app.create_agent Demo.platform
            {| get_body := "{ invalid json }" |} fresh_world)
     = Ok tt
  /\ agent_requests
       (snd (src_function_app.create_agent Demo.platform
               {| get_body := "{ invalid json }" |} fresh_world))
     = [].
Proof.
  destruct (proj1 (malformed_message_is_logged Demo.platform)
              {| get_body := "{ invalid json }" |} fresh_world
              "{ invalid json }"
              (JSONDecodeError "Expecting value: line 1 column 1 (char 0)")
              eq_refl eq_refl eq_refl)
    as [[Htop _] [Hsrc Hnone]].
  rewrite Htop. split; [reflexivity|]. split; [now rewrite Hsrc | exact Hnone].
Defined.



(** C7, as the code has it: in [agent_creation_processor] a message
    without [agent_name] but with [agentName] is handled under the value
    of [agentName]; the request that goes out carries it as the name,
    and when the message has no instructions it carries the prompt the
    table gives for that value; [create_agent] does not read [agentName]
    and handles such a message under the name ["default-agent"].  A run
    that sends nothing has raised. *)
Theorem legacy_agent_name_is_used
    (P : Platform) (fields : dict json) (v : json) (w : World) :
  PyDict.get fields "agent_name" = None ->
  PyDict.get fields "agentName" = Some v ->
  let outcome (run : result unit * World) (name : json) :=
    (exists args,
        agent_requests (snd run) = agent_requests w ++ [args]
        /\ arg_name args = name
        /\ (PyDict.get fields "instructions" = None ->
            exists prompt,
              agent_prompts.get_prompt name = Ok prompt
              /\ arg_instructions args = JStr prompt)
        /\ (agents_service_accepts P -> fst run = Ok tt))
    \/ (agent_requests (snd run) = agent_requests w
        /\ exists e, fst run = Raise e) in
  outcome (function_app.agent_creation_with P (JObj fields) w) v
  /\ outcome (src_function_app.create_agent_with P (JObj fields) w)
       (JStr "default-agent").
Proof.
  intros Hnew Hlegacy outcome. subst outcome. cbv beta. split.
  - rewrite BodyFacts.agent_creation_with_fields.
    rewrite (RunFacts.get_default_None fields "agent_name" JNull Hnew).
    cbn [truthy].
    rewrite (RunFacts.get_default_Some fields "agentName" _ v Hlegacy).
    destruct (instructions_or_prompt
                (PyDict.get_default fields "instructions" JNull) v)
      as [instructions|e] eqn:Hi.
    2:{ right. cbn [fst snd]. split; [reflexivity | eauto]. }
    match goal with
    | |- context [set_log ?l w] =>
        rewrite <- (RunFacts.agent_requests_set_log l w);
        generalize (set_log l w)
    end.
    intros w0.
    destruct (RunFacts.resolve_and_send P
                (PyDict.get_default fields "model" (JStr "gpt-4.1"))
                v instructions
                (PyDict.get_default fields "tools" (JArr []))
                INFO "Agent created successfully: {agent.id} ({agent_name})"
                (fun agent => [AStr (agent_id agent); AJson v]) w0)
      as [(r & w1 & Hr & Hsent & Hok)|H]; [left | right; exact H].
    eexists. split; [exact Hsent|]. split; [reflexivity|].
    split; [|exact Hok].
    intros Hnone. cbn [arg_instructions].
    rewrite (RunFacts.get_default_None fields "instructions" JNull Hnone)
      in Hi.
    unfold instructions_or_prompt in Hi. cbn [truthy] in Hi.
    destruct (agent_prompts.get_prompt v) as [prompt|e]; [|discriminate].
    injection Hi as <-. eauto.
  - rewrite BodyFacts.create_agent_with_fields.
    rewrite (RunFacts.get_default_None fields "agent_name" _ Hnew).
    destruct (instructions_or_prompt
                (PyDict.get_default fields "instructions" JNull)
                (JStr "default-agent"))
      as [instructions|e] eqn:Hi.
    2:{ right. cbn [fst snd]. split; [reflexivity | eauto]. }
    destruct (RunFacts.resolve_and_send P
                (PyDict.get_default fields "model" (JStr "gpt-4.1"))
                (JStr "default-agent") instructions
                (PyDict.get_default fields "tools" (JArr []))
                INFO "Agent created: {agent.id} ({agent_name})"
                (fun agent => [AStr (agent_id agent);
                               AJson (JStr "default-agent")]) w)
      as [(r & w1 & Hr & Hsent & Hok)|H]; [left | right; exact H].
    eexists. split; [exact Hsent|]. split; [reflexivity|].
    split; [|exact Hok].
    intros Hnone. cbn [arg_instructions].
    rewrite (RunFacts.get_default_None fields "instructions" JNull Hnone)
      in Hi.
    unfold instructions_or_prompt in Hi. cbn [truthy] in Hi.
    destruct (agent_prompts.get_prompt (JStr "default-agent"))
      as [prompt|e]; [|discriminate].
    injection Hi as <-. eauto.
Qed.

Lemma legacy_agent_name_is_used_witness :
  exists args,
    agent_requests
      (snd (function_app.agent_creation_with Demo.platform
              (JObj [("agentName", JStr "doc-bot")]) fresh_world))
    = [args]
    /\ arg_name args = JStr "doc-bot".
Proof.
  destruct (legacy_agent_name_is_used Demo.platform
              [("agentName", JStr "doc-bot")] (JStr "doc-bot") fresh_world
              eq_refl eq_refl)
    as [[(args & Hsent & Hname & _)|[_ [e He]]] _].
  - exists args. split; [exact Hsent | exact Hname].
  - exfalso. vm_compute in He. discriminate.
Defined.

(** C7 as stated fails for [create_agent]: the message
    [{"agentName": "doc-bot"}] is handled without an exception, and the
    one request sent is named ["default-agent"] and carries the default
    prompt, not the prompt of ["doc-bot"]. *)
Lemma create_agent_ignores_legacy_name :
  fst (src_function_app.create_agent_with Demo.platform
         Demo.legacy_message fresh_world) = Ok tt
  /\ map arg_name
       (agent_requests
          (snd (src_function_app.create_agent_with Demo.platform
                  Demo.legacy_message fresh_world)))
     = [JStr "default-agent"]
  /\ map arg_instructions
       (agent_requests
          (snd (src_function_app.create_agent_with Demo.platform
                  Demo.legacy_message fresh_world)))
     = [JStr "You are a helpful AI assistant powered by Azure AI Foundry."]
  /\ ~ (forall args,
          In args
            (agent_requests
               (snd (src_function_app.create_agent_with Demo.platform
                       Demo.legacy_message fresh_world))) ->
          arg_name args = JStr "doc-bot").
Proof.
  vm_compute. repeat split.
  intros H. specialize (H _ (or_introl eq_refl)). discriminate.
Qed.

(* ================================================================= *)
(** * Further properties *)

(** ** akv.py: what a lookup does to the cache *)

Module CacheFacts.
Import akv.
Section Facts.
Variable P : Platform.

(** The cache after a lookup: as before, or with the value just fetched
    bound to the name. *)
Lemma get_secret_cache name use_cache w :
  let run := get_secret P name use_cache w in
  match fst run with
  | Ok value =>
      PyDict.get (secret_cache (snd run)) name = Some value
      /\ (secret_cache (snd run) = secret_cache w
          \/ secret_cache (snd run) = PyDict.set (secret_cache w) name value)
  | Raise _ => secret_cache (snd run) = secret_cache w
  end.
Proof.
  intros run. subst run.
  destruct (use_cache && PyDict.mem name (secret_cache w)) eqn:E.
  - apply andb_prop in E as [-> Hm]. unfold PyDict.mem in Hm.
    destruct (PyDict.get (secret_cache w) name) as [v|] eqn:G;
      [|discriminate].
    rewrite (akvFacts.get_secret_hit P _ _ G). cbn [fst snd]. auto.
  - rewrite (akvFacts.get_secret_miss P _ _ _ E).
    destruct (the_client P w) as [c|e]; [|reflexivity].
    destruct (kv_get_secret P c (length (kv_requests w)) name) as [v|e];
      cbn [fst snd].
    + assert (Hc : secret_cache (fetched_world c name (or_empty v) w)
                   = PyDict.set (secret_cache w) name (or_empty v))
        by now destruct w.
      rewrite Hc. split; [apply PyDictFacts.get_set_same | now right].
    + now destruct w.
Qed.

Lemma get_secret_keeps_other name use_cache w other :
  other <> name ->
  PyDict.get (secret_cache (snd (get_secret P name use_cache w))) other
  = PyDict.get (secret_cache w) other.
Proof.
  intros Hne. pose proof (get_secret_cache name use_cache w) as H.
  cbv zeta in H.
  destruct (fst (get_secret P name use_cache w)) as [v|e].
  - destruct H as [_ [-> | ->]]; auto.
    apply PyDictFacts.get_set_other. congruence.
  - now rewrite H.
Qed.

Lemma get_secret_keeps_cached name w n v :
  PyDict.get (secret_cache w) n = Some v ->
  PyDict.get (secret_cache (snd (get_secret P name true w))) n = Some v.
Proof.
  intros H. destruct (string_dec n name) as [->|Hne].
  - now rewrite (akvFacts.get_secret_hit P _ _ H).
  - now rewrite get_secret_keeps_other.
Qed.

(** The requests of a series of lookups that returned, and the values it
    returned. *)
Lemma lookups_exact names : forall w values w1,
  NoDup names ->
  lookups P names w = (Ok values, w1) ->
  kv_requests w1
  = kv_requests w ++
    filter (fun n => negb (PyDict.mem n (secret_cache w))) names
  /\ Forall2 (fun n v => PyDict.get (secret_cache w1) n = Some v)
       names values
  /\ (forall n v, PyDict.get (secret_cache w) n = Some v ->
                  PyDict.get (secret_cache w1) n = Some v).
Proof.
  induction names as [|name rest IH]; intros w values w1 Hnd H.
  - cbn in H. injection H as <- <-. cbn. rewrite app_nil_r. auto.
  - inversion Hnd as [|? ? Hnotin Hnd']; subst.
    cbn [lookups] in H. rewrite bind_run in H.
    pose proof (get_secret_cache name true w) as Hc. cbv zeta in Hc.
    pose proof (fun n v => get_secret_keeps_cached name w n v) as Hkeep.
    destruct (PyDict.mem name (secret_cache w)) eqn:Hm.
    + (* hit *)
      assert (exists v, PyDict.get (secret_cache w) name = Some v) as [v Hv].
      { unfold PyDict.mem in Hm.
        destruct (PyDict.get (secret_cache w) name); [eauto | discriminate]. }
      rewrite (akvFacts.get_secret_hit P _ _ Hv) in H. clear Hc Hkeep.
      rewrite bind_run in H.
      destruct (lookups P rest w) as [[vs|e] w2] eqn:E; [|discriminate].
      cbn in H. injection H as <- <-.
      destruct (IH w vs w2 Hnd' E) as (Hreq & Hvals & Hpres).
      cbn [filter]. rewrite Hm. cbn [negb].
      split; [exact Hreq|]. split; [|exact Hpres].
      constructor; auto.
    + (* miss *)
      rewrite (akvFacts.get_secret_miss P w name true) in H, Hc, Hkeep
        by (now rewrite Hm).
      destruct (the_client P w) as [c|e]; [|discriminate].
      destruct (kv_get_secret P c (length (kv_requests w)) name)
        as [fetched|e]; [|discriminate].
      cbn [fst snd] in Hc, Hkeep.
      remember (fetched_world c name (or_empty fetched) w) as w0 eqn:Hw0.
      assert (Hkv : kv_requests w0 = kv_requests w ++ [name])
        by (subst w0; now destruct w).
      assert (Hsc : secret_cache w0
                    = PyDict.set (secret_cache w) name (or_empty fetched))
        by (subst w0; now destruct w).
      clear Hw0. rewrite bind_run in H.
      destruct (lookups P rest w0) as [[vs|e] w2] eqn:E; [|discriminate].
      cbn in H. injection H as <- <-.
      destruct (IH w0 vs w2 Hnd' E) as (Hreq & Hvals & Hpres).
      cbn [filter]. rewrite Hm. cbn [negb].
      split; [|split].
      * rewrite Hreq, Hkv, <- app_assoc. cbn [app]. do 2 f_equal.
        apply filter_ext_in. intros n Hin.
        rewrite Hsc, PyDictFacts.mem_set.
        destruct (String.eqb name n) eqn:En; auto.
        apply String.eqb_eq in En. subst. contradiction.
      * constructor; auto. apply Hpres. apply Hc.
      * intros n v Hn. apply Hpres, Hkeep, Hn.
Qed.

End Facts.
End CacheFacts.

(** ** settings.py: the constructor as a series of lookups *)

Module SnapshotFacts.
Import akv.
Section Facts.
Variable P : Platform.

Lemma Settings_new_lookups w :
  settings.Settings_new P w
  = match lookups P settings.secret_names w with
    | (Ok values, w0) => new_object (snapshot_of P values) w0
    | (Raise e, w0) => (Raise e, w0)
    end.
Proof.
  unfold settings.Settings_new, settings.secret_names.
  cbn [lookups].
  repeat (rewrite !bind_run;
          match goal with
          | |- context [get_secret P ?n true ?w0] =>
              destruct (get_secret P n true w0) as [[?|?] ?];
              [|reflexivity]
          end).
  reflexivity.
Qed.

Lemma secret_names_NoDup : NoDup settings.secret_names.
Proof.
  unfold settings.secret_names. repeat constructor; cbn; intuition discriminate.
Qed.

(** What a constructor that returned has done. *)
Lemma Settings_new_returned w s w1 :
  settings.Settings_new P w = (Ok s, w1) ->
  exists values w0,
    lookups P settings.secret_names w = (Ok values, w0)
    /\ obj_val s = snapshot_of P values
    /\ obj_id s = next_obj_id w0
    /\ w1 = set_next_obj_id (S (next_obj_id w0)) w0.
Proof.
  rewrite Settings_new_lookups. intros H.
  destruct (lookups P settings.secret_names w) as [[values|e] w0];
    [|discriminate].
  unfold new_object, bind, gets, modify, ret in H. cbn in H.
  injection H as <- <-. exists values, w0. auto.
Qed.

End Facts.
End SnapshotFacts.

(** X1: a lookup changes the cache at most under its own name: the
    entries of all other names stay as they are; a value that
    [get_secret] returns is the value cached under the name afterwards,
    so that the next default lookup returns it again and changes nothing,
    also when the value is empty; and a lookup that raises leaves the
    cache as it was. *)
Theorem get_secret_keeps_cache_consistent
    (P : Platform) (name : string) (use_cache : bool) (w : World) :
  let run := akv.get_secret P name use_cache w in
  (forall other, other <> name ->
                 PyDict.get (secret_cache (snd run)) other
                 = PyDict.get (secret_cache w) other)
  /\ (forall value, fst run = Ok value ->
         PyDict.get (secret_cache (snd run)) name = Some value
         /\ akv.get_secret P name true (snd run) = (Ok value, snd run))
  /\ (forall e, fst run = Raise e -> secret_cache (snd run) = secret_cache w).
Proof.
  intros run. subst run.
  pose proof (CacheFacts.get_secret_cache P name use_cache w) as H.
  cbv zeta in H. split; [|split].
  - intros other Hne. now apply CacheFacts.get_secret_keeps_other.
  - intros value Hv. rewrite Hv in H. destruct H as [H _].
    split; [exact H | now apply akvFacts.get_secret_hit].
  - intros e He. now rewrite He in H.
Qed.

Lemma get_secret_keeps_cache_consistent_witness :
  fst (akv.get_secret Cases.blank_secrets "mcp-connection-id" true fresh_world)
  = Ok ""
  /\ akv.get_secret Cases.blank_secrets "mcp-connection-id" true
       (snd (akv.get_secret Cases.blank_secrets "mcp-connection-id" true
               fresh_world))
     = (Ok "",
        snd (akv.get_secret Cases.blank_secrets "mcp-connection-id" true
               fresh_world)).
Proof.
  split; [reflexivity|].
  destruct (get_secret_keeps_cache_consistent Cases.blank_secrets
              "mcp-connection-id" true fresh_world) as (_ & H & _).
  exact (proj2 (H "" eq_refl)).
Defined.

(** X2: when [KEY_VAULT_URI] is not set and no client has been built, a
    lookup that has to go to the vault raises [KeyError] for that
    variable and changes nothing, not even the request count; names
    already cached are still served; and [get_settings] fails the same
    way as soon as one of its secrets is missing from the cache. *)
Theorem missing_vault_uri_raises_KeyError (P : Platform) (w : World) :
  PyDict.get (environ P) "KEY_VAULT_URI" = None ->
  client_cache w = None ->
  (forall name use_cache,
      use_cache && PyDict.mem name (secret_cache w) = false ->
      akv.get_secret P name use_cache w
      = (Raise (KeyError "KEY_VAULT_URI"), w))
  /\ (forall name value,
         PyDict.get (secret_cache w) name = Some value ->
         akv.get_secret P name true w = (Ok value, w))
  /\ (settings_cache w = None ->
      uncached_secrets w <> [] ->
      settings.get_settings P w = (Raise (KeyError "KEY_VAULT_URI"), w)).
Proof.
  intros Huri Hclient.
  assert (Hmiss : forall name use_cache,
             use_cache && PyDict.mem name (secret_cache w) = false ->
             akv.get_secret P name use_cache w
             = (Raise (KeyError "KEY_VAULT_URI"), w)).
  { intros name use_cache Hm.
    rewrite (akvFacts.get_secret_miss P _ _ _ Hm).
    unfold akv.the_client. now rewrite Hclient, Huri. }
  split; [exact Hmiss|]. split.
  - intros name value H. now apply akvFacts.get_secret_hit.
  - intros Hnone Hsome.
    rewrite (SettingsFacts.get_settings_miss P _ Hnone).
    rewrite SnapshotFacts.Settings_new_lookups.
    assert (Hl : forall names,
               filter (fun n => negb (PyDict.mem n (secret_cache w))) names
               <> [] ->
               akv.lookups P names w = (Raise (KeyError "KEY_VAULT_URI"), w)).
    { induction names as [|n rest IH]; intros Hf; [now elim Hf|].
      cbn [akv.lookups filter] in *. rewrite bind_run.
      destruct (PyDict.mem n (secret_cache w)) eqn:Hm.
      - unfold PyDict.mem in Hm.
        destruct (PyDict.get (secret_cache w) n) as [v|] eqn:G;
          [|discriminate].
        rewrite (akvFacts.get_secret_hit P _ _ G), bind_run.
        now rewrite (IH Hf).
      - rewrite Hmiss by (now rewrite Hm). reflexivity. }
    now rewrite (Hl _ Hsome).
Qed.

Lemma missing_vault_uri_raises_KeyError_witness :
  settings.get_settings Cases.no_vault_uri fresh_world
  = (Raise (KeyError "KEY_VAULT_URI"), fresh_world).
Proof.
  apply (missing_vault_uri_raises_KeyError Cases.no_vault_uri fresh_world
           eq_refl eq_refl); [reflexivity|].
  vm_compute. discriminate.
Defined.

Lemma Settings_new_fetches_uncached_secrets_aux
    (P : Platform) (w : World) (s : instance Settings) (w1 : World) :
  settings.Settings_new P w = (Ok s, w1) ->
  kv_requests w1 = kv_requests w ++ uncached_secrets w
  /\ Forall2 (fun n v => PyDict.get (secret_cache w1) n = Some v)
       settings.secret_names
       [foundry_project_endpoint (obj_val s);
        ai_search_connection_id (obj_val s);
        ai_search_index_name (obj_val s);
        mcp_connection_id (obj_val s)].
Proof.
  intros H.
  destruct (SnapshotFacts.Settings_new_returned P w s w1 H)
    as (values & w0 & Hl & Hval & _ & ->).
  destruct (CacheFacts.lookups_exact P settings.secret_names w values w0
              SnapshotFacts.secret_names_NoDup Hl) as (Hreq & Hvals & _).
  rewrite Hval.
  unfold settings.secret_names in Hvals |- *.
  inversion Hvals as [|? a ? t1 Ha H1]; subst.
  inversion H1 as [|? b ? t2 Hb H2]; subst.
  inversion H2 as [|? c ? t3 Hc H3]; subst.
  inversion H3 as [|? d ? t4 Hd H4]; subst.
  inversion H4; subst.
  cbn [snapshot_of nth foundry_project_endpoint ai_search_connection_id
         ai_search_index_name mcp_connection_id].
  destruct w0; cbn in *. split; [exact Hreq|].
  repeat constructor; assumption.
Qed.

Lemma Settings_new_environment
    (P : Platform) (w : World) (s : instance Settings) (w1 : World) :
  settings.Settings_new P w = (Ok s, w1) ->
  azure_client_id (obj_val s)
  = PyDict.get_default (environ P) "AZURE_CLIENT_ID" ""
  /\ key_vault_uri (obj_val s)
     = PyDict.get_default (environ P) "KEY_VAULT_URI" "".
Proof.
  intros H.
  destruct (SnapshotFacts.Settings_new_returned P w s w1 H)
    as (values & w0 & _ & -> & _).
  split; reflexivity.
Qed.

(** X3: a [Settings] constructor that returns has asked the vault for
    exactly those of its four secrets that were not cached, once each and
    in field order; every field of the snapshot is the value the cache
    holds for its secret afterwards; and the two environment fields are
    read from the environment, empty when unset. *)
Theorem Settings_new_fetches_uncached_secrets
    (P : Platform) (w : World) (s : instance Settings) (w1 : World) :
  settings.Settings_new P w = (Ok s, w1) ->
  kv_requests w1 = kv_requests w ++ uncached_secrets w
  /\ PyDict.get (secret_cache w1) constants.KV_FOUNDRY_PROJECT_ENDPOINT
     = Some (foundry_project_endpoint (obj_val s))
  /\ PyDict.get (secret_cache w1) constants.KV_AI_SEARCH_CONNECTION_ID
     = Some (ai_search_connection_id (obj_val s))
  /\ PyDict.get (secret_cache w1) constants.KV_AI_SEARCH_INDEX_NAME
     = Some (ai_search_index_name (obj_val s))
  /\ PyDict.get (secret_cache w1) constants.KV_MCP_CONNECTION_ID
     = Some (mcp_connection_id (obj_val s))
  /\ azure_client_id (obj_val s)
     = PyDict.get_default (environ P) "AZURE_CLIENT_ID" ""
  /\ key_vault_uri (obj_val s)
     = PyDict.get_default (environ P) "KEY_VAULT_URI" "".
Proof.
  intros H.
  destruct (Settings_new_fetches_uncached_secrets_aux P w s w1 H)
    as [Hreq Hvals].
  destruct (Settings_new_environment P w s w1 H) as [Hid Huri].
  unfold settings.secret_names in Hvals.
  inversion Hvals as [|? ? ? ? Ha H1]; subst.
  inversion H1 as [|? ? ? ? Hb H2]; subst.
  inversion H2 as [|? ? ? ? Hc H3]; subst.
  inversion H3 as [|? ? ? ? Hd H4]; subst.
  repeat split; assumption.
Qed.

Lemma Settings_new_fetches_uncached_secrets_witness :
  kv_requests
    (snd (settings.Settings_new Demo.rotated_vault Demo.stale_world))
  = ["mcp-connection-id"; "foundry-project-endpoint";
     "ai-search-connection-id"; "ai-search-index-name"]
  /\ mcp_connection_id
       (obj_val
          {| obj_id := 0; obj_val := snapshot_of Demo.rotated_vault
                                       ["new"; "new"; "new"; "old"] |})
     = "old".
Proof.
  split; [|reflexivity].
  destruct (Settings_new_fetches_uncached_secrets Demo.rotated_vault
              Demo.stale_world
              {| obj_id := 0; obj_val := snapshot_of Demo.rotated_vault
                                           ["new"; "new"; "new"; "old"] |}
              (snd (settings.Settings_new Demo.rotated_vault
                      Demo.stale_world)))
    as [Hreq _].
  - vm_compute. reflexivity.
  - rewrite Hreq. vm_compute. reflexivity.
Defined.

Module RetryFacts.
Import akv.
Section Facts.
Variable P : Platform.

Lemma lookups_keeps_cached names : forall w n v,
  PyDict.get (secret_cache w) n = Some v ->
  PyDict.get (secret_cache (snd (lookups P names w))) n = Some v.
Proof.
  induction names as [|name rest IH]; intros w n v H; auto.
  cbn [lookups]. rewrite bind_run.
  pose proof (CacheFacts.get_secret_keeps_cached P name w n v H) as Hk.
  destruct (get_secret P name true w) as [[x|e] w0]; cbn [snd] in *; auto.
  rewrite bind_run. specialize (IH w0 n v Hk).
  now destruct (lookups P rest w0) as [[vs|e] w2].
Qed.

Lemma lookups_keeps_settings_cache names : forall w,
  settings_cache (snd (lookups P names w)) = settings_cache w.
Proof.
  induction names as [|name rest IH]; intros w; auto.
  cbn [lookups]. rewrite bind_run.
  pose proof (SettingsFacts.get_secret_keeps_settings_cache P name true w)
    as Hk.
  destruct (get_secret P name true w) as [[x|e] w0]; cbn [snd] in *; auto.
  rewrite bind_run. specialize (IH w0).
  destruct (lookups P rest w0) as [[vs|e] w2]; simpl in *; congruence.
Qed.

End Facts.
End RetryFacts.

(** X4: a failure of [get_settings] is not cached: the slot stays empty,
    so the next call runs the constructor again; the secrets that were
    cached before or fetched before the failure stay cached, and a retry
    that returns has asked the vault only for the secrets still missing,
    and fills the slot. *)
Theorem get_settings_failure_is_retried
    (P : Platform) (w : World) (e : exn) (w1 : World) :
  settings.get_settings P w = (Raise e, w1) ->
  settings_cache w1 = None
  /\ (forall name value,
         PyDict.get (secret_cache w) name = Some value ->
         PyDict.get (secret_cache w1) name = Some value)
  /\ (forall s w2,
         settings.get_settings P w1 = (Ok s, w2) ->
         kv_requests w2 = kv_requests w1 ++ uncached_secrets w1
         /\ settings_cache w2 = Some s).
Proof.
  intros H.
  assert (Hnone : settings_cache w = None).
  { destruct (settings_cache w) as [s|] eqn:E; auto.
    rewrite (Frames.get_settings_cached P _ E) in H. discriminate. }
  rewrite (SettingsFacts.get_settings_miss P _ Hnone) in H.
  rewrite SnapshotFacts.Settings_new_lookups in H.
  pose proof (RetryFacts.lookups_keeps_settings_cache P
                settings.secret_names w) as Hsc.
  pose proof (fun n v => RetryFacts.lookups_keeps_cached P
                           settings.secret_names w n v) as Hkeep.
  destruct (akv.lookups P settings.secret_names w) as [[values|e0] w0].
  { unfold new_object, bind, gets, modify, ret in H. discriminate. }
  injection H as <- <-. cbn [snd] in *.
  assert (Hnone1 : settings_cache w0 = None) by congruence.
  split; [exact Hnone1|]. split; [exact Hkeep|].
  intros s w2 Hretry. split; [|now apply get_settings_fills_cache in Hretry].
  rewrite (SettingsFacts.get_settings_miss P _ Hnone1) in Hretry.
  destruct (settings.Settings_new P w0) as [[s'|e'] w'] eqn:E;
    [|discriminate].
  injection Hretry as <- <-.
  destruct (Settings_new_fetches_uncached_secrets_aux P w0 s' w' E) as [Hreq _].
  rewrite <- Hreq. now destruct w'.
Qed.

Lemma get_settings_failure_is_retried_witness :
  settings.get_settings Cases.flaky_vault fresh_world
  = (Raise (ServiceRequestError "connection refused"), flaky_first)
  /\ kv_requests flaky_second
     = kv_requests flaky_first ++
       ["ai-search-connection-id"; "ai-search-index-name";
        "mcp-connection-id"].
Proof.
  assert (H : settings.get_settings Cases.flaky_vault fresh_world
              = (Raise (ServiceRequestError "connection refused"),
                 flaky_first))
    by (vm_compute; reflexivity).
  split; [exact H|].
  destruct (get_settings_failure_is_retried Cases.flaky_vault fresh_world
              (ServiceRequestError "connection refused") flaky_first H)
    as (_ & _ & Hretry).
  destruct (Hretry flaky_snapshot flaky_second) as [Hreq _].
  - vm_compute. reflexivity.
  - rewrite Hreq. vm_compute. reflexivity.
Defined.

(* ================================================================= *)
(** ** foundry_client.py: the project client *)

(** Stability of an invariant that [get_project_client] keeps, through
    the handlers. *)
Module ClientFrames.
Section Facts.
Variable P : Platform.
Variable I : World -> Prop.
Hypothesis I_log : respects I set_log.
Hypothesis I_agent_requests : respects I set_agent_requests.
Hypothesis I_resolve_tools :
  forall tool_names, stable I (tools_registry.resolve_tools P tool_names).
Hypothesis I_get_project_client :
  stable I (foundry_client.get_project_client P).

Lemma stable_send args lvl msg (largs : Agent -> list log_arg) :
  stable I
    (project_client <- foundry_client.get_project_client P;;
     agent <- foundry_client.agents_create P project_client args;;
     logging lvl msg (largs agent)).
Proof.
  apply stable_bind; [exact I_get_project_client | intros c].
  apply stable_bind; [|intros; now apply stable_logging].
  intros w Hw. unfold foundry_client.agents_create. cbn. auto.
Qed.

Lemma kept_through_create_agent_with config :
  stable I (src_function_app.create_agent_with P config).
Proof.
  unfold src_function_app.create_agent_with.
  repeat (apply stable_bind; [apply stable_lift | intros ?]).
  apply stable_bind; [apply I_resolve_tools | intros ?].
  apply (stable_send _ INFO _
           (fun agent => [AStr (agent_id agent); AJson _])).
Qed.

Lemma kept_through_create_agent msg :
  stable I (src_function_app.create_agent P msg).
Proof.
  unfold src_function_app.create_agent.
  apply stable_bind; [now apply stable_logging | intros _].
  apply stable_bind.
  - apply stable_try_except.
    + repeat (apply stable_bind; [apply stable_lift | intros ?]).
      apply stable_ret.
    + intros e. destruct (_ || _); [|apply stable_raise].
      apply stable_bind; [now apply stable_logging | intros; apply stable_ret].
  - intros [config|]; [apply kept_through_create_agent_with | apply stable_ret].
Qed.

Lemma kept_through_agent_creation_with config :
  stable I (function_app.agent_creation_with P config).
Proof.
  unfold function_app.agent_creation_with.
  apply stable_bind; [apply stable_lift | intros new_name].
  apply stable_bind.
  { destruct (truthy new_name); [apply stable_ret | apply stable_lift]. }
  intros agent_name.
  repeat (apply stable_bind; [apply stable_lift | intros ?]).
  repeat (apply stable_bind; [now apply stable_logging | intros ?]).
  apply stable_bind; [apply I_resolve_tools | intros ?].
  apply (stable_send _ INFO _
           (fun agent => [AStr (agent_id agent); AJson _])).
Qed.

Lemma kept_through_agent_creation_processor msg :
  stable I (function_app.agent_creation_processor P msg).
Proof.
  unfold function_app.agent_creation_processor.
  apply stable_bind; [now apply stable_logging | intros _].
  apply stable_try_except.
  - apply stable_bind; [apply stable_lift | intros ?].
    apply stable_bind; [now apply stable_logging | intros ?].
    apply stable_bind; [apply stable_lift | intros ?].
    apply kept_through_agent_creation_with.
  - intros e. unfold function_app.on_exception.
    destruct (is_JSONDecodeError e); [|destruct (is_ValueError e)];
      (apply stable_bind;
       [now apply stable_logging | intros; apply stable_raise]).
Qed.

End Facts.
End ClientFrames.

Module ClientFacts.
Section Facts.
Variable P : Platform.

Lemma get_project_client_cached w c :
  project_client_cache w = Some c ->
  foundry_client.get_project_client P w = (Ok c, w).
Proof.
  intros H. unfold foundry_client.get_project_client, lru_cache, bind, gets.
  cbn. now rewrite H.
Qed.

(** Nothing in the program empties or replaces a filled client slot. *)
Lemma client_slot_is_kept c calls : forall w,
  project_client_cache w = Some c ->
  project_client_cache (run_calls P calls w) = Some c.
Proof.
  set (I := fun w : World => project_client_cache w = Some c).
  assert (Hgs : stable I (settings.get_settings P)).
  { apply Frames.stable_get_settings; unfold I; respects_tac. }
  assert (Hres : forall tn, stable I (tools_registry.resolve_tools P tn)).
  { intros tn.
    apply Frames.stable_resolve_tools_in;
      try solve [unfold I; respects_tac].
    exact Hgs. }
  assert (Hgpc : stable I (foundry_client.get_project_client P)).
  { intros w Hw. now rewrite (get_project_client_cached w c Hw). }
  induction calls as [|call calls IH]; intros w Hw; [exact Hw|].
  cbn [run_calls fold_left]. apply IH.
  destruct call; unfold run_call.
  - apply (akvFacts.stable_get_secret P (I := I));
      try solve [unfold I; respects_tac]. exact Hw.
  - apply (akvFacts.stable_clear_cache (I := I));
      try solve [unfold I; respects_tac]. exact Hw.
  - now apply Hgs.
  - now apply Hres.
  - now apply Hgpc.
  - apply (ClientFrames.kept_through_create_agent P I);
      try solve [unfold I; respects_tac]; auto.
  - apply (ClientFrames.kept_through_agent_creation_processor P I);
      try solve [unfold I; respects_tac]; auto.
Qed.

Lemma get_project_client_fills_slot w c w1 :
  foundry_client.get_project_client P w = (Ok c, w1) ->
  project_client_cache w1 = Some c.
Proof.
  intros H. destruct (project_client_cache w) as [c0|] eqn:E.
  - rewrite (get_project_client_cached w c0 E) in H.
    injection H as <- <-. exact E.
  - unfold foundry_client.get_project_client, lru_cache in H.
    rewrite bind_run in H. unfold gets at 1 in H. rewrite E in H.
    rewrite bind_run in H.
    match type of H with
    | context [bind ?b ?k w] => destruct (bind b k w) as [[c'|e] w'];
                                [|discriminate]
    end.
    cbn in H. injection H as <- <-. now destruct w'.
Qed.

End Facts.
End ClientFacts.

(** X5: the project client is built once per process: after a call of
    [get_project_client] that returned, every later call returns the same
    client and changes nothing, whatever entry points ran in between; so
    the client keeps the endpoint it was built with even after the secret
    cache was cleared and the endpoint secret fetched again. *)
Theorem get_project_client_is_built_once
    (P : Platform) (w : World) (c : AIProjectClient) (w1 : World)
    (calls : list call) :
  foundry_client.get_project_client P w = (Ok c, w1) ->
  foundry_client.get_project_client P (run_calls P calls w1)
  = (Ok c, run_calls P calls w1).
Proof.
  intros H. apply ClientFacts.get_project_client_cached.
  apply ClientFacts.client_slot_is_kept.
  now apply ClientFacts.get_project_client_fills_slot in H.
Qed.

Lemma get_project_client_is_built_once_witness :
  PyDict.get
    (secret_cache
       (run_calls Demo.rotated_vault refresh_endpoint client_built))
    "foundry-project-endpoint" = Some "new"
  /\ foundry_client.get_project_client Demo.rotated_vault
       (run_calls Demo.rotated_vault refresh_endpoint client_built)
     = (Ok first_client,
        run_calls Demo.rotated_vault refresh_endpoint client_built).
Proof.
  split; [vm_compute; reflexivity|].
  apply (get_project_client_is_built_once Demo.rotated_vault fresh_world
           first_client client_built refresh_endpoint).
  vm_compute. reflexivity.
Defined.

(** X6: a project client that [get_project_client] has just built points
    at the endpoint of the settings snapshot that is cached afterwards,
    with a managed-identity credential exactly when the snapshot has a
    client id, and building it sends nothing to the agents service; when
    the snapshot was built in the same call, the endpoint is the value
    the secret cache holds for the endpoint secret and the credential is
    the one the Key Vault client uses. *)
Theorem fresh_project_client_matches_settings
    (P : Platform) (w : World) (c : AIProjectClient) (w1 : World) :
  project_client_cache w = None ->
  foundry_client.get_project_client P w = (Ok c, w1) ->
  (exists s,
      settings_cache w1 = Some s
      /\ endpoint c = foundry_project_endpoint (obj_val s)
      /\ project_credential c
         = (if String.eqb (azure_client_id (obj_val s)) ""
            then DefaultAzureCredential
            else ManagedIdentityCredential (azure_client_id (obj_val s))))
  /\ agent_requests w1 = agent_requests w
  /\ (settings_cache w = None ->
      PyDict.get (secret_cache w1) constants.KV_FOUNDRY_PROJECT_ENDPOINT
      = Some (endpoint c)
      /\ project_credential c = akv._build_credential P).
Proof.
  intros Hslot H.
  pose proof (HandlerFacts.get_project_client_keeps_requests P w) as Hreq.
  rewrite H in Hreq. cbn [snd] in Hreq.
  unfold foundry_client.get_project_client, lru_cache in H.
  rewrite bind_run in H. unfold gets at 1 in H. rewrite Hslot in H.
  rewrite !bind_run in H.
  destruct (settings.get_settings P w) as [[s|e] wa] eqn:Es; [|discriminate].
  pose proof (get_settings_fills_cache P w Es) as Hfill.
  unfold foundry_client._build_credential in H. rewrite !bind_run in H.
  rewrite (Frames.get_settings_cached P _ Hfill) in H.
  assert (Hc : c = {| endpoint := foundry_project_endpoint (obj_val s);
                      project_credential :=
                        if String.eqb (azure_client_id (obj_val s)) ""
                        then DefaultAzureCredential
                        else ManagedIdentityCredential
                               (azure_client_id (obj_val s)) |}
               /\ w1 = set_project_client_cache (Some c) wa).
  { destruct (String.eqb (azure_client_id (obj_val s)) "");
      cbn in H; injection H as <- <-; auto. }
  destruct Hc as [Hc ->]. split; [|split; [exact Hreq|]].
  - exists s. rewrite Hc. cbn. split; [now destruct wa | auto].
  - intros Hnone.
    rewrite (SettingsFacts.get_settings_miss P _ Hnone) in Es.
    destruct (settings.Settings_new P w) as [[s'|e'] w'] eqn:En;
      [|discriminate].
    injection Es as -> <-.
    destruct (Settings_new_fetches_uncached_secrets_aux P w s w' En)
      as [_ Hvals].
    destruct (Settings_new_environment P w s w' En) as [Hid _].
    unfold settings.secret_names in Hvals.
    inversion Hvals as [|? ? ? ? Hend _]. clear Hvals.
    rewrite Hc. cbn [endpoint project_credential]. split.
    + now destruct w'.
    + rewrite Hid. reflexivity.
Qed.

Lemma fresh_project_client_matches_settings_witness :
  exists c,
    foundry_client.get_project_client Cases.flaky_vault flaky_first
    = (Ok c, snd (foundry_client.get_project_client Cases.flaky_vault
                    flaky_first))
    /\ project_credential c = ManagedIdentityCredential "11111111-2222"
    /\ endpoint c = "<foundry-project-endpoint>".
Proof.
  exists {| endpoint := "<foundry-project-endpoint>";
            project_credential := ManagedIdentityCredential "11111111-2222" |}.
  assert (H : foundry_client.get_project_client Cases.flaky_vault flaky_first
              = (Ok {| endpoint := "<foundry-project-endpoint>";
                       project_credential :=
                         ManagedIdentityCredential "11111111-2222" |},
                 snd (foundry_client.get_project_client Cases.flaky_vault
                        flaky_first)))
    by (vm_compute; reflexivity).
  split; [exact H|].
  destruct (fresh_project_client_matches_settings Cases.flaky_vault
              flaky_first _ _ eq_refl H) as (_ & _ & Hfresh).
  destruct (Hfresh eq_refl) as [_ Hcred].
  split; [exact Hcred | reflexivity].
Defined.

(* ================================================================= *)
(** ** The handlers on any message *)

Module MessageFacts.
Section Facts.
Variable P : Platform.

(** Both handler bodies end the same way once the fields are read. *)
Lemma rest_of_body explicit name model tool_names lvl msg
    (largs : Agent -> list log_arg) w w' :
  agent_requests w' = agent_requests w ->
  let run :=
    match instructions_or_prompt explicit name with
    | Raise e => (Raise e, w)
    | Ok instructions =>
        (resolved <- tools_registry.resolve_tools P tool_names;;
         project_client <- foundry_client.get_project_client P;;
         agent <- foundry_client.agents_create P project_client
                    {| arg_model := model;
                       arg_name := name;
                       arg_instructions := instructions;
                       arg_tools := fst resolved;
                       arg_tool_resources := snd resolved |};;
         logging lvl msg (largs agent)) w'
    end in
  (exists instructions resolved w1,
      instructions_or_prompt explicit name = Ok instructions
      /\ tools_registry.resolve_tools P tool_names w' = (Ok resolved, w1)
      /\ agent_requests (snd run)
         = agent_requests w ++
           [{| arg_model := model;
               arg_name := name;
               arg_instructions := instructions;
               arg_tools := fst resolved;
               arg_tool_resources := snd resolved |}]
      /\ (agents_service_accepts P -> fst run = Ok tt))
  \/ (agent_requests (snd run) = agent_requests w
      /\ exists e, fst run = Raise e).
Proof.
  intros Hw run. subst run.
  destruct (instructions_or_prompt explicit name) as [instructions|e].
  2:{ right. cbn. eauto. }
  rewrite <- Hw.
  destruct (RunFacts.resolve_and_send P model name instructions tool_names
              lvl msg largs w')
    as [(resolved & w1 & Hr & Hsent & Hok)|H]; [left | right; exact H].
  exists instructions, resolved, w1. auto.
Qed.

(** What [x or get_prompt(name)] evaluates to. *)
Lemma instructions_or_prompt_cases explicit name instructions :
  instructions_or_prompt explicit name = Ok instructions ->
  (truthy explicit = true /\ instructions = explicit)
  \/ (truthy explicit = false
      /\ exists prompt,
        agent_prompts.get_prompt name = Ok prompt
        /\ instructions = JStr prompt).
Proof.
  unfold instructions_or_prompt.
  destruct (truthy explicit).
  - intros [= <-]. now left.
  - destruct (agent_prompts.get_prompt name) as [prompt|e];
      [|discriminate].
    intros [= <-]. right. eauto.
Qed.

Lemma create_agent_with_outcome fields w :
  let name := PyDict.get_default fields "agent_name" (JStr "default-agent") in
  let model := PyDict.get_default fields "model" (JStr "gpt-4.1") in
  let explicit := PyDict.get_default fields "instructions" JNull in
  let tool_names := PyDict.get_default fields "tools" (JArr []) in
  let run := src_function_app.create_agent_with P (JObj fields) w in
  (exists instructions resolved w0 w1,
      instructions_or_prompt explicit name = Ok instructions
      /\ tools_registry.resolve_tools P tool_names w0 = (Ok resolved, w1)
      /\ agent_requests (snd run)
         = agent_requests w ++
           [{| arg_model := model;
               arg_name := name;
               arg_instructions := instructions;
               arg_tools := fst resolved;
               arg_tool_resources := snd resolved |}]
      /\ (agents_service_accepts P -> fst run = Ok tt))
  \/ (agent_requests (snd run) = agent_requests w
      /\ exists e, fst run = Raise e).
Proof.
  intros name model explicit tool_names run. subst run.
  rewrite BodyFacts.create_agent_with_fields.
  fold name model explicit tool_names.
  destruct (rest_of_body explicit name model tool_names INFO
              "Agent created: {agent.id} ({agent_name})"
              (fun agent => [AStr (agent_id agent); AJson name]) w w eq_refl)
    as [(i & r & w1 & Hi & Hr & Hsent & Hok)|H]; [left | right; exact H].
  exists i, r, w, w1. auto.
Qed.

Lemma agent_creation_with_outcome fields w :
  let new_name := PyDict.get_default fields "agent_name" JNull in
  let name :=
    if truthy new_name then new_name
    else PyDict.get_default fields "agentName" (JStr "default-agent") in
  let model := PyDict.get_default fields "model" (JStr "gpt-4.1") in
  let explicit := PyDict.get_default fields "instructions" JNull in
  let tool_names := PyDict.get_default fields "tools" (JArr []) in
  let run := function_app.agent_creation_with P (JObj fields) w in
  (exists instructions resolved w0 w1,
      instructions_or_prompt explicit name = Ok instructions
      /\ tools_registry.resolve_tools P tool_names w0 = (Ok resolved, w1)
      /\ agent_requests (snd run)
         = agent_requests w ++
           [{| arg_model := model;
               arg_name := name;
               arg_instructions := instructions;
               arg_tools := fst resolved;
               arg_tool_resources := snd resolved |}]
      /\ (agents_service_accepts P -> fst run = Ok tt))
  \/ (agent_requests (snd run) = agent_requests w
      /\ exists e, fst run = Raise e).
Proof.
  intros new_name name model explicit tool_names run. subst run.
  rewrite BodyFacts.agent_creation_with_fields.
  fold new_name. fold name. fold model explicit tool_names.
  match goal with
  | |- context [set_log ?l w] =>
      destruct (rest_of_body explicit name model tool_names INFO
                  "Agent created successfully: {agent.id} ({agent_name})"
                  (fun agent => [AStr (agent_id agent); AJson name])
                  w (set_log l w) (RunFacts.agent_requests_set_log l w))
        as [(i & r & w1 & Hi & Hr & Hsent & Hok)|H];
      [left; exists i, r, (set_log l w), w1; auto | right; exact H]
  end.
Qed.

(** A message that is not an object stops both bodies at the first
    [config.get]. *)
Lemma config_get_non_object config key default :
  (forall fields, config <> JObj fields) ->
  config_get config key default
  = Raise (AttributeError
             ("'" ++ type_name config ++ "' object has no attribute 'get'")).
Proof.
  intros H. destruct config; try reflexivity. now elim (H fields).
Qed.

End Facts.
End MessageFacts.

(** X7: a message that is valid JSON but not an object (a list, a
    number, a string, [null]) makes both handlers raise [AttributeError]
    at the first [config.get]: [create_agent] does not swallow it as it
    swallows an undecodable body, and [agent_creation_processor] logs it
    as a processing error and raises it again; nothing but the log
    changes, so no secret is fetched and no request is sent. *)
Theorem non_object_message_raises
    (P : Platform) (msg : QueueMessage) (text : string) (config : json)
    (w : World) :
  bytes_decode P (get_body msg) = Ok text ->
  json_loads P text = Ok config ->
  (forall fields, config <> JObj fields) ->
  let e :=
    AttributeError
      ("'" ++ type_name config ++ "' object has no attribute 'get'") in
  src_function_app.create_agent P msg w
  = (Raise e,
     set_log
       (log w ++ [LogRecord INFO "Agent creation job received from queue." []])
       w)
  /\ function_app.agent_creation_processor P msg w
     = (Raise e,
        set_log
          (log w ++
           [LogRecord INFO "Agent creation job received from queue" [];
            LogRecord INFO "Queue message: {message_body}" [AStr text];
            LogRecord ERROR "Error processing agent creation request: {e}"
              [AExn e]])
          w).
Proof.
  intros Hdecode Hloads Hnot e. split.
  - unfold src_function_app.create_agent.
    rewrite RunFacts.bind_logging, bind_run. unfold try_except.
    rewrite RunFacts.bind_lift, Hdecode, RunFacts.bind_lift, Hloads.
    cbv beta iota. unfold ret at 1. cbv beta iota.
    unfold src_function_app.create_agent_with.
    rewrite RunFacts.bind_lift.
    now rewrite (MessageFacts.config_get_non_object config _ _ Hnot).
  - unfold function_app.agent_creation_processor.
    rewrite RunFacts.bind_logging. unfold try_except.
    rewrite RunFacts.bind_lift, Hdecode, RunFacts.bind_logging,
      RunFacts.bind_lift, Hloads.
    unfold function_app.agent_creation_with.
    rewrite RunFacts.bind_lift.
    rewrite (MessageFacts.config_get_non_object config _ _ Hnot).
    unfold function_app.on_exception. cbn [is_JSONDecodeError is_ValueError].
    rewrite RunFacts.bind_logging. unfold raise. subst e.
    f_equal. destruct w; cbn. now rewrite <- !app_assoc.
Qed.

Lemma non_object_message_raises_witness :
  fst (src_function_app.create_agent Cases.platform {| get_body := "[]" |}
         fresh_world)
  = Raise (AttributeError "'list' object has no attribute 'get'")
  /\ kv_requests
       (snd (function_app.agent_creation_processor Cases.platform
               {| get_body := "[]" |} fresh_world))
     = [].
Proof.
  destruct (non_object_message_raises Cases.platform {| get_body := "[]" |}
              "[]" (JArr []) fresh_world eq_refl eq_refl)
    as [Hsrc Htop].
  - intros fields. discriminate.
  - rewrite Hsrc, Htop. split; reflexivity.
Defined.

(** X8: for every message that is an object, each handler body sends at
    most one request, and a run that sends none has raised.  The request
    carries the model of the message, ["gpt-4.1"] when it has none;
    instructions that are truthy are passed on as they are, without a
    look at the prompt table; otherwise the instructions are the prompt
    the table gives for the agent name.  The name is the [agent_name] of
    the message in [create_agent], ["default-agent"] when absent. *)
Theorem request_carries_message_fields
    (P : Platform) (fields : dict json) (w : World) :
  let model := PyDict.get_default fields "model" (JStr "gpt-4.1") in
  let explicit := PyDict.get_default fields "instructions" JNull in
  let outcome (run : result unit * World) (name : json) :=
    (exists args,
        agent_requests (snd run) = agent_requests w ++ [args]
        /\ arg_name args = name
        /\ arg_model args = model
        /\ (truthy explicit = true -> arg_instructions args = explicit)
        /\ (truthy explicit = false ->
            exists prompt,
              agent_prompts.get_prompt name = Ok prompt
              /\ arg_instructions args = JStr prompt))
    \/ (agent_requests (snd run) = agent_requests w
        /\ exists e, fst run = Raise e) in
  outcome (src_function_app.create_agent_with P (JObj fields) w)
    (PyDict.get_default fields "agent_name" (JStr "default-agent"))
  /\ outcome (function_app.agent_creation_with P (JObj fields) w)
       (if truthy (PyDict.get_default fields "agent_name" JNull)
        then PyDict.get_default fields "agent_name" JNull
        else PyDict.get_default fields "agentName" (JStr "default-agent")).
Proof.
  intros model explicit outcome. subst outcome. cbv beta.
  assert (Hshape : forall name instructions,
             instructions_or_prompt explicit name = Ok instructions ->
             (truthy explicit = true -> instructions = explicit)
             /\ (truthy explicit = false ->
                 exists prompt,
                   agent_prompts.get_prompt name = Ok prompt
                   /\ instructions = JStr prompt)).
  { intros name instructions H.
    destruct (MessageFacts.instructions_or_prompt_cases _ _ _ H)
      as [[Ht ->]|[Hf Hp]]; split; auto; congruence. }
  split.
  - destruct (MessageFacts.create_agent_with_outcome P fields w)
      as [(i & r & w0 & w1 & Hi & _ & Hsent & _)|H]; [left | right; exact H].
    eexists. split; [exact Hsent|].
    split; [reflexivity|]. split; [reflexivity|].
    exact (Hshape _ _ Hi).
  - destruct (MessageFacts.agent_creation_with_outcome P fields w)
      as [(i & r & w0 & w1 & Hi & _ & Hsent & _)|H]; [left | right; exact H].
    eexists. split; [exact Hsent|].
    split; [reflexivity|]. split; [reflexivity|].
    exact (Hshape _ _ Hi).
Qed.

Lemma request_carries_message_fields_witness :
  exists args,
    agent_requests
      (snd (src_function_app.create_agent_with Cases.platform
              (JObj [("agent_name", JArr []);
                     ("instructions", JStr "Be brief.")])
              fresh_world))
    = [args]
    /\ arg_instructions args = JStr "Be brief.".
Proof.
  destruct (request_carries_message_fields Cases.platform
              [("agent_name", JArr []); ("instructions", JStr "Be brief.")]
              fresh_world)
    as [[(args & Hsent & _ & _ & Hexplicit & _)|[_ [e He]]] _].
  - exists args. split; [exact Hsent | now apply Hexplicit].
  - exfalso. vm_compute in He. discriminate.
Defined.

(** X9: each handler sends at most one request per message, whatever
    the message and the platform.  [agent_creation_processor] never
    returns normally without having sent one; [create_agent] returns
    normally without a request only when the body could not be decoded
    and the failure was a [ValueError]. *)
Theorem at_most_one_request_per_message
    (P : Platform) (msg : QueueMessage) (w : World) :
  let at_most_one (run : result unit * World) :=
    agent_requests (snd run) = agent_requests w
    \/ exists args, agent_requests (snd run) = agent_requests w ++ [args] in
  at_most_one (src_function_app.create_agent P msg w)
  /\ at_most_one (function_app.agent_creation_processor P msg w)
  /\ (fst (function_app.agent_creation_processor P msg w) = Ok tt ->
      exists args,
        agent_requests (snd (function_app.agent_creation_processor P msg w))
        = agent_requests w ++ [args])
  /\ (fst (src_function_app.create_agent P msg w) = Ok tt ->
      agent_requests (snd (src_function_app.create_agent P msg w))
      = agent_requests w ->
      exists e,
        is_ValueError e = true
        /\ (bytes_decode P (get_body msg) = Raise e
            \/ exists text,
                bytes_decode P (get_body msg) = Ok text
                /\ json_loads P text = Raise e)).
Proof.
  intros at_most_one. subst at_most_one. cbv beta.
  (* the bodies on a decoded message *)
  assert (Hsrc_body : forall config w0,
             agent_requests w0 = agent_requests w ->
             let run := src_function_app.create_agent_with P config w0 in
             (agent_requests (snd run) = agent_requests w
              /\ exists e, fst run = Raise e)
             \/ exists args,
                 agent_requests (snd run) = agent_requests w ++ [args]).
  { intros config w0 Hw0 run. subst run. rewrite <- Hw0.
    destruct config;
      try (left; unfold src_function_app.create_agent_with;
           rewrite RunFacts.bind_lift; cbn; now eauto).
    destruct (MessageFacts.create_agent_with_outcome P fields w0)
      as [(i & r & wa & wb & _ & _ & Hsent & _)|H]; [right; eauto | now left]. }
  assert (Htop_body : forall config w0,
             agent_requests w0 = agent_requests w ->
             let run := function_app.agent_creation_with P config w0 in
             (agent_requests (snd run) = agent_requests w
              /\ exists e, fst run = Raise e)
             \/ exists args,
                 agent_requests (snd run) = agent_requests w ++ [args]).
  { intros config w0 Hw0 run. subst run. rewrite <- Hw0.
    destruct config;
      try (left; unfold function_app.agent_creation_with;
           rewrite RunFacts.bind_lift; cbn; now eauto).
    destruct (MessageFacts.agent_creation_with_outcome P fields w0)
      as [(i & r & wa & wb & _ & _ & Hsent & _)|H]; [right; eauto | now left]. }
  (* [create_agent] *)
  assert (Hsrc :
    (agent_requests (snd (src_function_app.create_agent P msg w))
     = agent_requests w
     /\ ((exists e, fst (src_function_app.create_agent P msg w) = Raise e)
         \/ exists e,
             is_ValueError e = true
             /\ (bytes_decode P (get_body msg) = Raise e
                 \/ exists text,
                     bytes_decode P (get_body msg) = Ok text
                     /\ json_loads P text = Raise e)))
    \/ exists args,
        agent_requests (snd (src_function_app.create_agent P msg w))
        = agent_requests w ++ [args]).
  { unfold src_function_app.create_agent.
    rewrite RunFacts.bind_logging, bind_run. unfold try_except.
    rewrite RunFacts.bind_lift.
    set (w0 := set_log _ w).
    assert (Hw0 : agent_requests w0 = agent_requests w)
      by apply RunFacts.agent_requests_set_log.
    assert (Hcaught : forall e,
               is_JSONDecodeError e || is_ValueError e = true ->
               is_ValueError e = true).
    { intros e. now destruct e. }
    destruct (bytes_decode P (get_body msg)) as [text|e] eqn:Hd.
    - rewrite RunFacts.bind_lift.
      destruct (json_loads P text) as [config|e] eqn:Hl.
      + cbv beta iota. unfold ret at 1. cbv beta iota.
        destruct (Hsrc_body config w0 Hw0) as [[Hk Hr]|Hs];
          [left; split; [exact Hk | now left] | now right].
      + cbv beta iota. left.
        destruct (is_JSONDecodeError e || is_ValueError e) eqn:Hc.
        * rewrite RunFacts.bind_logging. cbn [ret snd fst].
          rewrite RunFacts.agent_requests_set_log. split; [exact Hw0|].
          right. exists e. split; [now apply Hcaught|]. right. eauto.
        * cbn. split; [exact Hw0 | left; eauto].
    - cbv beta iota. left.
      destruct (is_JSONDecodeError e || is_ValueError e) eqn:Hc.
      + rewrite RunFacts.bind_logging. cbn [ret snd fst].
        rewrite RunFacts.agent_requests_set_log. split; [exact Hw0|].
        right. exists e. split; [now apply Hcaught | now left].
      + cbn. split; [exact Hw0 | left; eauto]. }
  (* [agent_creation_processor] *)
  assert (Htop :
    (agent_requests (snd (function_app.agent_creation_processor P msg w))
     = agent_requests w
     /\ exists e,
         fst (function_app.agent_creation_processor P msg w) = Raise e)
    \/ exists args,
        agent_requests (snd (function_app.agent_creation_processor P msg w))
        = agent_requests w ++ [args]).
  { unfold function_app.agent_creation_processor.
    rewrite RunFacts.bind_logging.
    match goal with
    | |- context [try_except ?c function_app.on_exception ?w0] =>
        destruct (RunFacts.try_on_exception c w0) as [-> ->];
        assert (Hw0 : agent_requests w0 = agent_requests w)
          by apply RunFacts.agent_requests_set_log;
        generalize dependent w0
    end.
    intros w0 Hw0. rewrite RunFacts.bind_lift.
    destruct (bytes_decode P (get_body msg)) as [text|e];
      [|left; cbn; split; [exact Hw0 | eauto]].
    rewrite RunFacts.bind_logging, RunFacts.bind_lift.
    destruct (json_loads P text) as [config|e].
    - apply Htop_body. now rewrite RunFacts.agent_requests_set_log.
    - left. cbn [fst snd]. rewrite RunFacts.agent_requests_set_log.
      split; [exact Hw0 | eauto]. }
  split; [|split; [|split]].
  - destruct Hsrc as [[Hk _]|Hs]; [now left | now right].
  - destruct Htop as [[Hk _]|Hs]; [now left | now right].
  - intros Hok. destruct Htop as [[_ [e He]]|Hs]; [congruence | exact Hs].
  - intros Hok Hnone. destruct Hsrc as [[_ [[e He]|Hv]]|[args Hs]].
    + congruence.
    + exact Hv.
    + rewrite Hs in Hnone. exfalso.
      apply (f_equal (@length _)) in Hnone.
      rewrite length_app in Hnone. cbn in Hnone. lia.
Qed.

Lemma at_most_one_request_per_message_witness :
  exists args,
    agent_requests
      (snd (function_app.agent_creation_processor Cases.platform
              {| get_body := "{}" |} fresh_world))
    = [args].
Proof.
  destruct (at_most_one_request_per_message Cases.platform
              {| get_body := "{}" |} fresh_world) as (_ & _ & H & _).
  apply H. vm_compute. reflexivity.
Defined.

Module ServeFacts.
Section Facts.
Variable P : Platform.

(** The prompt lookup raises only for a name that cannot be a key. *)
Lemma get_prompt_hashable name :
  hashable name = true -> exists prompt, agent_prompts.get_prompt name = Ok prompt.
Proof.
  intros H. unfold agent_prompts.get_prompt. cbn [subscript].
  destruct name; try discriminate; cbn; eauto.
Qed.

Lemma instructions_available explicit name :
  truthy explicit = true \/ hashable name = true ->
  exists instructions, instructions_or_prompt explicit name = Ok instructions.
Proof.
  unfold instructions_or_prompt. intros [Ht|Hh].
  - rewrite Ht. eauto.
  - destruct (truthy explicit); eauto.
    destruct (get_prompt_hashable name Hh) as [prompt ->]. eauto.
Qed.

(** When the services are available: from [resolve_tools] on a list of
    strings to the end of a handler. *)
Lemma served model name instructions names lvl msg
    (largs : Agent -> list log_arg) w :
  services_available P ->
  let run :=
    (resolved <- tools_registry.resolve_tools P (JArr (map JStr names));;
     project_client <- foundry_client.get_project_client P;;
     agent <- foundry_client.agents_create P project_client
                {| arg_model := model;
                   arg_name := name;
                   arg_instructions := instructions;
                   arg_tools := fst resolved;
                   arg_tool_resources := snd resolved |};;
     logging lvl msg (largs agent)) w in
  fst run = Ok tt
  /\ exists s,
      settings_cache (snd run) = Some s
      /\ agent_requests (snd run)
         = agent_requests w ++
           [{| arg_model := model;
               arg_name := name;
               arg_instructions := instructions;
               arg_tools :=
                 map (fun e => tools_registry.tool_def (snd e))
                   (tools_registry.built tools_registry.TOOL_REGISTRY
                      (obj_val s) names);
               arg_tool_resources :=
                 fold_left tools_registry.merge_resources
                   (tools_registry.fragments tools_registry.TOOL_REGISTRY
                      (obj_val s) names) [] |}].
Proof.
  intros Hav run.
  destruct (RunFacts.resolve_and_send_available P model name instructions
              names lvl msg largs w Hav)
    as [Hok (resolved & w1 & Hres & Hsent)].
  fold run in Hok, Hsent. split; [exact Hok|].
  assert (Hrun : snd run
                 = snd ((project_client <- foundry_client.get_project_client P;;
                         agent <- foundry_client.agents_create P project_client
                                    {| arg_model := model;
                                       arg_name := name;
                                       arg_instructions := instructions;
                                       arg_tools := fst resolved;
                                       arg_tool_resources := snd resolved |};;
                         logging lvl msg (largs agent)) w1)).
  { subst run. rewrite bind_run, Hres. reflexivity. }
  unfold tools_registry.resolve_tools in Hres.
  rewrite ResolveFacts.resolve_tools_in_strings in Hres.
  destruct (settings.get_settings P w) as [[s|e] wa] eqn:Es; [|discriminate].
  injection Hres as <- <-. exists s. split; [|exact Hsent].
  rewrite Hrun.
  set (I := fun w0 : World => settings_cache w0 = Some s).
  assert (Hgs : stable I (settings.get_settings P)).
  { intros w0 H0. now rewrite (Frames.get_settings_cached P _ H0). }
  apply (ClientFrames.stable_send P I);
    try solve [unfold I; respects_tac].
  - apply Frames.stable_get_project_client;
      try solve [unfold I; respects_tac]. exact Hgs.
  - unfold I. apply get_settings_fills_cache in Es. now destruct wa.
Qed.

Lemma resolve_tools_not_iterable v e w :
  tools_registry.py_iter v = Raise e ->
  tools_registry.resolve_tools P v w
  = match settings.get_settings P w with
    | (Ok _, w1) => (Raise e, w1)
    | (Raise e', w1) => (Raise e', w1)
    end.
Proof.
  intros H. unfold tools_registry.resolve_tools, tools_registry.resolve_tools_in.
  rewrite bind_run.
  destruct (settings.get_settings P w) as [[s|e'] w1]; [|reflexivity].
  now rewrite RunFacts.bind_lift, H.
Qed.

End Facts.
End ServeFacts.

(** An object message with a list of names for its tools, on a platform
    whose services are available: the body of [create_agent]. *)
Lemma create_agent_with_served
    (P : Platform) (fields : dict json) (names : list string) (w : World) :
  services_available P ->
  PyDict.get_default fields "tools" (JArr []) = JArr (map JStr names) ->
  let model := PyDict.get_default fields "model" (JStr "gpt-4.1") in
  let explicit := PyDict.get_default fields "instructions" JNull in
  let name := PyDict.get_default fields "agent_name" (JStr "default-agent") in
  let run := src_function_app.create_agent_with P (JObj fields) w in
  truthy explicit = true \/ hashable name = true ->
  fst run = Ok tt
  /\ exists s instructions,
      settings_cache (snd run) = Some s
      /\ instructions_or_prompt explicit name = Ok instructions
      /\ agent_requests (snd run)
         = agent_requests w ++
           [{| arg_model := model;
               arg_name := name;
               arg_instructions := instructions;
               arg_tools :=
                 map (fun e => tools_registry.tool_def (snd e))
                   (tools_registry.built tools_registry.TOOL_REGISTRY
                      (obj_val s) names);
               arg_tool_resources :=
                 fold_left tools_registry.merge_resources
                   (tools_registry.fragments tools_registry.TOOL_REGISTRY
                      (obj_val s) names) [] |}].
Proof.
  intros Hav Htools model explicit name run. subst name run. cbv beta.
  intros Hname.
    destruct (ServeFacts.instructions_available _ _ Hname) as [i Hi].
    rewrite BodyFacts.create_agent_with_fields.
    fold explicit. rewrite Hi, Htools. fold model.
    destruct (ServeFacts.served P model
                (PyDict.get_default fields "agent_name" (JStr "default-agent"))
                i names INFO "Agent created: {agent.id} ({agent_name})"
                (fun agent =>
                   [AStr (agent_id agent);
                    AJson (PyDict.get_default fields "agent_name"
                             (JStr "default-agent"))]) w Hav)
      as [Hok (s & Hs & Hsent)].
    split; [exact Hok|]. exists s, i. auto.
Qed.

(** The same for the body of [agent_creation_processor]. *)
Lemma agent_creation_with_served
    (P : Platform) (fields : dict json) (names : list string) (w : World) :
  services_available P ->
  PyDict.get_default fields "tools" (JArr []) = JArr (map JStr names) ->
  let model := PyDict.get_default fields "model" (JStr "gpt-4.1") in
  let explicit := PyDict.get_default fields "instructions" JNull in
  let name :=
    if truthy (PyDict.get_default fields "agent_name" JNull)
    then PyDict.get_default fields "agent_name" JNull
    else PyDict.get_default fields "agentName" (JStr "default-agent") in
  let run := function_app.agent_creation_with P (JObj fields) w in
  truthy explicit = true \/ hashable name = true ->
  fst run = Ok tt
  /\ exists s instructions,
      settings_cache (snd run) = Some s
      /\ instructions_or_prompt explicit name = Ok instructions
      /\ agent_requests (snd run)
         = agent_requests w ++
           [{| arg_model := model;
               arg_name := name;
               arg_instructions := instructions;
               arg_tools :=
                 map (fun e => tools_registry.tool_def (snd e))
                   (tools_registry.built tools_registry.TOOL_REGISTRY
                      (obj_val s) names);
               arg_tool_resources :=
                 fold_left tools_registry.merge_resources
                   (tools_registry.fragments tools_registry.TOOL_REGISTRY
                      (obj_val s) names) [] |}].
Proof.
  intros Hav Htools model explicit name run. subst name run. cbv beta.
  intros Hname.
    destruct (ServeFacts.instructions_available _ _ Hname) as [i Hi].
    rewrite BodyFacts.agent_creation_with_fields.
    fold explicit. rewrite Hi, Htools. fold model.
    match goal with
    | |- context [set_log ?l w] =>
        rewrite <- (RunFacts.agent_requests_set_log l w);
        generalize (set_log l w)
    end.
    intros w0.
    match goal with
    | |- context [AJson ?name] =>
        destruct (ServeFacts.served P model name i names INFO
                    "Agent created successfully: {agent.id} ({agent_name})"
                    (fun agent => [AStr (agent_id agent); AJson name])
                    w0 Hav)
          as [Hok (s & Hs & Hsent)]
    end.
    split; [exact Hok|]. exists s, i. auto.
Qed.

(** X10: on a platform whose services are available, a message that is
    an object, whose tools are absent or a list of strings, and whose
    instructions are truthy or whose agent name can be a dictionary key,
    is always served: the handler body returns without an exception and
    has sent one request with the name, the model and the instructions of
    the message, the definitions of the known tools in input order, and
    their merged resources, all built from the settings snapshot that is
    cached afterwards.  Unknown tool names do not prevent this. *)
Theorem well_formed_message_is_served
    (P : Platform) (fields : dict json) (names : list string) (w : World) :
  services_available P ->
  PyDict.get_default fields "tools" (JArr []) = JArr (map JStr names) ->
  let model := PyDict.get_default fields "model" (JStr "gpt-4.1") in
  let explicit := PyDict.get_default fields "instructions" JNull in
  let served (run : result unit * World) (name : json) :=
    truthy explicit = true \/ hashable name = true ->
    fst run = Ok tt
    /\ exists s instructions,
        settings_cache (snd run) = Some s
        /\ instructions_or_prompt explicit name = Ok instructions
        /\ agent_requests (snd run)
           = agent_requests w ++
             [{| arg_model := model;
                 arg_name := name;
                 arg_instructions := instructions;
                 arg_tools :=
                   map (fun e => tools_registry.tool_def (snd e))
                     (tools_registry.built tools_registry.TOOL_REGISTRY
                        (obj_val s) names);
                 arg_tool_resources :=
                   fold_left tools_registry.merge_resources
                     (tools_registry.fragments tools_registry.TOOL_REGISTRY
                        (obj_val s) names) [] |}] in
  served (src_function_app.create_agent_with P (JObj fields) w)
    (PyDict.get_default fields "agent_name" (JStr "default-agent"))
  /\ served (function_app.agent_creation_with P (JObj fields) w)
       (if truthy (PyDict.get_default fields "agent_name" JNull)
        then PyDict.get_default fields "agent_name" JNull
        else PyDict.get_default fields "agentName" (JStr "default-agent")).
Proof.
  intros Hav Htools model explicit served. subst served. cbv beta. split.
  - exact (create_agent_with_served P fields names w Hav Htools).
  - exact (agent_creation_with_served P fields names w Hav Htools).
Qed.

Lemma well_formed_message_is_served_witness :
  fst (src_function_app.create_agent_with Cases.platform
         (JObj [("agent_name", JStr "doc-bot");
                ("tools", JArr (map JStr ["ai_search"; "unknown_tool"]))])
         fresh_world)
  = Ok tt
  /\ map arg_tools
       (agent_requests
          (snd (src_function_app.create_agent_with Cases.platform
                  (JObj [("agent_name", JStr "doc-bot");
                         ("tools",
                          JArr (map JStr ["ai_search"; "unknown_tool"]))])
                  fresh_world)))
     = [[JObj [("type", JStr "azure_ai_search")]]].
Proof.
  assert (Hav : services_available Cases.platform).
  { split; [|split].
    - exists "https://vault.example/", Demo.client. split; reflexivity.
    - intros c n name _. eexists. reflexivity.
    - intros c n args. eexists. reflexivity. }
  destruct (well_formed_message_is_served Cases.platform
              [("agent_name", JStr "doc-bot");
               ("tools", JArr (map JStr ["ai_search"; "unknown_tool"]))]
              ["ai_search"; "unknown_tool"] fresh_world Hav eq_refl)
    as [Hsrc _].
  destruct Hsrc as [Hok (s & i & _ & _ & Hsent)]; [now right|].
  split; [exact Hok|]. rewrite Hsent. reflexivity.
Defined.

(** X11: a message whose [tools] cannot be iterated ([null], a number,
    a boolean) makes both handler bodies raise without sending a request;
    when the services are available and the instructions can be
    determined, the exception is the [TypeError] of the [for]
    statement, raised after the settings were read. *)
Theorem tools_must_be_iterable
    (P : Platform) (fields : dict json) (v : json) (e : exn) (w : World) :
  PyDict.get fields "tools" = Some v ->
  tools_registry.py_iter v = Raise e ->
  let explicit := PyDict.get_default fields "instructions" JNull in
  let fails (run : result unit * World) (name : json) :=
    agent_requests (snd run) = agent_requests w
    /\ (exists e', fst run = Raise e')
    /\ (services_available P ->
        truthy explicit = true \/ hashable name = true ->
        fst run = Raise e) in
  fails (src_function_app.create_agent_with P (JObj fields) w)
    (PyDict.get_default fields "agent_name" (JStr "default-agent"))
  /\ fails (function_app.agent_creation_with P (JObj fields) w)
       (if truthy (PyDict.get_default fields "agent_name" JNull)
        then PyDict.get_default fields "agent_name" JNull
        else PyDict.get_default fields "agentName" (JStr "default-agent")).
Proof.
  intros Htools Hiter explicit fails. subst fails. cbv beta.
  assert (Hv : PyDict.get_default fields "tools" (JArr []) = v)
    by now apply RunFacts.get_default_Some.
  assert (Htail : forall model name i lvl msg (largs : Agent -> list log_arg) w0,
             agent_requests w0 = agent_requests w ->
             let run :=
               (resolved <- tools_registry.resolve_tools P v;;
                project_client <- foundry_client.get_project_client P;;
                agent <- foundry_client.agents_create P project_client
                           {| arg_model := model;
                              arg_name := name;
                              arg_instructions := i;
                              arg_tools := fst resolved;
                              arg_tool_resources := snd resolved |};;
                logging lvl msg (largs agent)) w0 in
             agent_requests (snd run) = agent_requests w
             /\ (exists e', fst run = Raise e')
             /\ (services_available P -> fst run = Raise e)).
  { intros model name i lvl msg largs w0 Hw0 run. subst run.
    rewrite bind_run.
    pose proof (HandlerFacts.resolve_tools_keeps_requests P v w0) as Hk.
    rewrite (ServeFacts.resolve_tools_not_iterable P v e w0 Hiter) in Hk |- *.
    pose proof (HandlerFacts.get_settings_available P) as Hgs.
    destruct (settings.get_settings P w0) as [[s|e'] w1] eqn:Es;
      cbn [fst snd] in *.
    - split; [congruence|]. split; [eauto | auto].
    - split; [congruence|]. split; [eauto|].
      intros Hav. destruct (Hgs Hav w0) as [s Hs].
      rewrite Es in Hs. discriminate. }
  split.
  - rewrite BodyFacts.create_agent_with_fields. fold explicit. rewrite Hv.
    destruct (instructions_or_prompt explicit
                (PyDict.get_default fields "agent_name" (JStr "default-agent")))
      as [i|e0] eqn:Hi.
    + destruct (Htail (PyDict.get_default fields "model" (JStr "gpt-4.1"))
                  (PyDict.get_default fields "agent_name" (JStr "default-agent"))
                  i INFO "Agent created: {agent.id} ({agent_name})"
                  (fun agent =>
                     [AStr (agent_id agent);
                      AJson (PyDict.get_default fields "agent_name"
                               (JStr "default-agent"))]) w eq_refl)
        as (Hk & Hr & Hav).
      split; [exact Hk|]. split; [exact Hr | auto].
    + cbn [fst snd]. split; [reflexivity|]. split; [eauto|].
      intros _ Hname.
      destruct (ServeFacts.instructions_available _ _ Hname) as [i Hi'].
      congruence.
  - rewrite BodyFacts.agent_creation_with_fields. fold explicit. rewrite Hv.
    match goal with
    | |- context [instructions_or_prompt explicit ?name] =>
        destruct (instructions_or_prompt explicit name) as [i|e0] eqn:Hi
    end.
    + match goal with
      | |- context [set_log ?l w] =>
          pose proof (RunFacts.agent_requests_set_log l w) as Hw0;
          generalize dependent (set_log l w)
      end.
      intros w0 Hw0.
      match goal with
      | |- context [AJson ?name] =>
          destruct (Htail (PyDict.get_default fields "model" (JStr "gpt-4.1"))
                      name i INFO
                      "Agent created successfully: {agent.id} ({agent_name})"
                      (fun agent => [AStr (agent_id agent); AJson name])
                      w0 Hw0)
            as (Hk & Hr & Hav)
      end.
      split; [exact Hk|]. split; [exact Hr | auto].
    + cbn [fst snd]. split; [reflexivity|]. split; [eauto|].
      intros _ Hname.
      destruct (ServeFacts.instructions_available _ _ Hname) as [i Hi'].
      congruence.
Qed.

Lemma tools_must_be_iterable_witness :
  fst (src_function_app.create_agent_with Cases.platform
         (JObj [("tools", JNull)]) fresh_world)
  = Raise (TypeError "'NoneType' object is not iterable")
  /\ agent_requests
       (snd (src_function_app.create_agent_with Cases.platform
               (JObj [("tools", JNull)]) fresh_world))
     = [].
Proof.
  assert (Hav : services_available Cases.platform).
  { split; [|split].
    - exists "https://vault.example/", Demo.client. split; reflexivity.
    - intros c n name _. eexists. reflexivity.
    - intros c n args. eexists. reflexivity. }
  destruct (tools_must_be_iterable Cases.platform [("tools", JNull)] JNull
              (TypeError "'NoneType' object is not iterable") fresh_world
              eq_refl eq_refl) as [(Hk & _ & H) _].
  split; [exact (H Hav (or_intror eq_refl)) | exact Hk].
Defined.

Module RegistryFacts.
Import tools_registry.

(** The four cases of a lookup in [TOOL_REGISTRY]. *)
Lemma registry_cases name :
  (name = "ai_search"
   /\ PyDict.get TOOL_REGISTRY name = Some _build_ai_search
   /\ listed name = true)
  \/ (name <> "ai_search"
      /\ PyDict.get TOOL_REGISTRY name = Some _build_microsoft_learn_mcp
      /\ listed name = true)
  \/ (name <> "ai_search"
      /\ PyDict.get TOOL_REGISTRY name = Some _build_code_interpreter
      /\ listed name = true)
  \/ (name <> "ai_search"
      /\ PyDict.get TOOL_REGISTRY name = None
      /\ listed name = false).
Proof.
  unfold listed, list_available_tools, TOOL_REGISTRY.
  cbn [PyDict.get PyDict.keys map fst existsb].
  rewrite (String.eqb_sym name "ai_search"),
          (String.eqb_sym name "microsoft_learn_mcp"),
          (String.eqb_sym name "code_interpreter").
  destruct (String.eqb_spec "ai_search" name) as [<-|N1]; [left; auto|].
  assert (N1' : name <> "ai_search") by congruence.
  destruct (String.eqb_spec "microsoft_learn_mcp" name) as [<-|N2];
    [right; left; auto|].
  destruct (String.eqb_spec "code_interpreter" name) as [<-|N3];
    [right; right; left; auto|].
  right; right; right; auto.
Qed.

(** No registered name is a single character. *)
Lemma character_not_registered c :
  PyDict.get TOOL_REGISTRY (String c EmptyString) = None.
Proof.
  unfold TOOL_REGISTRY. cbn [PyDict.get].
  destruct (String.eqb_spec "ai_search" (String c EmptyString));
    [discriminate|].
  destruct (String.eqb_spec "microsoft_learn_mcp" (String c EmptyString));
    [discriminate|].
  destruct (String.eqb_spec "code_interpreter" (String c EmptyString));
    [discriminate|].
  reflexivity.
Qed.

Lemma built_characters s chars :
  built TOOL_REGISTRY s (map (fun c => String c EmptyString) chars) = [].
Proof.
  unfold built. induction chars as [|c rest IH]; [reflexivity|].
  cbn [map flat_map]. now rewrite character_not_registered, IH.
Qed.

Lemma diagnostics_characters s chars :
  flat_map (fun name =>
              match PyDict.get TOOL_REGISTRY name with
              | Some build => fst (build s)
              | None => [unknown_tool TOOL_REGISTRY name]
              end)
    (map (fun c => String c EmptyString) chars)
  = map (fun c => unknown_tool TOOL_REGISTRY (String c EmptyString)) chars.
Proof.
  induction chars as [|c rest IH]; [reflexivity|].
  cbn [map flat_map]. now rewrite character_not_registered, IH.
Qed.

(** The tools built: one per listed name, each of a known type. *)
Lemma built_listed s names :
  length (built TOOL_REGISTRY s names) = length (filter listed names)
  /\ Forall (fun e =>
               exists ty,
                 tool_type (tool_def (snd e)) = Some (JStr ty)
                 /\ In ty ["azure_ai_search"; "remote_mcp"; "code_interpreter"])
       (built TOOL_REGISTRY s names).
Proof.
  unfold built. induction names as [|name rest [IHl IHf]];
    [split; [reflexivity | constructor]|].
  cbn [flat_map filter].
  destruct (registry_cases name)
    as [(_ & -> & ->)|[(_ & -> & ->)|[(_ & -> & ->)|(_ & -> & ->)]]];
    cbn [app length]; (split; [now rewrite ?IHl|]); try exact IHf;
    constructor; try exact IHf.
  - exists "azure_ai_search". cbn. auto.
  - exists "remote_mcp". cbn. auto.
  - exists "code_interpreter". cbn. auto 6.
Qed.

(** The diagnostics: the builders warn, only an unlisted name is an
    error. *)
Lemma errors_unlisted s names :
  filter is_error
    (flat_map (fun name =>
                 match PyDict.get TOOL_REGISTRY name with
                 | Some build => fst (build s)
                 | None => [unknown_tool TOOL_REGISTRY name]
                 end) names)
  = map (unknown_tool TOOL_REGISTRY)
      (filter (fun name => negb (listed name)) names).
Proof.
  induction names as [|name rest IH]; [reflexivity|].
  cbn [flat_map filter]. rewrite filter_app, IH.
  destruct (registry_cases name)
    as [(_ & -> & ->)|[(_ & -> & ->)|[(_ & -> & ->)|(_ & -> & ->)]]];
    cbn [negb].
  - unfold _build_ai_search. cbn [fst].
    destruct (_ || _); reflexivity.
  - unfold _build_microsoft_learn_mcp. cbn [fst].
    destruct (String.eqb _ _); reflexivity.
  - reflexivity.
  - reflexivity.
Qed.

(** Merging the fragments of the registered builders: only [ai_search]
    has resources, one index binding per use. *)
Lemma merge_search s n :
  merge_resources (search_resources s n)
    (tool_resources (snd (_build_ai_search s)))
  = search_resources s (S n).
Proof.
  destruct n as [|n]; [reflexivity|].
  unfold search_resources, _build_ai_search, index_binding.
  cbn -[repeat]. rewrite <- repeat_cons. reflexivity.
Qed.

Lemma fragments_counted s names : forall n,
  fold_left merge_resources (fragments TOOL_REGISTRY s names)
    (search_resources s n)
  = search_resources s (n + count_occ string_dec names "ai_search").
Proof.
  unfold fragments, built.
  induction names as [|name rest IH]; intros n.
  - cbn. now rewrite Nat.add_0_r.
  - cbn [flat_map count_occ].
    destruct (registry_cases name)
      as [(-> & E & _)|[(N & -> & _)|[(N & -> & _)|(N & -> & _)]]].
    + rewrite E. cbn [app map fold_left].
      rewrite merge_search, IH.
      destruct (string_dec "ai_search" "ai_search"); [|congruence].
      f_equal. lia.
    + cbn [app map fold_left]. unfold _build_microsoft_learn_mcp at 1.
      cbn [snd tool_resources merge_resources fold_left].
      rewrite IH. destruct (string_dec name "ai_search"); [congruence|].
      reflexivity.
    + cbn [app map fold_left]. unfold _build_code_interpreter at 1.
      cbn [snd tool_resources merge_resources fold_left].
      rewrite IH. destruct (string_dec name "ai_search"); [congruence|].
      reflexivity.
    + cbn [app]. rewrite IH.
      destruct (string_dec name "ai_search"); [congruence|]. reflexivity.
Qed.

End RegistryFacts.

(** X12: when [tools] is a bare string instead of a list, the loop of
    [resolve_tools] visits its characters; none is a registered name, so
    no tool and no resource is returned and one error is logged per
    character, whatever the string, also for the name of a registered
    tool. *)
Theorem string_of_tools_resolves_nothing
    (P : Platform) (text : string) (w : World) :
  tools_registry.resolve_tools P (JStr text) w
  = match settings.get_settings P w with
    | (Ok s, w1) =>
        (Ok ([], []),
         set_log
           (log w1 ++
            map (fun c =>
                   tools_registry.unknown_tool tools_registry.TOOL_REGISTRY
                     (String c EmptyString))
              (list_ascii_of_string text))
           w1)
    | (Raise e, w1) => (Raise e, w1)
    end.
Proof.
  unfold tools_registry.resolve_tools, tools_registry.resolve_tools_in.
  rewrite bind_run.
  destruct (settings.get_settings P w) as [[s|e] w1]; [|reflexivity].
  rewrite RunFacts.bind_lift. cbn [tools_registry.py_iter].
  rewrite <- (map_map (fun c => String c EmptyString) JStr).
  rewrite ResolveFacts.resolve_loop_strings.
  unfold tools_registry.fragments.
  now rewrite RegistryFacts.built_characters,
    RegistryFacts.diagnostics_characters.
Qed.

(** X13: [list_available_tools] names exactly what [resolve_tools]
    accepts: on a list of strings it returns one tool definition per
    occurrence of a listed name, each with a [type] among
    [azure_ai_search], [remote_mcp] and [code_interpreter], and the
    errors it logs are one per occurrence of an unlisted name, in input
    order; what the builders log are warnings. *)
Theorem listed_tools_are_the_resolved_ones
    (P : Platform) (names : list string) (w : World)
    (s : instance Settings) (w1 : World) :
  settings.get_settings P w = (Ok s, w1) ->
  exists tools res diagnostics,
    tools_registry.resolve_tools P (JArr (map JStr names)) w
    = (Ok (tools, res), set_log (log w1 ++ diagnostics) w1)
    /\ length tools = length (filter listed names)
    /\ Forall (fun def =>
                 exists ty,
                   tool_type def = Some (JStr ty)
                   /\ In ty ["azure_ai_search"; "remote_mcp";
                             "code_interpreter"])
         tools
    /\ filter is_error diagnostics
       = map (tools_registry.unknown_tool tools_registry.TOOL_REGISTRY)
           (filter (fun name => negb (listed name)) names).
Proof.
  intros Hs. unfold tools_registry.resolve_tools.
  rewrite ResolveFacts.resolve_tools_in_strings, Hs.
  destruct (RegistryFacts.built_listed (obj_val s) names) as [Hl Hf].
  do 3 eexists. split; [reflexivity|]. split; [|split].
  - now rewrite length_map.
  - apply Forall_map. exact Hf.
  - apply RegistryFacts.errors_unlisted.
Qed.

Lemma listed_tools_are_the_resolved_ones_witness :
  exists tools res diagnostics,
    tools_registry.resolve_tools Cases.platform
      (JArr (map JStr ["bing"; "code_interpreter"; "ai_search"; "Bing"]))
      fresh_world
    = (Ok (tools, res),
       set_log
         (log (snd (settings.get_settings Cases.platform fresh_world))
          ++ diagnostics)
         (snd (settings.get_settings Cases.platform fresh_world)))
    /\ length tools = 2
    /\ map log_args (filter is_error diagnostics)
       = [[AJson (JStr "bing");
           ANames ["ai_search"; "microsoft_learn_mcp"; "code_interpreter"]];
          [AJson (JStr "Bing");
           ANames ["ai_search"; "microsoft_learn_mcp"; "code_interpreter"]]].
Proof.
  destruct (settings.get_settings Cases.platform fresh_world)
    as [[s|e] w1] eqn:Hs; [|vm_compute in Hs; discriminate].
  destruct (listed_tools_are_the_resolved_ones Cases.platform
              ["bing"; "code_interpreter"; "ai_search"; "Bing"]
              fresh_world s w1 Hs)
    as (tools & res & diagnostics & Hrun & Hlen & _ & Herr).
  exists tools, res, diagnostics. cbn [snd].
  split; [exact Hrun|]. split; [exact Hlen|]. rewrite Herr. reflexivity.
Defined.

(** X14: the resources that [resolve_tools] returns for a list of
    strings depend only on how often [ai_search] is named: none when it
    is not, and otherwise the single key [azure_ai_search] whose
    [indexes] hold one binding per occurrence, each with the connection
    and the index name of the cached settings.  The other tools add
    nothing. *)
Theorem ai_search_bindings_are_counted
    (P : Platform) (names : list string) (w : World)
    (tools : list json) (res : resources) (w2 : World) :
  tools_registry.resolve_tools P (JArr (map JStr names)) w
  = (Ok (tools, res), w2) ->
  exists s,
    settings_cache w2 = Some s
    /\ res = search_resources (obj_val s)
               (count_occ string_dec names "ai_search").
Proof.
  unfold tools_registry.resolve_tools.
  rewrite ResolveFacts.resolve_tools_in_strings.
  destruct (settings.get_settings P w) as [[s|e] w1] eqn:Hs; [|discriminate].
  intros H. injection H as _ <- <-. exists s. split.
  - apply get_settings_fills_cache in Hs. now destruct w1.
  - exact (RegistryFacts.fragments_counted (obj_val s) names 0).
Qed.

Lemma ai_search_bindings_are_counted_witness :
  exists tools w2,
    tools_registry.resolve_tools Cases.platform
      (JArr (map JStr ["ai_search"; "code_interpreter"; "ai_search"]))
      fresh_world
    = (Ok (tools,
           [("azure_ai_search",
             [("indexes",
               [JObj [("index_connection_id",
                       JStr "<ai-search-connection-id>");
                      ("index_name", JStr "<ai-search-index-name>")];
                JObj [("index_connection_id",
                       JStr "<ai-search-connection-id>");
                      ("index_name", JStr "<ai-search-index-name>")]])])]),
       w2).
Proof.
  destruct (tools_registry.resolve_tools Cases.platform
              (JArr (map JStr ["ai_search"; "code_interpreter"; "ai_search"]))
              fresh_world) as [[[tools res]|e] w2] eqn:Hrun;
    [|vm_compute in Hrun; discriminate].
  destruct (ai_search_bindings_are_counted Cases.platform
              ["ai_search"; "code_interpreter"; "ai_search"] fresh_world
              tools res w2 Hrun) as (s & Hs & ->).
  assert (Hw2 : settings_cache w2
                = settings_cache
                    (snd (tools_registry.resolve_tools Cases.platform
                            (JArr (map JStr ["ai_search"; "code_interpreter";
                                             "ai_search"]))
                            fresh_world))) by now rewrite Hrun.
  rewrite Hs in Hw2. vm_compute in Hw2. injection Hw2 as ->.
  exists tools, w2. reflexivity.
Defined.

Module ItemFacts.
Import tools_registry.
Section Facts.
Variable registry : dict ToolBuilder.
Variable s : Settings.

(** An item that is not a string and can be a key is never found. *)
Lemma registry_get_hashable (v : json) :
  hashable v = true ->
  registry_get registry v
  = Ok (match v with JStr name => PyDict.get registry name | _ => None end).
Proof. destruct v; try discriminate; reflexivity. Qed.

Lemma registry_get_unhashable (v : json) :
  hashable v = false ->
  registry_get registry v
  = Raise (TypeError ("unhashable type: '" ++ type_name v ++ "'")).
Proof. destruct v; try discriminate; reflexivity. Qed.

Lemma resolve_loop_hashable items :
  Forall (fun v => hashable v = true) items ->
  forall tools res w,
    fst (resolve_loop registry s items tools res w)
    = Ok (tools ++ map (fun e => tool_def (snd e))
                     (built registry s (strings_of items)),
          fold_left merge_resources
            (fragments registry s (strings_of items)) res).
Proof.
  unfold fragments.
  induction 1 as [|v rest Hv _ IH]; intros tools res w.
  - cbn. now rewrite app_nil_r.
  - cbn [resolve_loop]. rewrite RunFacts.bind_lift.
    rewrite (registry_get_hashable v Hv).
    assert (Hskip : forall w0,
               (forall name, v <> JStr name) ->
               fst ((logging ERROR
                       "Unknown tool '%s' — skipping. Known tools: %s"
                       [AJson v; ANames (PyDict.keys registry)];;
                     resolve_loop registry s rest tools res) w0)
               = Ok (tools ++ map (fun e => tool_def (snd e))
                                (built registry s (strings_of (v :: rest))),
                     fold_left merge_resources
                       (map (fun e => tool_resources (snd e))
                          (built registry s (strings_of (v :: rest)))) res)).
    { intros w0 Hn. rewrite RunFacts.bind_logging, IH.
      destruct v; try reflexivity. now elim (Hn s0). }
    destruct v as [| | | |name| |]; try (apply Hskip; discriminate).
    cbn [strings_of flat_map app built].
    fold (strings_of rest). fold (built registry s (strings_of rest)).
    destruct (PyDict.get registry name) as [build|] eqn:G.
    + destruct (build s) as [diagnostics entry] eqn:B.
      rewrite bind_run. unfold modify. rewrite IH.
      cbn [map app fold_left fst snd]. now rewrite <- app_assoc.
    + rewrite RunFacts.bind_logging, IH. reflexivity.
Qed.

Lemma resolve_loop_unhashable pre bad post :
  Forall (fun v => hashable v = true) pre ->
  hashable bad = false ->
  forall tools res w,
    fst (resolve_loop registry s (pre ++ bad :: post) tools res w)
    = Raise (TypeError ("unhashable type: '" ++ type_name bad ++ "'")).
Proof.
  intros Hpre Hbad.
  induction Hpre as [|v rest Hv _ IH]; intros tools res w.
  - cbn [app resolve_loop]. rewrite RunFacts.bind_lift.
    now rewrite (registry_get_unhashable bad Hbad).
  - cbn [app resolve_loop]. rewrite RunFacts.bind_lift.
    rewrite (registry_get_hashable v Hv).
    destruct (match v with JStr name => PyDict.get registry name | _ => None end)
      as [build|].
    + destruct (build s) as [diagnostics entry].
      rewrite bind_run. unfold modify. apply IH.
    + rewrite RunFacts.bind_logging. apply IH.
Qed.

End Facts.
End ItemFacts.

(** X15: items of the [tools] list that are not strings.  A number, a
    boolean or [null] is never a registered name: it is skipped like an
    unknown name, and the result is that of the string items alone.  A
    nested list or object cannot be looked up at all: the first one makes
    [resolve_tools] raise [TypeError], whatever was resolved before
    it. *)
Theorem non_string_tool_names
    (P : Platform) (items : list json) (w : World)
    (s : instance Settings) (w1 : World) :
  settings.get_settings P w = (Ok s, w1) ->
  (Forall (fun v => hashable v = true) items ->
   fst (tools_registry.resolve_tools P (JArr items) w)
   = Ok (map (fun e => tools_registry.tool_def (snd e))
           (tools_registry.built tools_registry.TOOL_REGISTRY (obj_val s)
              (strings_of items)),
         fold_left tools_registry.merge_resources
           (tools_registry.fragments tools_registry.TOOL_REGISTRY (obj_val s)
              (strings_of items)) []))
  /\ (forall pre bad post,
        items = pre ++ bad :: post ->
        Forall (fun v => hashable v = true) pre ->
        hashable bad = false ->
        fst (tools_registry.resolve_tools P (JArr items) w)
        = Raise (TypeError ("unhashable type: '" ++ type_name bad ++ "'"))).
Proof.
  intros Hs.
  assert (Hrun : tools_registry.resolve_tools P (JArr items) w
                 = tools_registry.resolve_loop tools_registry.TOOL_REGISTRY
                     (obj_val s) items [] [] w1).
  { unfold tools_registry.resolve_tools, tools_registry.resolve_tools_in.
    rewrite bind_run, Hs, RunFacts.bind_lift. reflexivity. }
  rewrite Hrun. split.
  - intros Hall.
    now rewrite (ItemFacts.resolve_loop_hashable _ _ items Hall).
  - intros pre bad post -> Hpre Hbad.
    now apply ItemFacts.resolve_loop_unhashable.
Qed.

Lemma non_string_tool_names_witness :
  fst (tools_registry.resolve_tools Cases.platform
         (JArr [JInt 7; JStr "code_interpreter"; JNull]) fresh_world)
  = Ok ([JObj [("type", JStr "code_interpreter")]], [])
  /\ fst (tools_registry.resolve_tools Cases.platform
            (JArr [JStr "code_interpreter"; JArr [JStr "ai_search"]])
            fresh_world)
     = Raise (TypeError "unhashable type: 'list'").
Proof.
  destruct (settings.get_settings Cases.platform fresh_world)
    as [[s|e] w1] eqn:Hs; [|vm_compute in Hs; discriminate].
  split.
  - destruct (non_string_tool_names Cases.platform
                [JInt 7; JStr "code_interpreter"; JNull] fresh_world s w1 Hs)
      as [H _].
    rewrite H; [reflexivity|]. repeat constructor.
  - destruct (non_string_tool_names Cases.platform
                [JStr "code_interpreter"; JArr [JStr "ai_search"]]
                fresh_world s w1 Hs)
      as [_ H].
    apply (H [JStr "code_interpreter"] (JArr [JStr "ai_search"]) []);
      [reflexivity | repeat constructor | reflexivity].
Defined.

Module SubmitFacts.
Import submit_agent_request.

Lemma get_prompt_string name :
  agent_prompts.get_prompt (JStr name) = Ok (prompt_for name).
Proof.
  unfold agent_prompts.get_prompt, prompt_for, tools_registry.registry_get.
  change (subscript agent_prompts.AGENT_PROMPTS "default")
    with (Ok (A := string)
            "You are a helpful AI assistant powered by Azure AI Foundry.").
  cbv beta iota. reflexivity.
Qed.

(** The instructions that a submission ends up with. *)
Lemma submitted_instructions (instructions : option string) name :
  instructions_or_prompt
    (match instructions with
     | Some text => if String.eqb text "" then JNull else JStr text
     | None => JNull
     end) (JStr name)
  = Ok (JStr (match instructions with
              | Some text => if String.eqb text "" then prompt_for name
                             else text
              | None => prompt_for name
              end)).
Proof.
  unfold instructions_or_prompt.
  destruct instructions as [text|]; cbn [truthy];
    [destruct (String.eqb text "") eqn:E; cbn [truthy negb]; rewrite ?E;
     cbn [negb]|];
    rewrite ?get_prompt_string; reflexivity.
Qed.

(** The fields of a message in the new format, as the handlers read
    them. *)
Lemma new_message_fields agent_name model instructions tools
    mcp_endpoint models :
  exists fields,
    message agent_name model instructions tools mcp_endpoint models false
    = JObj fields
    /\ (forall d, PyDict.get_default fields "agent_name" d = JStr agent_name)
    /\ (forall d, PyDict.get_default fields "agentName" d = d)
    /\ (forall d, PyDict.get_default fields "model" d = JStr model)
    /\ PyDict.get_default fields "instructions" JNull
       = match instructions with
         | Some text => if String.eqb text "" then JNull else JStr text
         | None => JNull
         end
    /\ PyDict.get_default fields "tools" (JArr []) = JArr (or_nil tools).
Proof.
  unfold message.
  destruct instructions as [text|]; [destruct (String.eqb text "")|];
    destruct tools as [[|t ts]|];
    (eexists; split; [reflexivity|]; repeat split; reflexivity).
Qed.

(** The fields of a message in the legacy format. *)
Lemma legacy_message_fields agent_name model instructions tools
    mcp_endpoint models :
  exists fields,
    message agent_name model instructions tools mcp_endpoint models true
    = JObj fields
    /\ (forall d, PyDict.get_default fields "agent_name" d = d)
    /\ (forall d, PyDict.get_default fields "agentName" d = JStr agent_name)
    /\ (forall d, PyDict.get_default fields "model" d = d)
    /\ (forall d, PyDict.get_default fields "instructions" d = d)
    /\ (forall d, PyDict.get_default fields "tools" d = d).
Proof.
  unfold message. eexists. split; [reflexivity|]. repeat split; reflexivity.
Qed.

End SubmitFacts.

(** X16: a request submitted in the new format by
    [submit_agent_creation_request] with tool names, once decoded by a
    handler on a platform whose services are available, is served by one
    request with the submitted model, the submitted instructions (the
    prompt of the agent name when none or empty ones were given) and the
    tools resolved from the submitted names.  The handlers differ on an
    empty agent name: [create_agent] keeps it, and
    [agent_creation_processor] names the agent [default-agent]. *)
Theorem submitted_request_is_served
    (P : Platform) (agent_name model : string) (instructions : option string)
    (tools : option (list string)) (mcp_endpoint : option string)
    (models : option (list json)) (w : World) :
  services_available P ->
  let message :=
    submit_agent_request.message agent_name model instructions
      (option_map (map JStr) tools) mcp_endpoint models false in
  let served (run : result unit * World) (name : string) :=
    fst run = Ok tt
    /\ exists s,
        settings_cache (snd run) = Some s
        /\ agent_requests (snd run)
           = agent_requests w ++
             [request_for (obj_val s) name model
                (match instructions with
                 | Some text =>
                     if String.eqb text "" then prompt_for name else text
                 | None => prompt_for name
                 end)
                (submit_agent_request.or_nil tools)] in
  served (src_function_app.create_agent_with P message w) agent_name
  /\ served (function_app.agent_creation_with P message w)
       (if String.eqb agent_name "" then "default-agent" else agent_name).
Proof.
  intros Hav message served. subst message served. cbv beta.
  destruct (SubmitFacts.new_message_fields agent_name model instructions
              (option_map (map JStr) tools) mcp_endpoint models)
    as (fields & -> & Hname & Hlegacy & Hmodel & Hinstr & Htools).
  assert (Hnames : PyDict.get_default fields "tools" (JArr [])
                   = JArr (map JStr (submit_agent_request.or_nil tools))).
  { rewrite Htools. now destruct tools. }
  pose proof (create_agent_with_served P fields
                (submit_agent_request.or_nil tools) w Hav Hnames) as Hsrc.
  pose proof (agent_creation_with_served P fields
                (submit_agent_request.or_nil tools) w Hav Hnames) as Htop.
  cbv zeta in Hsrc, Htop.
  rewrite !Hname, !Hmodel, Hinstr in Hsrc, Htop.
  rewrite Hlegacy in Htop. cbn [truthy] in Htop.
  assert (Htopname :
            (if negb (String.eqb agent_name "")
             then JStr agent_name else JStr "default-agent")
            = JStr (if String.eqb agent_name ""
                    then "default-agent" else agent_name))
    by now destruct (String.eqb agent_name "").
  rewrite Htopname in Htop.
  split.
  - destruct Hsrc as [Hok (s & i & Hs & Hi & Hsent)]; [now right|].
    rewrite SubmitFacts.submitted_instructions in Hi. injection Hi as <-.
    split; [exact Hok|]. exists s. split; [exact Hs | exact Hsent].
  - destruct Htop as [Hok (s & i & Hs & Hi & Hsent)]; [now right|].
    rewrite SubmitFacts.submitted_instructions in Hi. injection Hi as <-.
    split; [exact Hok|]. exists s. split; [exact Hs | exact Hsent].
Qed.

Lemma submitted_request_is_served_witness :
  map arg_name
    (agent_requests
       (snd (src_function_app.create_agent_with Cases.platform
               (submit_agent_request.message "" "gpt-4o" (Some "")
                  (Some [JStr "code_interpreter"]) None None false)
               fresh_world)))
  = [JStr ""]
  /\ map (fun args => (arg_name args, arg_tools args))
       (agent_requests
          (snd (function_app.agent_creation_with Cases.platform
                  (submit_agent_request.message "" "gpt-4o" (Some "")
                     (Some [JStr "code_interpreter"]) None None false)
                  fresh_world)))
     = [(JStr "default-agent", [JObj [("type", JStr "code_interpreter")]])].
Proof.
  assert (Hav : services_available Cases.platform).
  { split; [|split].
    - exists "https://vault.example/", Demo.client. split; reflexivity.
    - intros c n name _. eexists. reflexivity.
    - intros c n args. eexists. reflexivity. }
  destruct (submitted_request_is_served Cases.platform "" "gpt-4o" (Some "")
              (Some ["code_interpreter"]) None None fresh_world Hav)
    as [(_ & s1 & _ & H1) (_ & s2 & _ & H2)].
  cbn [option_map map] in H1, H2.
  split; [rewrite H1 | rewrite H2]; reflexivity.
Defined.

(** X17: a request submitted in the legacy format carries the model
    definitions and the MCP endpoint, and neither handler reads them: on
    a platform whose services are available [agent_creation_processor]
    creates the agent under the submitted name with the model [gpt-4.1],
    the prompt of that name and no tools, and [create_agent] sends the
    default request, whatever was submitted. *)
Theorem legacy_submission_ignores_models
    (P : Platform) (agent_name model : string) (instructions : option string)
    (tools : option (list json)) (mcp_endpoint : option string)
    (models : option (list json)) (w : World) :
  services_available P ->
  let message :=
    submit_agent_request.message agent_name model instructions tools
      mcp_endpoint models true in
  let served (run : result unit * World) (args : create_agent_args) :=
    fst run = Ok tt
    /\ agent_requests (snd run) = agent_requests w ++ [args] in
  served (function_app.agent_creation_with P message w)
    {| arg_model := JStr "gpt-4.1";
       arg_name := JStr agent_name;
       arg_instructions := JStr (prompt_for agent_name);
       arg_tools := [];
       arg_tool_resources := [] |}
  /\ served (src_function_app.create_agent_with P message w) default_request.
Proof.
  intros Hav message served. subst message served. cbv beta.
  destruct (SubmitFacts.legacy_message_fields agent_name model instructions
              tools mcp_endpoint models)
    as (fields & -> & Hname & Hlegacy & Hmodel & Hinstr & Htools).
  pose proof (create_agent_with_served P fields [] w Hav (Htools _))
    as Hsrc.
  pose proof (agent_creation_with_served P fields [] w Hav (Htools _))
    as Htop.
  cbv zeta in Hsrc, Htop.
  rewrite !Hname, !Hmodel, !Hinstr in Hsrc, Htop.
  rewrite Hlegacy in Htop. cbn [truthy] in Htop.
  split.
  - destruct Htop as [Hok (s & i & Hs & Hi & Hsent)]; [now right|].
    change (instructions_or_prompt JNull (JStr agent_name))
      with (instructions_or_prompt
              (match @None string with
               | Some text => if String.eqb text "" then JNull else JStr text
               | None => JNull
               end) (JStr agent_name)) in Hi.
    rewrite SubmitFacts.submitted_instructions in Hi. injection Hi as <-.
    split; [exact Hok | exact Hsent].
  - destruct Hsrc as [Hok (s & i & Hs & Hi & Hsent)]; [now right|].
    change (instructions_or_prompt JNull (JStr "default-agent"))
      with (Ok (JStr "You are a helpful AI assistant powered by Azure AI Foundry."))
      in Hi.
    injection Hi as <-. split; [exact Hok | exact Hsent].
Qed.

Lemma legacy_submission_ignores_models_witness :
  agent_requests
    (snd (function_app.agent_creation_with Cases.platform
            (submit_agent_request.message "doc-bot" "gpt-4.1" None None
               (Some "https://learn.microsoft.com/api/mcp")
               (Some [JObj [("name", JStr "text-embedding-3-small")]])
               true)
            fresh_world))
  = [{| arg_model := JStr "gpt-4.1";
        arg_name := JStr "doc-bot";
        arg_instructions := JStr (prompt_for "doc-bot");
        arg_tools := [];
        arg_tool_resources := [] |}].
Proof.
  assert (Hav : services_available Cases.platform).
  { split; [|split].
    - exists "https://vault.example/", Demo.client. split; reflexivity.
    - intros c n name _. eexists. reflexivity.
    - intros c n args. eexists. reflexivity. }
  destruct (legacy_submission_ignores_models Cases.platform "doc-bot"
              "gpt-4.1" None None
              (Some "https://learn.microsoft.com/api/mcp")
              (Some [JObj [("name", JStr "text-embedding-3-small")]])
              fresh_world Hav)
    as [(_ & H) _].
  rewrite H. reflexivity.
Defined.

(* ================================================================= *)
(** ** The request/response handler *)

Module QueueFacts.
Import sk_agent.
Section Facts.
Variable QP : QueuePlatform.

Lemma qbind_run {A B} (c : Q A) (k : A -> Q B) p :
  qbind c k p
  = match c p with
    | (Returns a, p') => k a p'
    | (Raises e, p') => (Raises e, p')
    end.
Proof. reflexivity. Qed.

Lemma logged_logged l l' p : logged l' (logged l p) = logged (l ++ l') p.
Proof.
  unfold logged, set_world. destruct p as [w n q]. destruct w. cbn.
  now rewrite app_assoc.
Qed.

Lemma qbind_qlogging {B} lvl msg args (k : unit -> Q B) p :
  qbind (qlogging lvl msg args) k p
  = k tt (logged [LogRecord lvl msg args] p).
Proof. reflexivity. Qed.

Lemma qlogging_run lvl msg args p :
  qlogging lvl msg args p = (Returns tt, logged [LogRecord lvl msg args] p).
Proof. reflexivity. Qed.

Lemma set_world_same p : set_world (world p) p = p.
Proof. now destruct p. Qed.

Lemma qbind_qlift {A B} (r : result A) (k : A -> Q B) p :
  qbind (qlift r) k p
  = match r with Ok a => k a p | Raise e => (Raises (Std e), p) end.
Proof.
  unfold qbind, qlift, run_M, lift. destruct r; now rewrite set_world_same.
Qed.

(** The handler, once the body is decoded. *)
Lemma sk_agent_processor_decoded msg text request_data p :
  bytes_decode (host QP) (get_body msg) = Ok text ->
  json_loads (host QP) text = Ok request_data ->
  sk_agent_processor QP msg p
  = qtry (sk_agent_with QP request_data) sk_on_exception
      (logged [LogRecord INFO "SK Agent: Processing request from queue" [];
               LogRecord INFO "Request message: {message_body}" [AStr text]]
         p).
Proof.
  intros Hd Hl. unfold sk_agent_processor.
  rewrite qbind_qlogging. unfold qtry.
  rewrite qbind_qlift. cbn [host logged set_world world]. 
  rewrite Hd, qbind_qlogging, qbind_qlift, Hl, logged_logged. reflexivity.
Qed.

End Facts.
End QueueFacts.

Module RequestFacts.
Import sk_agent.
Section Facts.
Variable QP : QueuePlatform.
Lemma sk_on_exception_run e p :
  sk_on_exception e p
  = (Raises e, logged [LogRecord ERROR (sk_error_message e) [exn_arg e]] p).
Proof.
  unfold sk_on_exception, sk_error_message.
  destruct (pyexn_is_JSONDecodeError e);
    [|destruct (pyexn_is_ValueError e)]; reflexivity.
Qed.

(** A request object that lacks a field. *)
Lemma missing_fields_object fields :
  missing_fields (JObj fields)
  = Ok (negb (PyDict.mem "requestId" fields)
        || negb (PyDict.mem "query" fields)).
Proof.
  unfold missing_fields, py_contains.
  destruct (PyDict.mem "requestId" fields); reflexivity.
Qed.

(** The handler body on an object with both fields, up to the response:
    what remains is to send it. *)
Lemma sk_agent_with_complete fields request_id query p :
  PyDict.get fields "requestId" = Some request_id ->
  PyDict.get fields "query" = Some query ->
  let requester := PyDict.get_default fields "requester" (JStr "unknown") in
  sk_agent_with QP (JObj fields) p
  = qbind
      (send_response_to_queue QP
         (response QP request_id query requester
            (PrimFloat.sub (time_time QP (S (clock_reads p)))
               (time_time QP (clock_reads p))))
         (PyDict.get_default (environ (host QP))
            "SK_AGENT_RESPONSE_QUEUE_NAME" "sk-agent-response-queue"))
      (fun _ =>
         qlogging INFO
           "Successfully processed request {request_id} and sent response"
           [AJson request_id])
      (set_clock_reads (S (S (clock_reads p)))
         (logged
            [LogRecord INFO
               "Processing request {request_id} from {requester}: {query}"
               [AJson request_id; AJson requester; AJson query]] p)).
Proof.
  intros Hid Hq requester. unfold sk_agent_with.
  rewrite QueueFacts.qbind_qlift, missing_fields_object.
  unfold PyDict.mem. rewrite Hid, Hq. cbn [negb orb].
  rewrite QueueFacts.qbind_qlift. unfold py_getitem, subscript.
  rewrite Hid, QueueFacts.qbind_qlift, Hq, QueueFacts.qbind_qlift.
  cbn [config_get]. rewrite QueueFacts.qbind_qlogging.
  reflexivity.
Qed.

(** Sending the response, once the client is built. *)
Lemma send_response_to_queue_run response_data name account p :
  storage_account_name QP = Returns account ->
  queue_client_init QP (account_url_of account) name DefaultAzureCredential
  = Ok tt ->
  let request :=
    {| account_url := account_url_of account;
       queue_name := name;
       content := json_dumps QP (JObj response_data) |} in
  send_response_to_queue QP response_data name p
  = match queue_send_message QP (length (queue_requests p)) request with
    | Ok _ =>
        (Returns tt,
         logged
           [LogRecord INFO
              ("Response sent to queue {queue_name}: requestId={response_data.get("
               ++ dquote ++ "requestId" ++ dquote ++ ")}")
              [AStr name;
               AJson (PyDict.get_default response_data "requestId" JNull)]]
           (set_queue_requests (queue_requests p ++ [request]) p))
    | Raise e =>
        (Raises (Std e),
         logged
           [LogRecord ERROR "Error sending response to queue: {e}" [AExn e]]
           (set_queue_requests (queue_requests p ++ [request]) p))
    end.
Proof.
  intros Hacc Hinit request. unfold send_response_to_queue, qtry.
  rewrite QueueFacts.qbind_run, Hacc. cbv zeta.
  rewrite QueueFacts.qbind_qlift, Hinit, QueueFacts.qbind_run.
  unfold send_message. fold request.
  destruct (queue_send_message QP (length (queue_requests p)) request)
    as [u|e]; reflexivity.
Qed.

(** The constructor of the client rejects its arguments: nothing is
    sent. *)
Lemma send_response_to_queue_rejected response_data name account e p :
  storage_account_name QP = Returns account ->
  queue_client_init QP (account_url_of account) name DefaultAzureCredential
  = Raise e ->
  send_response_to_queue QP response_data name p
  = (Raises (Std e),
     logged
       [LogRecord ERROR "Error sending response to queue: {e}" [AExn e]]
       p).
Proof.
  intros Hacc Hinit. unfold send_response_to_queue, qtry.
  rewrite QueueFacts.qbind_run, Hacc. cbv zeta.
  rewrite QueueFacts.qbind_qlift, Hinit. reflexivity.
Qed.

Lemma send_response_to_queue_unresolved response_data name e p :
  storage_account_name QP = Raises e ->
  send_response_to_queue QP response_data name p
  = (Raises e,
     logged
       [LogRecord ERROR "Error sending response to queue: {e}" [exn_arg e]]
       p).
Proof.
  intros Hacc. unfold send_response_to_queue, qtry.
  rewrite QueueFacts.qbind_run, Hacc. reflexivity.
Qed.

End Facts.
End RequestFacts.

(** X18: a request object without [requestId] or without [query] is
    rejected before anything else happens: [sk_agent_processor] raises
    the [ValueError] that names the two fields, logs it once as a
    validation error, reads no clock and sends no response. *)
Theorem sk_request_needs_both_fields
    (QP : QueuePlatform) (msg : QueueMessage) (text : string)
    (fields : dict json) (p : Process) :
  bytes_decode (host QP) (get_body msg) = Ok text ->
  json_loads (host QP) text = Ok (JObj fields) ->
  PyDict.mem "requestId" fields = false \/ PyDict.mem "query" fields = false ->
  sk_agent.sk_agent_processor QP msg p
  = (Raises (Std (ValueError
                    "Missing required fields: requestId and/or query")),
     logged
       [LogRecord INFO "SK Agent: Processing request from queue" [];
        LogRecord INFO "Request message: {message_body}" [AStr text];
        LogRecord ERROR "Validation error: {e}"
          [AExn (ValueError
                   "Missing required fields: requestId and/or query")]]
       p).
Proof.
  intros Hd Hl Hmissing.
  rewrite (QueueFacts.sk_agent_processor_decoded QP msg text _ p Hd Hl).
  unfold qtry, sk_agent.sk_agent_with.
  rewrite QueueFacts.qbind_qlift, RequestFacts.missing_fields_object.
  assert (Hm : negb (PyDict.mem "requestId" fields)
               || negb (PyDict.mem "query" fields) = true).
  { destruct Hmissing as [-> | ->]; [reflexivity|].
    now destruct (PyDict.mem "requestId" fields). }
  rewrite Hm. unfold qraise.
  rewrite RequestFacts.sk_on_exception_run, QueueFacts.logged_logged.
  reflexivity.
Qed.

Lemma sk_request_needs_both_fields_witness :
  fst (sk_agent.sk_agent_processor QueueCases.platform
         {| get_body := QueueCases.incomplete_text |} fresh_process)
  = Raises (Std (ValueError
                   "Missing required fields: requestId and/or query"))
  /\ queue_requests
       (snd (sk_agent.sk_agent_processor QueueCases.platform
               {| get_body := QueueCases.incomplete_text |} fresh_process))
     = [].
Proof.
  rewrite (sk_request_needs_both_fields QueueCases.platform
             {| get_body := QueueCases.incomplete_text |}
             QueueCases.incomplete_text [("query", JInt 42)] fresh_process
             eq_refl eq_refl (or_introl eq_refl)).
  split; reflexivity.
Defined.

(** X19: a request object with [requestId] and [query] is answered when
    the storage account is determined, the constructor of the queue
    client accepts the account URL and the queue name, and the queue
    service accepts the message: the handler returns after
    exactly two clock readings and one message to the response queue,
    whose name is that of [SK_AGENT_RESPONSE_QUEUE_NAME] or
    [sk-agent-response-queue]; the message is the serialised response,
    which echoes [requestId] and [query] unchanged, names the requester
    ([unknown] when the request has none) and reports the difference of
    the two readings as the processing time. *)
Theorem sk_response_echoes_request
    (QP : QueuePlatform) (msg : QueueMessage) (text : string)
    (fields : dict json) (request_id query : json) (account : option string)
    (p : Process) :
  bytes_decode (host QP) (get_body msg) = Ok text ->
  json_loads (host QP) text = Ok (JObj fields) ->
  PyDict.get fields "requestId" = Some request_id ->
  PyDict.get fields "query" = Some query ->
  sk_agent.storage_account_name QP = Returns account ->
  let request :=
    response_request QP account request_id query
      (PyDict.get_default fields "requester" (JStr "unknown"))
      (clock_reads p) in
  queue_client_init QP (account_url request) (queue_name request)
    DefaultAzureCredential = Ok tt ->
  queue_send_message QP (length (queue_requests p)) request = Ok tt ->
  let run := sk_agent.sk_agent_processor QP msg p in
  fst run = Returns tt
  /\ queue_requests (snd run) = queue_requests p ++ [request]
  /\ clock_reads (snd run) = clock_reads p + 2
  /\ Forall (fun r => log_level r = INFO)
       (skipn (length (log (world p))) (log (world (snd run)))).
Proof.
  intros Hd Hl Hid Hq Hacc request Hinit Hsend run. subst run.
  rewrite (QueueFacts.sk_agent_processor_decoded QP msg text _ p Hd Hl).
  unfold qtry.
  rewrite (RequestFacts.sk_agent_with_complete QP fields request_id query _
             Hid Hq).
  rewrite QueueFacts.qbind_run.
  assert (Hinit' : queue_client_init QP (sk_agent.account_url_of account)
                     (PyDict.get_default (environ (host QP))
                        "SK_AGENT_RESPONSE_QUEUE_NAME"
                        "sk-agent-response-queue")
                     DefaultAzureCredential = Ok tt) by exact Hinit.
  rewrite (RequestFacts.send_response_to_queue_run QP _ _ account _ Hacc
             Hinit').
  cbn [queue_requests set_clock_reads logged set_world clock_reads].
  unfold response_request in request. fold request. rewrite Hsend.
  rewrite QueueFacts.qlogging_run.
  cbn [fst snd]. split; [reflexivity|]. split; [reflexivity|].
  split; [cbn; lia|].
  destruct p as [w n q]. destruct w. cbn.
  rewrite <- !app_assoc, skipn_app, skipn_all, Nat.sub_diag. cbn.
  repeat constructor.
Qed.

Lemma sk_response_echoes_request_witness :
  fst (sk_agent.sk_agent_processor QueueCases.platform
         {| get_body := QueueCases.request_text |} fresh_process)
  = Returns tt
  /\ queue_requests
       (snd (sk_agent.sk_agent_processor QueueCases.platform
               {| get_body := QueueCases.request_text |} fresh_process))
     = [{| account_url := "https://blsstore.queue.core.windows.net";
           queue_name := "sk-agent-response-queue";
           content := "response to 7" |}].
Proof.
  destruct (sk_response_echoes_request QueueCases.platform
              {| get_body := QueueCases.request_text |}
              QueueCases.request_text
              [("requestId", JInt 7); ("query", JInt 42)]
              (JInt 7) (JInt 42) (Some "blsstore") fresh_process
              eq_refl eq_refl eq_refl eq_refl eq_refl eq_refl eq_refl)
    as (Hok & Hsent & _).
  split; [exact Hok|]. rewrite Hsent. vm_compute. reflexivity.
Defined.

Module SplitFacts.
Import Ascii.

Lemma append_assoc (a b c : string) :
  ((a ++ b) ++ c = a ++ (b ++ c))%string.
Proof. induction a as [|x a IH]; cbn; [reflexivity | now rewrite IH]. Qed.

Lemma append_empty_r (a : string) : (a ++ "" = a)%string.
Proof. induction a as [|x a IH]; cbn; [reflexivity | now rewrite IH]. Qed.

(** A string without the separator is its own single piece. *)
Lemma split_without sep s : forall current,
  str_contains sep s = false ->
  split_from sep 0 current s = [(current ++ s)%string].
Proof.
  induction s as [|c rest IH]; intros current H.
  - cbn. now rewrite append_empty_r.
  - cbn [str_contains] in H. apply Bool.orb_false_iff in H as [Hp Hr].
    cbn [split_from]. rewrite Hp, (IH _ Hr), append_assoc. reflexivity.
Qed.

(** A character that does not occur is never the start of a separator. *)
Lemma contains_character ch c rest :
  str_contains (String ch EmptyString) (String c rest) = false ->
  ch <> c /\ str_contains (String ch EmptyString) rest = false.
Proof.
  cbn [str_contains String.prefix]. intros H.
  apply Bool.orb_false_iff in H as [Hp Hr]. split; [|exact Hr].
  intros ->. destruct (Ascii.ascii_dec c c) as [_|N]; [|now elim N].
  now destruct rest.
Qed.

(** Pieces are not cut inside a part that lacks the first character of
    the separator. *)
Lemma split_through ch sep x tail : forall current,
  str_contains (String ch EmptyString) x = false ->
  split_from (String ch sep) 0 current (x ++ tail)
  = split_from (String ch sep) 0 (current ++ x) tail.
Proof.
  induction x as [|c rest IH]; intros current H.
  - cbn. now rewrite append_empty_r.
  - apply contains_character in H as [Hc Hr].
    cbn [String.append split_from String.prefix].
    destruct (Ascii.ascii_dec ch c) as [E|_]; [now elim Hc|].
    rewrite (IH _ Hr), append_assoc. reflexivity.
Qed.

Lemma prefix_empty s : String.prefix "" s = true.
Proof. now destruct s. Qed.

Lemma prefix_same c s1 s2 :
  String.prefix (String c s1) (String c s2) = String.prefix s1 s2.
Proof.
  cbn [String.prefix].
  destruct (ascii_dec c c) as [_|N]; [reflexivity | now elim N].
Qed.

(** At an occurrence of the separator a piece ends. *)
Lemma split_at_separator sep c rest current :
  String.prefix sep (String c rest) = true ->
  split_from sep 0 current (String c rest)
  = current :: split_from sep (String.length sep - 1) EmptyString rest.
Proof. intros H. cbn [split_from]. now rewrite H. Qed.

Lemma split_skip sep k c rest current :
  split_from sep (S k) current (String c rest)
  = split_from sep k current rest.
Proof. reflexivity. Qed.

(** The account of a queue service URI. *)
Lemma account_of_uri account :
  str_contains "/" account = false ->
  str_contains "." account = false ->
  exists rest,
    nth_error
      (py_split ("https://" ++ account ++ ".queue.core.windows.net") "//") 1
    = Some rest
    /\ hd "" (py_split rest ".") = account.
Proof.
  intros Hslash Hdot. exists (account ++ ".queue.core.windows.net")%string.
  split.
  - unfold py_split.
    change ("https://" ++ account ++ ".queue.core.windows.net")%string
      with ("https:" ++ String "/"%char (String "/"%char
              (account ++ ".queue.core.windows.net")))%string.
    rewrite (split_through "/"%char "/" "https:" _ "" eq_refl).
    rewrite split_at_separator
      by now rewrite !prefix_same, prefix_empty.
    change (String.length "//" - 1) with 1.
    rewrite split_skip.
    rewrite (split_through "/"%char "/" account _ "" Hslash).
    rewrite (split_without "//" ".queue.core.windows.net" _ eq_refl).
    reflexivity.
  - unfold py_split.
    rewrite (split_through "."%char "" account _ "" Hdot).
    change ".queue.core.windows.net"
      with (String "."%char "queue.core.windows.net").
    rewrite split_at_separator by reflexivity.
    reflexivity.
Qed.

End SplitFacts.

(** X20: when the account name variable is unset or empty, the account
    is recovered from the URI of the queue service: for an account name
    without [/] and [.], the URI
    [https://<account>.queue.core.windows.net] yields that account, so
    the responses go to the very URI that was configured. *)
Theorem queue_service_uri_round_trip
    (QP : QueuePlatform) (account : string) :
  PyDict.get (environ (host QP)) "AGENT_STORAGE_ACCOUNT__accountname" = None
  \/ PyDict.get (environ (host QP)) "AGENT_STORAGE_ACCOUNT__accountname"
     = Some "" ->
  PyDict.get (environ (host QP)) "AGENT_STORAGE_ACCOUNT__queueServiceUri"
  = Some ("https://" ++ account ++ ".queue.core.windows.net")%string ->
  str_contains "/" account = false ->
  str_contains "." account = false ->
  sk_agent.storage_account_name QP = Returns (Some account)
  /\ PyDict.get (environ (host QP)) "AGENT_STORAGE_ACCOUNT__queueServiceUri"
     = Some (sk_agent.account_url_of (Some account)).
Proof.
  intros Hname Huri Hslash Hdot. split; [|exact Huri].
  unfold sk_agent.storage_account_name, PyDict.get_default.
  rewrite Huri.
  destruct (SplitFacts.account_of_uri account Hslash Hdot)
    as (rest & Hrest & Hhd).
  rewrite Hrest, Hhd.
  destruct Hname as [-> | ->]; reflexivity.
Qed.

Lemma queue_service_uri_round_trip_witness :
  sk_agent.storage_account_name QueueCases.platform
  = Returns (Some "blsstore").
Proof.
  exact (proj1 (queue_service_uri_round_trip QueueCases.platform "blsstore"
                  (or_introl eq_refl) eq_refl eq_refl eq_refl)).
Defined.

Module ResponseFacts.
Import sk_agent.
Section Facts.
Variable QP : QueuePlatform.

Lemma log_logged records p :
  log (world (logged records p)) = log (world p) ++ records.
Proof. destruct p as [w n q]. now destruct w. Qed.

Lemma queue_requests_logged records p :
  queue_requests (logged records p) = queue_requests p.
Proof. reflexivity. Qed.

Lemma clock_reads_logged records p :
  clock_reads (logged records p) = clock_reads p.
Proof. reflexivity. Qed.

(** The handler on a request object with both fields, up to the answer
    of the queue service. *)
Lemma complete_request_run msg text fields request_id query account p :
  bytes_decode (host QP) (get_body msg) = Ok text ->
  json_loads (host QP) text = Ok (JObj fields) ->
  PyDict.get fields "requestId" = Some request_id ->
  PyDict.get fields "query" = Some query ->
  storage_account_name QP = Returns account ->
  let requester := PyDict.get_default fields "requester" (JStr "unknown") in
  let request :=
    response_request QP account request_id query requester (clock_reads p) in
  queue_client_init QP (account_url request) (queue_name request)
    DefaultAzureCredential = Ok tt ->
  let received :=
    [LogRecord INFO "SK Agent: Processing request from queue" [];
     LogRecord INFO "Request message: {message_body}" [AStr text];
     LogRecord INFO
       "Processing request {request_id} from {requester}: {query}"
       [AJson request_id; AJson requester; AJson query]] in
  let run := sk_agent_processor QP msg p in
  queue_requests (snd run) = queue_requests p ++ [request]
  /\ clock_reads (snd run) = clock_reads p + 2
  /\ match queue_send_message QP (length (queue_requests p)) request with
     | Ok _ =>
         fst run = Returns tt
         /\ log (world (snd run))
            = log (world p) ++ received ++
              [LogRecord INFO
                 ("Response sent to queue {queue_name}: requestId={response_data.get("
                  ++ dquote ++ "requestId" ++ dquote ++ ")}")%string
                 [AStr (queue_name request); AJson request_id];
               LogRecord INFO
                 "Successfully processed request {request_id} and sent response"
                 [AJson request_id]]
     | Raise e =>
         fst run = Raises (Std e)
         /\ log (world (snd run))
            = log (world p) ++ received ++
              [LogRecord ERROR "Error sending response to queue: {e}"
                 [AExn e];
               LogRecord ERROR (sk_error_message (Std e)) [AExn e]]
     end.
Proof.
  intros Hd Hl Hid Hq Hacc requester request Hinit received run. subst run.
  rewrite (QueueFacts.sk_agent_processor_decoded QP msg text _ p Hd Hl).
  unfold qtry.
  rewrite (RequestFacts.sk_agent_with_complete QP fields request_id query _
             Hid Hq).
  rewrite QueueFacts.qbind_run.
  assert (Hinit' : queue_client_init QP (account_url_of account)
                     (PyDict.get_default (environ (host QP))
                        "SK_AGENT_RESPONSE_QUEUE_NAME"
                        "sk-agent-response-queue")
                     DefaultAzureCredential = Ok tt) by exact Hinit.
  rewrite (RequestFacts.send_response_to_queue_run QP _ _ account _ Hacc
             Hinit').
  cbn [queue_requests set_clock_reads logged set_world clock_reads].
  unfold response_request in request. fold requester. fold request.
  destruct (queue_send_message QP (length (queue_requests p)) request)
    as [u|e].
  - rewrite QueueFacts.qlogging_run. cbn [fst snd].
    split; [reflexivity|]. split; [cbn; lia|]. split; [reflexivity|].
    destruct p as [w n q]. destruct w. cbn. now rewrite <- !app_assoc.
  - rewrite RequestFacts.sk_on_exception_run. cbn [fst snd].
    split; [reflexivity|]. split; [cbn; lia|]. split; [reflexivity|].
    destruct p as [w n q]. destruct w. cbn. now rewrite <- !app_assoc.
Qed.

(** The same request when the account cannot be determined. *)
Lemma unresolved_account_run msg text fields request_id query e p :
  bytes_decode (host QP) (get_body msg) = Ok text ->
  json_loads (host QP) text = Ok (JObj fields) ->
  PyDict.get fields "requestId" = Some request_id ->
  PyDict.get fields "query" = Some query ->
  storage_account_name QP = Raises e ->
  let requester := PyDict.get_default fields "requester" (JStr "unknown") in
  let run := sk_agent_processor QP msg p in
  fst run = Raises e
  /\ queue_requests (snd run) = queue_requests p
  /\ clock_reads (snd run) = clock_reads p + 2
  /\ log (world (snd run))
     = log (world p) ++
       [LogRecord INFO "SK Agent: Processing request from queue" [];
        LogRecord INFO "Request message: {message_body}" [AStr text];
        LogRecord INFO
          "Processing request {request_id} from {requester}: {query}"
          [AJson request_id; AJson requester; AJson query];
        LogRecord ERROR "Error sending response to queue: {e}" [exn_arg e];
        LogRecord ERROR (sk_error_message e) [exn_arg e]].
Proof.
  intros Hd Hl Hid Hq Hacc requester run. subst run.
  rewrite (QueueFacts.sk_agent_processor_decoded QP msg text _ p Hd Hl).
  unfold qtry.
  rewrite (RequestFacts.sk_agent_with_complete QP fields request_id query _
             Hid Hq).
  rewrite QueueFacts.qbind_run.
  rewrite (RequestFacts.send_response_to_queue_unresolved QP _ _ e _ Hacc).
  rewrite RequestFacts.sk_on_exception_run. cbn [fst snd].
  split; [reflexivity|]. split; [reflexivity|]. split; [cbn; lia|].
  fold requester. destruct p as [w n q]. destruct w. cbn.
  now rewrite <- !app_assoc.
Qed.

End Facts.
End ResponseFacts.

(** X21: when the client for the response queue has been built and the
    queue service fails the message, the failure is logged twice and
    raised: [send_response_to_queue] logs it and raises
    it again, and [sk_agent_processor] logs it under the clause that
    matches it and raises it again.  The request has been sent once and
    no success is logged. *)
Theorem sk_send_failure_is_logged_twice
    (QP : QueuePlatform) (msg : QueueMessage) (text : string)
    (fields : dict json) (request_id query : json) (account : option string)
    (e : exn) (p : Process) :
  bytes_decode (host QP) (get_body msg) = Ok text ->
  json_loads (host QP) text = Ok (JObj fields) ->
  PyDict.get fields "requestId" = Some request_id ->
  PyDict.get fields "query" = Some query ->
  sk_agent.storage_account_name QP = Returns account ->
  let requester := PyDict.get_default fields "requester" (JStr "unknown") in
  let request :=
    response_request QP account request_id query requester (clock_reads p) in
  queue_client_init QP (account_url request) (queue_name request)
    DefaultAzureCredential = Ok tt ->
  queue_send_message QP (length (queue_requests p)) request = Raise e ->
  let run := sk_agent.sk_agent_processor QP msg p in
  fst run = Raises (Std e)
  /\ queue_requests (snd run) = queue_requests p ++ [request]
  /\ log (world (snd run))
     = log (world p) ++
       [LogRecord INFO "SK Agent: Processing request from queue" [];
        LogRecord INFO "Request message: {message_body}" [AStr text];
        LogRecord INFO
          "Processing request {request_id} from {requester}: {query}"
          [AJson request_id; AJson requester; AJson query];
        LogRecord ERROR "Error sending response to queue: {e}" [AExn e];
        LogRecord ERROR (sk_error_message (Std e)) [AExn e]].
Proof.
  intros Hd Hl Hid Hq Hacc requester request Hinit Hsend run.
  destruct (ResponseFacts.complete_request_run QP msg text fields request_id
              query account p Hd Hl Hid Hq Hacc Hinit)
    as (Hsent & _ & Hrun).
  fold requester in Hsent, Hrun. fold request in Hsent, Hrun.
  rewrite Hsend in Hrun. destruct Hrun as [Hraised Hlog].
  split; [exact Hraised|]. split; [exact Hsent | exact Hlog].
Qed.

Lemma sk_send_failure_is_logged_twice_witness :
  fst (sk_agent.sk_agent_processor QueueCases.queue_down
         {| get_body := QueueCases.request_text |} fresh_process)
  = Raises (Std (ServiceRequestError "connection refused"))
  /\ map log_msg
       (filter is_error
          (log (world
                  (snd (sk_agent.sk_agent_processor QueueCases.queue_down
                          {| get_body := QueueCases.request_text |}
                          fresh_process)))))
     = ["Error sending response to queue: {e}";
        "Error processing SK agent request: {e}"].
Proof.
  destruct (sk_send_failure_is_logged_twice QueueCases.queue_down
              {| get_body := QueueCases.request_text |}
              QueueCases.request_text
              [("requestId", JInt 7); ("query", JInt 42)]
              (JInt 7) (JInt 42) (Some "blsstore")
              (ServiceRequestError "connection refused") fresh_process
              eq_refl eq_refl eq_refl eq_refl eq_refl eq_refl eq_refl)
    as (Hraised & _ & Hlog).
  split; [exact Hraised|]. rewrite Hlog. reflexivity.
Defined.

(** X22: a queue service URI without [//] (a host name without its
    scheme) cannot be taken apart when the account name variable does
    not help: every complete request then fails with [IndexError] after
    its two clock readings, the error is logged twice, and nothing is
    sent to the queue service. *)
Theorem uri_without_scheme_fails_requests
    (QP : QueuePlatform) (uri : string) (msg : QueueMessage) (text : string)
    (fields : dict json) (request_id query : json) (p : Process) :
  PyDict.get (environ (host QP)) "AGENT_STORAGE_ACCOUNT__accountname" = None
  \/ PyDict.get (environ (host QP)) "AGENT_STORAGE_ACCOUNT__accountname"
     = Some "" ->
  PyDict.get (environ (host QP)) "AGENT_STORAGE_ACCOUNT__queueServiceUri"
  = Some uri ->
  uri <> "" ->
  str_contains "//" uri = false ->
  bytes_decode (host QP) (get_body msg) = Ok text ->
  json_loads (host QP) text = Ok (JObj fields) ->
  PyDict.get fields "requestId" = Some request_id ->
  PyDict.get fields "query" = Some query ->
  let run := sk_agent.sk_agent_processor QP msg p in
  fst run = Raises (IndexError "list index out of range")
  /\ queue_requests (snd run) = queue_requests p
  /\ map log_msg
       (filter is_error
          (skipn (length (log (world p))) (log (world (snd run)))))
     = ["Error sending response to queue: {e}";
        "Error processing SK agent request: {e}"].
Proof.
  intros Hname Huri Hne Hno Hd Hl Hid Hq run.
  assert (Hacc : sk_agent.storage_account_name QP
                 = Raises (IndexError "list index out of range")).
  { unfold sk_agent.storage_account_name, PyDict.get_default.
    rewrite Huri. apply String.eqb_neq in Hne. rewrite Hne. cbn [negb].
    unfold py_split. rewrite (SplitFacts.split_without "//" uri "" Hno).
    cbn [nth_error]. destruct Hname as [-> | ->]; reflexivity. }
  destruct (ResponseFacts.unresolved_account_run QP msg text fields
              request_id query _ p Hd Hl Hid Hq Hacc)
    as (Hraised & Hsent & _ & Hlog).
  split; [exact Hraised|]. split; [exact Hsent|].
  fold run in Hlog. rewrite Hlog, skipn_app, skipn_all, Nat.sub_diag.
  reflexivity.
Qed.

Lemma uri_without_scheme_fails_requests_witness :
  fst (sk_agent.sk_agent_processor QueueCases.no_scheme
         {| get_body := QueueCases.request_text |} fresh_process)
  = Raises (IndexError "list index out of range")
  /\ queue_requests
       (snd (sk_agent.sk_agent_processor QueueCases.no_scheme
               {| get_body := QueueCases.request_text |} fresh_process))
     = [].
Proof.
  assert (Hne : "blsstore.queue.core.windows.net" <> "") by discriminate.
  destruct (uri_without_scheme_fails_requests QueueCases.no_scheme
              "blsstore.queue.core.windows.net"
              {| get_body := QueueCases.request_text |}
              QueueCases.request_text
              [("requestId", JInt 7); ("query", JInt 42)]
              (JInt 7) (JInt 42) fresh_process
              (or_introl eq_refl) eq_refl Hne eq_refl eq_refl eq_refl
              eq_refl eq_refl)
    as (Hraised & Hsent & _).
  split; [exact Hraised | exact Hsent].
Defined.

(** X23: the handler does not check that a storage account is
    configured: with the account name variable unset and the queue
    service URI unset or empty, the account URL is formed with [None],
    [https://None.queue.core.windows.net].  When the constructor of the
    queue client accepts that URL and the queue name, a complete request
    is sent there, and the handler returns if the send is accepted; when
    the constructor rejects them, nothing is sent and its exception is
    raised. *)
Theorem unconfigured_account_is_sent_to_None
    (QP : QueuePlatform) (msg : QueueMessage) (text : string)
    (fields : dict json) (request_id query : json) (p : Process) :
  PyDict.get (environ (host QP)) "AGENT_STORAGE_ACCOUNT__accountname"
  = None ->
  PyDict.get (environ (host QP)) "AGENT_STORAGE_ACCOUNT__queueServiceUri"
  = None
  \/ PyDict.get (environ (host QP)) "AGENT_STORAGE_ACCOUNT__queueServiceUri"
     = Some "" ->
  bytes_decode (host QP) (get_body msg) = Ok text ->
  json_loads (host QP) text = Ok (JObj fields) ->
  PyDict.get fields "requestId" = Some request_id ->
  PyDict.get fields "query" = Some query ->
  let run := sk_agent.sk_agent_processor QP msg p in
  let name :=
    PyDict.get_default (environ (host QP)) "SK_AGENT_RESPONSE_QUEUE_NAME"
      "sk-agent-response-queue" in
  match queue_client_init QP "https://None.queue.core.windows.net" name
          DefaultAzureCredential with
  | Ok _ =>
      exists request,
        queue_requests (snd run) = queue_requests p ++ [request]
        /\ account_url request = "https://None.queue.core.windows.net"
        /\ queue_name request = name
        /\ (queue_send_message QP (length (queue_requests p)) request = Ok tt ->
            fst run = Returns tt)
  | Raise e =>
      fst run = Raises (Std e)
      /\ queue_requests (snd run) = queue_requests p
  end.
Proof.
  intros Hname Huri Hd Hl Hid Hq run name.
  assert (Hacc : sk_agent.storage_account_name QP = Returns None).
  { unfold sk_agent.storage_account_name, PyDict.get_default.
    rewrite Hname. destruct Huri as [-> | ->]; reflexivity. }
  destruct (queue_client_init QP "https://None.queue.core.windows.net" name
              DefaultAzureCredential) as [[]|e] eqn:Hinit.
  - destruct (ResponseFacts.complete_request_run QP msg text fields
                request_id query None p Hd Hl Hid Hq Hacc Hinit)
      as (Hsent & _ & Hrun).
    eexists. split; [exact Hsent|]. split; [reflexivity|].
    split; [reflexivity|].
    intros Hsend. rewrite Hsend in Hrun. exact (proj1 Hrun).
  - subst run.
    rewrite (QueueFacts.sk_agent_processor_decoded QP msg text _ p Hd Hl).
    unfold qtry.
    rewrite (RequestFacts.sk_agent_with_complete QP fields request_id query
               _ Hid Hq).
    rewrite QueueFacts.qbind_run.
    rewrite (RequestFacts.send_response_to_queue_rejected QP _ _ None e _
               Hacc Hinit).
    rewrite RequestFacts.sk_on_exception_run. split; reflexivity.
Qed.

Lemma unconfigured_account_is_sent_to_None_witness :
  map account_url
    (queue_requests
       (snd (sk_agent.sk_agent_processor QueueCases.no_account
               {| get_body := QueueCases.request_text |} fresh_process)))
  = ["https://None.queue.core.windows.net"].
Proof.
  destruct (unconfigured_account_is_sent_to_None QueueCases.no_account
              {| get_body := QueueCases.request_text |}
              QueueCases.request_text
              [("requestId", JInt 7); ("query", JInt 42)]
              (JInt 7) (JInt 42) fresh_process
              eq_refl (or_introl eq_refl) eq_refl eq_refl eq_refl eq_refl)
    as (request & Hsent & Hurl & _).
  rewrite Hsent. cbn [queue_requests fresh_process map app].
  now rewrite Hurl.
Defined.

Module OutcomeFacts.
Import sk_agent.
Section Facts.
Variable QP : QueuePlatform.

(** What a run may have done to the queue service when it raised [e]:
    nothing, or one request, the failure of which is [e]. *)
Let failed_with (e : pyexn) (p0 p1 : Process) : Prop :=
  queue_requests p1 = queue_requests p0
  \/ exists request e',
      e = Std e'
      /\ queue_requests p1 = queue_requests p0 ++ [request]
      /\ queue_send_message QP (length (queue_requests p0)) request
         = Raise e'.

Let extends (p0 p1 : Process) : Prop :=
  exists records, log (world p1) = log (world p0) ++ records.

Lemma extends_refl p : extends p p.
Proof. exists []. now rewrite app_nil_r. Qed.

Lemma extends_logged records p0 p1 :
  extends p0 p1 -> extends p0 (logged records p1).
Proof.
  intros [l H]. exists (l ++ records).
  now rewrite ResponseFacts.log_logged, H, app_assoc.
Qed.

Lemma sk_agent_with_outcome request_data p0 :
  let r := sk_agent_with QP request_data p0 in
  extends p0 (snd r)
  /\ ((exists fields request,
          request_data = JObj fields
          /\ PyDict.mem "requestId" fields = true
          /\ PyDict.mem "query" fields = true
          /\ fst r = Returns tt
          /\ queue_requests (snd r) = queue_requests p0 ++ [request]
          /\ queue_send_message QP (length (queue_requests p0)) request
             = Ok tt)
      \/ (exists e, fst r = Raises e /\ failed_with e p0 (snd r))).
Proof.
  intros r. subst r. unfold sk_agent_with.
  rewrite QueueFacts.qbind_qlift.
  assert (Hraise : forall e : pyexn,
             extends p0 p0
             /\ ((exists fields request,
                     request_data = JObj fields
                     /\ PyDict.mem "requestId" fields = true
                     /\ PyDict.mem "query" fields = true
                     /\ Raises (A := unit) e = Returns tt
                     /\ queue_requests p0 = queue_requests p0 ++ [request]
                     /\ queue_send_message QP (length (queue_requests p0))
                          request = Ok tt)
                 \/ (exists e0, Raises (A := unit) e = Raises e0
                                /\ failed_with e0 p0 p0))).
  { intros e. split; [apply extends_refl|]. right. exists e.
    split; [reflexivity | now left]. }
  destruct request_data as [| b | z | f | s | items | fields];
    try (cbn [missing_fields py_contains]; apply Hraise).
  - (* a string *)
    destruct (missing_fields (JStr s)) as [[|]|e]; apply Hraise.
  - (* a list *)
    destruct (missing_fields (JArr items)) as [[|]|e]; apply Hraise.
  - (* an object *)
    rewrite RequestFacts.missing_fields_object.
    destruct (PyDict.mem "requestId" fields) eqn:Mid;
      [|cbn [negb orb]; apply Hraise].
    destruct (PyDict.mem "query" fields) eqn:Mq;
      [|cbn [negb orb]; apply Hraise].
    cbn [negb orb].
    unfold PyDict.mem in Mid, Mq.
    destruct (PyDict.get fields "requestId") as [request_id|] eqn:Hid;
      [|discriminate].
    destruct (PyDict.get fields "query") as [query|] eqn:Hq; [|discriminate].
    pose proof (RequestFacts.sk_agent_with_complete QP fields request_id
                  query p0 Hid Hq) as Hrun.
    unfold sk_agent_with in Hrun.
    rewrite QueueFacts.qbind_qlift, RequestFacts.missing_fields_object in Hrun.
    unfold PyDict.mem in Hrun. rewrite Hid, Hq in Hrun.
    cbn [negb orb] in Hrun. cbv zeta in Hrun. rewrite Hrun. clear Hrun.
    rewrite QueueFacts.qbind_run.
    destruct (storage_account_name QP) as [account|e] eqn:Hacc.
    + destruct (queue_client_init QP (account_url_of account)
                  (PyDict.get_default (environ (host QP))
                     "SK_AGENT_RESPONSE_QUEUE_NAME" "sk-agent-response-queue")
                  DefaultAzureCredential) as [[]|e] eqn:Hinit.
      2:{ rewrite (RequestFacts.send_response_to_queue_rejected QP _ _
                     account e _ Hacc Hinit).
          cbn [fst snd]. split.
          { apply extends_logged.
            exists [LogRecord INFO
                      "Processing request {request_id} from {requester}: {query}"
                      [AJson request_id;
                       AJson (PyDict.get_default fields "requester"
                                (JStr "unknown"));
                       AJson query]].
            destruct p0 as [w n q]. now destruct w. }
          right. eexists. split; [reflexivity|]. now left. }
      rewrite (RequestFacts.send_response_to_queue_run QP _ _ account _ Hacc
                 Hinit).
      cbn [queue_requests set_clock_reads logged set_world clock_reads].
      match goal with
      | |- context [queue_send_message QP ?n ?request] =>
          destruct (queue_send_message QP n request) as [[]|e] eqn:Hsend
      end.
      * rewrite QueueFacts.qlogging_run. cbn [fst snd]. split.
        { do 2 apply extends_logged.
          exists [LogRecord INFO
                    "Processing request {request_id} from {requester}: {query}"
                    [AJson request_id;
                     AJson (PyDict.get_default fields "requester"
                              (JStr "unknown"));
                     AJson query]].
          destruct p0 as [w n q]. now destruct w. }
        left. do 2 eexists. split; [reflexivity|].
        split; [unfold PyDict.mem; now rewrite Hid|].
        split; [unfold PyDict.mem; now rewrite Hq|].
        split; [reflexivity|]. split; [reflexivity | exact Hsend].
      * cbn [fst snd]. split.
        { apply extends_logged.
          exists [LogRecord INFO
                    "Processing request {request_id} from {requester}: {query}"
                    [AJson request_id;
                     AJson (PyDict.get_default fields "requester"
                              (JStr "unknown"));
                     AJson query]].
          destruct p0 as [w n q]. now destruct w. }
        right. eexists. split; [reflexivity|]. right.
        do 2 eexists. split; [reflexivity|]. split; [reflexivity|].
        exact Hsend.
    + rewrite (RequestFacts.send_response_to_queue_unresolved QP _ _ e _ Hacc).
      cbn [fst snd]. split.
      { apply extends_logged.
        exists [LogRecord INFO
                  "Processing request {request_id} from {requester}: {query}"
                  [AJson request_id;
                   AJson (PyDict.get_default fields "requester"
                            (JStr "unknown"));
                   AJson query]].
        destruct p0 as [w n q]. now destruct w. }
      right. eexists. split; [reflexivity|]. now left.
Qed.

End Facts.
End OutcomeFacts.

(** X24: what [sk_agent_processor] does with any message at all.  It
    returns only for a body that decodes to an object with [requestId]
    and [query], and only after the queue service has accepted exactly
    one message.  In every other case it raises, the last record it logs
    is the error of the [except] clause that matches the exception, and
    the queue service has seen nothing, or the one request whose failure
    is the exception raised. *)
Theorem sk_returns_only_after_response
    (QP : QueuePlatform) (msg : QueueMessage) (p : Process) :
  let run := sk_agent.sk_agent_processor QP msg p in
  (fst run = Returns tt ->
   exists text fields request,
     bytes_decode (host QP) (get_body msg) = Ok text
     /\ json_loads (host QP) text = Ok (JObj fields)
     /\ PyDict.mem "requestId" fields = true
     /\ PyDict.mem "query" fields = true
     /\ queue_requests (snd run) = queue_requests p ++ [request]
     /\ queue_send_message QP (length (queue_requests p)) request = Ok tt)
  /\ (forall e,
        fst run = Raises e ->
        (exists records,
            log (world (snd run))
            = log (world p) ++ records ++
              [LogRecord ERROR (sk_error_message e) [exn_arg e]])
        /\ (queue_requests (snd run) = queue_requests p
            \/ exists request e',
                e = Std e'
                /\ queue_requests (snd run) = queue_requests p ++ [request]
                /\ queue_send_message QP (length (queue_requests p)) request
                   = Raise e')).
Proof.
  intros run. subst run. unfold sk_agent.sk_agent_processor.
  rewrite QueueFacts.qbind_qlogging. unfold qtry.
  rewrite QueueFacts.qbind_qlift.
  destruct (bytes_decode (host QP) (get_body msg)) as [text|e0] eqn:Hd.
  2:{ rewrite RequestFacts.sk_on_exception_run. cbn [fst snd]. split.
      - discriminate.
      - intros e He. injection He as <-. split; [|now left].
        exists [LogRecord INFO "SK Agent: Processing request from queue" []].
        rewrite QueueFacts.logged_logged, ResponseFacts.log_logged.
        reflexivity. }
  rewrite QueueFacts.qbind_qlogging, QueueFacts.qbind_qlift,
    QueueFacts.logged_logged.
  destruct (json_loads (host QP) text) as [request_data|e0] eqn:Hl.
  2:{ rewrite RequestFacts.sk_on_exception_run. cbn [fst snd]. split.
      - discriminate.
      - intros e He. injection He as <-. split; [|now left].
        exists [LogRecord INFO "SK Agent: Processing request from queue" [];
                LogRecord INFO "Request message: {message_body}" [AStr text]].
        rewrite QueueFacts.logged_logged, ResponseFacts.log_logged.
        reflexivity. }
  match goal with
  | |- context [sk_agent.sk_agent_with QP request_data ?p0] =>
      destruct (OutcomeFacts.sk_agent_with_outcome QP request_data p0)
        as [[records Hlog] Hcases];
      rewrite ResponseFacts.log_logged in Hlog;
      cbn [queue_requests logged set_world] in Hcases;
      destruct (sk_agent.sk_agent_with QP request_data p0) as [[[]|e1] p1]
  end; cbn [fst snd] in *.
  - split; [|discriminate]. intros _.
    destruct Hcases
      as [(fields & request & -> & Mid & Mq & _ & Hsent & Hsend)
         |(e & He & _)]; [|discriminate].
    exists text, fields, request. auto 7.
  - rewrite RequestFacts.sk_on_exception_run. cbn [fst snd].
    split; [discriminate|]. intros e He. injection He as <-.
    destruct Hcases as [(fields & request & _ & _ & _ & He & _)
                       |(e & He & Hfailed)]; [discriminate|].
    injection He as <-. split; [|exact Hfailed].
    exists ([LogRecord INFO "SK Agent: Processing request from queue" [];
             LogRecord INFO "Request message: {message_body}" [AStr text]]
            ++ records).
    rewrite ResponseFacts.log_logged, Hlog, <- !app_assoc. reflexivity.
Qed.

Lemma sk_returns_only_after_response_witness :
  exists e,
    fst (sk_agent.sk_agent_processor QueueCases.platform
           {| get_body := "[]" |} fresh_process)
    = Raises e
    /\ queue_requests
         (snd (sk_agent.sk_agent_processor QueueCases.platform
                 {| get_body := "[]" |} fresh_process))
       = [].
Proof.
  destruct (sk_returns_only_after_response QueueCases.platform
              {| get_body := "[]" |} fresh_process) as [Hret Hraise].
  destruct (fst (sk_agent.sk_agent_processor QueueCases.platform
                   {| get_body := "[]" |} fresh_process))
    as [[]|e] eqn:Hrun.
  - destruct (Hret eq_refl) as (text & fields & request & Hd & Hl & _).
    exfalso. injection Hd as <-. vm_compute in Hl. discriminate.
  - exists e. split; [reflexivity|].
    destruct (Hraise e eq_refl) as [_ [H|(request & e' & -> & _ & Hsend)]].
    + exact H.
    + exfalso. vm_compute in Hsend. discriminate.
Defined.
